(** * Annotation validation of pdfcpu: a shallow embedding

    The embedded source is [pkg/pdfcpu/validateAnnotations.go].  The file
    holds two revisions of the same validator: the one of package [pdfcpu]
    (lines 1-1615) and the one of package [validate] (lines 1616-3529).
    Both are embedded, in the modules [Pdfcpu] and [Validate]; what is
    literally the same in the two revisions lives in [Shared].

    Recursion through the object graph (Popup, IRT, AAPL:AKExtras, the page
    tree) is not structural, so the recursive entry points carry a fuel
    argument that is consumed at each recursive call only. *)

From Stdlib Require Import ZArith QArith Bool List.
From stdpp Require Import gmap strings list.

Set Warnings "-register-all".
Local Open Scope string_scope.

(** ** Object graph *)

(** Modelled from the spec: the version enumeration of the [types] package
    (section 3, an ordered enum of document versions); the source names
    [V10] to [V17]. *)
Inductive PDFVersion : Set :=
| V10 | V11 | V12 | V13 | V14 | V15 | V16 | V17.

Definition versionRank (v : PDFVersion) : nat :=
  match v with
  | V10 => 0 | V11 => 1 | V12 => 2 | V13 => 3
  | V14 => 4 | V15 => 5 | V16 => 6 | V17 => 7
  end.

Definition versionLt (a b : PDFVersion) : bool := Nat.ltb (versionRank a) (versionRank b).
Definition versionLe (a b : PDFVersion) : bool := Nat.leb (versionRank a) (versionRank b).
Definition versionEq (a b : PDFVersion) : bool := Nat.eqb (versionRank a) (versionRank b).

Definition allVersions : list PDFVersion := [V10; V11; V12; V13; V14; V15; V16; V17].

Inductive ValidationMode : Set := ValidationStrict | ValidationRelaxed.

Definition isRelaxed (m : ValidationMode) : bool :=
  match m with ValidationRelaxed => true | ValidationStrict => false end.

(** Modelled from the spec: the object graph node (section 3).  Go's [nil]
    object is [PDFNull]; a real is a finite decimal, kept as a rational. *)
Inductive PDFObject : Type :=
| PDFNull
| PDFBoolean (b : bool)
| PDFInteger (i : Z)
| PDFFloat (f : Q)
| PDFStringLiteral (s : string)
| PDFName (s : string)
| PDFArray (a : list PDFObject)
| PDFDict (d : gmap string PDFObject)
| PDFStreamDict (d : gmap string PDFObject) (raw : list Byte.byte)
| PDFIndirectRef (objectNumber : N) (generationNumber : N).

Abbreviation Dict := (gmap string PDFObject).

(** The validation context: document version, validation mode and the
    object table the resolver reads. *)
Record XRefTable : Type := mkXRefTable {
  Version : PDFVersion;
  ValidationModeOf : ValidationMode;
  Table : gmap N PDFObject
}.

(** ** Errors and results *)

(** The error taxonomy of section 7, plus the errors of the delegated
    validators, which are opaque here. *)
Inductive ErrorKind : Set :=
| MissingRequiredField
| UnsupportedInVersion
| UnexpectedType
| ConstraintViolation
| UnknownSubtype
| StructuralCorruption
| OrderingViolation
| CrossReferenceError
| DelegatedError.

(** An error value: its kind, where it was raised (a dictionary name for
    the field accessors, a function name otherwise) and what it names (the
    entry, or the offending string). *)
Record Error : Type := mkError {
  kind : ErrorKind;
  origin : string;
  subject : string
}.

(** What a call does: return a value, return an error, dereference a nil
    pointer (a Go runtime panic), or exhaust the recursion fuel. *)
Inductive Result (A : Type) : Type :=
| Ok (a : A)
| Err (e : Error)
| Panic
| OutOfFuel.

Arguments Ok {A} a.
Arguments Err {A} e.
Arguments Panic {A}.
Arguments OutOfFuel {A}.

Definition bind {A B : Type} (r : Result A) (k : A -> Result B) : Result B :=
  match r with
  | Ok a => k a
  | Err e => Err e
  | Panic => Panic
  | OutOfFuel => OutOfFuel
  end.

#[global] Instance result_ret : MRet Result := fun A a => Ok a.
#[global] Instance result_bind : MBind Result := fun A B k r => bind r k.

(** [_, err = f(...); return err] *)
Definition discard {A : Type} (r : Result A) : Result unit :=
  r;; Ok tt.

Definition isOk {A : Type} (r : Result A) : bool :=
  match r with Ok _ => true | _ => false end.

Definition failsWith {A : Type} (k : ErrorKind) (r : Result A) : Prop :=
  exists e, r = Err e /\ kind e = k.

Definition REQUIRED : bool := true.
Definition OPTIONAL : bool := false.

(** ** Resolver and dictionary helpers *)

(** Modelled from the spec: [XRefTable.Dereference] (section 6).  A direct
    object passes through; a reference resolves to the object stored under
    its number (possibly the null object); a dangling reference is an
    error. *)
Definition Dereference (xRefTable : XRefTable) (obj : PDFObject) : Result PDFObject :=
  match obj with
  | PDFIndirectRef n _ =>
      match Table xRefTable !! n with
      | Some o => Ok o
      | None => Err (mkError CrossReferenceError "Dereference" "dangling reference")
      end
  | _ => Ok obj
  end.

(** Modelled from the spec: [XRefTable.DereferenceDict] (section 6): nil
    for a null target, an error for a target that is not a dictionary. *)
Definition DereferenceDict (xRefTable : XRefTable) (obj : PDFObject) : Result (option Dict) :=
  o ← Dereference xRefTable obj;
  match o with
  | PDFNull => Ok None
  | PDFDict d => Ok (Some d)
  | _ => Err (mkError CrossReferenceError "DereferenceDict" "wrong type")
  end.

(** Modelled from the spec: [PDFDict.Find]. *)
Definition Find (dict : Dict) (key : string) : option PDFObject := dict !! key.

(** Modelled from the spec: [PDFDict.Type], the name under "Type". *)
Definition TypeOf (dict : Dict) : option string :=
  match dict !! "Type" with
  | Some (PDFName s) => Some s
  | _ => None
  end.

(** Modelled from the spec: [PDFDict.IntEntry], the integer under a key. *)
Definition IntEntry (dict : Dict) (key : string) : option Z :=
  match dict !! key with
  | Some (PDFInteger i) => Some i
  | _ => None
  end.

(** Modelled from the spec: [PDFDict.PDFArrayEntry], the array under a key. *)
Definition PDFArrayEntry (dict : Dict) (key : string) : option (list PDFObject) :=
  match dict !! key with
  | Some (PDFArray a) => Some a
  | _ => None
  end.

(** Modelled from the spec: [memberOf], membership of a string in a list. *)
Definition memberOf (s : string) (l : list string) : bool :=
  existsb (String.eqb s) l.

(** Modelled from the spec: [XRefTable.ValidateVersion] (section 4.3, b):
    a document version below the floor is a version error, whatever the
    validation mode. *)
Definition ValidateVersion (xRefTable : XRefTable) (element : string)
    (sinceVersion : PDFVersion) : Result unit :=
  if versionLt (Version xRefTable) sinceVersion
  then Err (mkError UnsupportedInVersion "ValidateVersion" element)
  else Ok tt.

(** ** Field accessor layer *)

Section Casts.
Variable xRefTable : XRefTable.

Definition asBoolean (o : PDFObject) : option bool :=
  match o with PDFBoolean b => Some b | _ => None end.

Definition asName (o : PDFObject) : option string :=
  match o with PDFName s => Some s | _ => None end.

Definition asInteger (o : PDFObject) : option Z :=
  match o with PDFInteger i => Some i | _ => None end.

Definition asNumber (o : PDFObject) : option Q :=
  match o with
  | PDFInteger i => Some (inject_Z i)
  | PDFFloat f => Some f
  | _ => None
  end.

Definition asString (o : PDFObject) : option string :=
  match o with PDFStringLiteral s => Some s | _ => None end.

Definition asDict (o : PDFObject) : option Dict :=
  match o with PDFDict d => Some d | _ => None end.

Definition asStreamDict (o : PDFObject) : option Dict :=
  match o with PDFStreamDict d _ => Some d | _ => None end.

Definition asArray (o : PDFObject) : option (list PDFObject) :=
  match o with PDFArray a => Some a | _ => None end.

Definition asObject (o : PDFObject) : option PDFObject := Some o.

(** An array element counts as being of a kind when it resolves to an
    object of that kind. *)
Definition resolvesTo {A : Type} (cast : PDFObject -> option A) (o : PDFObject) : bool :=
  match Dereference xRefTable o with
  | Ok o' => match cast o' with Some _ => true | None => false end
  | _ => false
  end.

Definition asArrayOf {A : Type} (cast : PDFObject -> option A)
    (o : PDFObject) : option (list PDFObject) :=
  match o with
  | PDFArray a => if forallb (resolvesTo cast) a then Some a else None
  | _ => None
  end.

Definition asNumberArray := asArrayOf asNumber.
Definition asIntegerArray := asArrayOf asInteger.
Definition asNameArray := asArrayOf asName.
Definition asArrayArray := asArrayOf asArray.

Definition asRectangle (o : PDFObject) : option (list PDFObject) :=
  match asNumberArray o with
  | Some a => if Nat.eqb (length a) 4 then Some a else None
  | None => None
  end.

Definition asStringOrStream (o : PDFObject) : option unit :=
  match o with
  | PDFStringLiteral _ | PDFStreamDict _ _ => Some tt
  | _ => None
  end.

Definition asBooleanOrStream (o : PDFObject) : option unit :=
  match o with
  | PDFBoolean _ | PDFStreamDict _ _ => Some tt
  | _ => None
  end.

Definition asStreamDictOrDict (o : PDFObject) : option unit :=
  match o with
  | PDFStreamDict _ _ | PDFDict _ => Some tt
  | _ => None
  end.
End Casts.

(** Modelled from the spec: the [validate<Kind>Entry] family (section 6),
    which is not part of this source file.  In the order the spec gives:
    a required entry that is absent is a missing-required-field error (an
    optional one yields nil); a present entry below the version floor is an
    unsupported-in-version error; a present entry of the wrong kind is an
    unexpected-type error; a present entry that fails the predicate is a
    constraint-violation error naming dictionary and key; otherwise the
    typed value is returned.  An entry that resolves to the null object
    counts as absent. *)
Definition validateKindEntry {A : Type} (cast : PDFObject -> option A)
    (xRefTable : XRefTable) (dict : Dict) (dictName entryName : string)
    (required : bool) (sinceVersion : PDFVersion)
    (validate : option (A -> bool)) : Result (option A) :=
  let absent :=
    if required
    then Err (mkError MissingRequiredField dictName entryName)
    else Ok None in
  match Find dict entryName with
  | None => absent
  | Some obj =>
      o ← Dereference xRefTable obj;
      match o with
      | PDFNull => absent
      | _ =>
          if versionLt (Version xRefTable) sinceVersion
          then Err (mkError UnsupportedInVersion dictName entryName)
          else
            match cast o with
            | None => Err (mkError UnexpectedType dictName entryName)
            | Some a =>
                match validate with
                | Some p =>
                    if p a then Ok (Some a)
                    else Err (mkError ConstraintViolation dictName entryName)
                | None => Ok (Some a)
                end
            end
      end
  end.

Definition validateBooleanEntry := validateKindEntry asBoolean.
Definition validateNameEntry := validateKindEntry asName.
Definition validateIntegerEntry := validateKindEntry asInteger.
Definition validateNumberEntry := validateKindEntry asNumber.
Definition validateStringEntry := validateKindEntry asString.
Definition validateDictEntry := validateKindEntry asDict.
Definition validateStreamDictEntry := validateKindEntry asStreamDict.
Definition validateArrayEntry := validateKindEntry asArray.

Definition validateNumberArrayEntry (xRefTable : XRefTable) :=
  validateKindEntry (asNumberArray xRefTable) xRefTable.
Definition validateIntegerArrayEntry (xRefTable : XRefTable) :=
  validateKindEntry (asIntegerArray xRefTable) xRefTable.
Definition validateNameArrayEntry (xRefTable : XRefTable) :=
  validateKindEntry (asNameArray xRefTable) xRefTable.
Definition validateArrayArrayEntry (xRefTable : XRefTable) :=
  validateKindEntry (asArrayArray xRefTable) xRefTable.
Definition validateRectangleEntry (xRefTable : XRefTable) :=
  validateKindEntry (asRectangle xRefTable) xRefTable.

Definition validateStringOrStreamEntry (xRefTable : XRefTable) (dict : Dict)
    (dictName entryName : string) (required : bool) (sinceVersion : PDFVersion)
  : Result unit :=
  discard (validateKindEntry asStringOrStream xRefTable dict dictName entryName
             required sinceVersion None).

Definition validateBooleanOrStreamEntry (xRefTable : XRefTable) (dict : Dict)
    (dictName entryName : string) (required : bool) (sinceVersion : PDFVersion)
  : Result unit :=
  discard (validateKindEntry asBooleanOrStream xRefTable dict dictName entryName
             required sinceVersion None).

Definition validateStreamDictOrDictEntry (xRefTable : XRefTable) (dict : Dict)
    (dictName entryName : string) (required : bool) (sinceVersion : PDFVersion)
  : Result unit :=
  discard (validateKindEntry asStreamDictOrDict xRefTable dict dictName entryName
             required sinceVersion None).

(** [validateEntry]: any object, with presence and version checked. *)
Definition validateEntry (xRefTable : XRefTable) (dict : Dict)
    (dictName entryName : string) (required : bool) (sinceVersion : PDFVersion)
  : Result (option PDFObject) :=
  validateKindEntry asObject xRefTable dict dictName entryName required sinceVersion None.

(** Modelled from the spec: [validateIndRefEntry] (section 6, kind
    IndirectRef): the entry itself has to be a reference, it is not
    resolved. *)
Definition validateIndRefEntry (xRefTable : XRefTable) (dict : Dict)
    (dictName entryName : string) (required : bool) (sinceVersion : PDFVersion)
  : Result (option PDFObject) :=
  match Find dict entryName with
  | None =>
      if required
      then Err (mkError MissingRequiredField dictName entryName)
      else Ok None
  | Some obj =>
      if versionLt (Version xRefTable) sinceVersion
      then Err (mkError UnsupportedInVersion dictName entryName)
      else
        match obj with
        | PDFIndirectRef _ _ => Ok (Some obj)
        | _ => Err (mkError UnexpectedType dictName entryName)
        end
  end.

(** ** Delegated validators *)

(** The validators of section 6 that this file calls and does not define:
    black boxes, each returning success or an error of its own.  The date
    format check of the Date accessor is one of them. *)
Record Delegates : Type := mkDelegates {
  validateDate : string -> bool;
  validateActionDict : XRefTable -> Dict -> Result unit;
  validateDestination : XRefTable -> PDFObject -> Result unit;
  validateURIActionDict : XRefTable -> Dict -> string -> Result unit;
  validateMeasureDict : XRefTable -> Dict -> PDFVersion -> Result unit;
  validateFileSpecEntry :
    XRefTable -> Dict -> string -> string -> bool -> PDFVersion -> Result unit;
  validateSoundDictEntry :
    XRefTable -> Dict -> string -> string -> bool -> PDFVersion -> Result unit;
  validateMovieActivationDict : XRefTable -> Dict -> Result unit;
  validateAdditionalActions :
    XRefTable -> Dict -> string -> string -> bool -> PDFVersion -> string -> Result unit;
  validateAppearanceDict : XRefTable -> Dict -> Result unit;
  validateOptionalContentGroupDict : XRefTable -> Dict -> PDFVersion -> Result unit;
  validateOptionalContentMembershipDict : XRefTable -> Dict -> PDFVersion -> Result unit
}.

(** The delegates that accept whatever they are given: the instance the
    concrete scenarios are run with. *)
Definition acceptAll : Delegates := {|
  validateDate := fun _ => true;
  validateActionDict := fun _ _ => Ok tt;
  validateDestination := fun _ _ => Ok tt;
  validateURIActionDict := fun _ _ _ => Ok tt;
  validateMeasureDict := fun _ _ _ => Ok tt;
  validateFileSpecEntry := fun _ _ _ _ _ _ => Ok tt;
  validateSoundDictEntry := fun _ _ _ _ _ _ => Ok tt;
  validateMovieActivationDict := fun _ _ => Ok tt;
  validateAdditionalActions := fun _ _ _ _ _ _ _ => Ok tt;
  validateAppearanceDict := fun _ _ => Ok tt;
  validateOptionalContentGroupDict := fun _ _ _ => Ok tt;
  validateOptionalContentMembershipDict := fun _ _ _ => Ok tt
|}.

(** Modelled from the spec: [validateDateEntry] (section 6, kind Date): a
    string in date format. *)
Definition validateDateEntry (dg : Delegates) (xRefTable : XRefTable) (dict : Dict)
    (dictName entryName : string) (required : bool) (sinceVersion : PDFVersion)
  : Result (option string) :=
  validateKindEntry
    (fun o => match asString o with
              | Some s => if validateDate dg s then Some s else None
              | None => None
              end)
    xRefTable dict dictName entryName required sinceVersion None.

(** ** Validators that are the same in both revisions *)

Module Shared.
Section Validators.
Variable dg : Delegates.

(** [validateBorderEffectDictEntry] (lines 55-79 and 1658-1686). *)
Definition validateBorderEffectDictEntry (xRefTable : XRefTable) (dict : Dict)
    (dictName entryName : string) (required : bool) (sinceVersion : PDFVersion)
  : Result unit :=
  d ← validateDictEntry xRefTable dict dictName entryName required sinceVersion None;
  match d with
  | None => Ok tt
  | Some d =>
      let dictName := "borderEffectDict" in
      validateNameEntry xRefTable d dictName "S" OPTIONAL V10
        (Some (fun s => String.eqb s "S" || String.eqb s "C"));;
      validateNumberEntry xRefTable d dictName "I" OPTIONAL V10
        (Some (fun f => Qle_bool 0%Q f && Qle_bool f 2%Q));;
      Ok tt
  end.

(** [validateBorderStyleDict] (lines 81-115 and 1688-1728); the second
    revision names the predicate on "S" [validateBorderStyle]. *)
Definition validateBorderStyle (s : string) : bool :=
  memberOf s ["S"; "D"; "B"; "I"; "U"; "A"].

Definition validateBorderStyleDict (xRefTable : XRefTable) (dict : Dict)
    (dictName entryName : string) (required : bool) (sinceVersion : PDFVersion)
  : Result unit :=
  d ← validateDictEntry xRefTable dict dictName entryName required sinceVersion None;
  match d with
  | None => Ok tt
  | Some d =>
      let dictName := "borderStyleDict" in
      validateNameEntry xRefTable d dictName "Type" OPTIONAL V10
        (Some (fun s => String.eqb s "Border"));;
      validateNumberEntry xRefTable d dictName "W" OPTIONAL V10 None;;
      validateNameEntry xRefTable d dictName "S" OPTIONAL V10 (Some validateBorderStyle);;
      discard (validateNumberArrayEntry xRefTable d dictName "D" OPTIONAL V10
                 (Some (fun a => Nat.leb (length a) 2)))
  end.

(** [validateIconFitDictEntry] (lines 117-154 and 1730-1770); the second
    revision names the predicate on "SW" [validateIconFitDict]. *)
Definition validateIconFitDict (s : string) : bool :=
  memberOf s ["A"; "B"; "S"; "N"].

Definition validateIconFitDictEntry (xRefTable : XRefTable) (dict : Dict)
    (dictName entryName : string) (required : bool) (sinceVersion : PDFVersion)
  : Result unit :=
  d ← validateDictEntry xRefTable dict dictName entryName required sinceVersion None;
  match d with
  | None => Ok tt
  | Some d =>
      let dictName := "iconFitDict" in
      validateNameEntry xRefTable d dictName "SW" OPTIONAL V10 (Some validateIconFitDict);;
      validateNameEntry xRefTable d dictName "S" OPTIONAL V10
        (Some (fun s => String.eqb s "A" || String.eqb s "P"));;
      validateNumberArrayEntry xRefTable d dictName "A" OPTIONAL V10 None;;
      validateBooleanEntry xRefTable d dictName "FB" OPTIONAL V10 None;;
      Ok tt
  end.

(** [validateAppearanceCharacteristicsDictEntry] (lines 156-231 and
    1772-1855). *)
Definition validateAppearanceCharacteristicsDictEntry (xRefTable : XRefTable)
    (dict : Dict) (dictName entryName : string) (required : bool)
    (sinceVersion : PDFVersion) : Result unit :=
  d ← validateDictEntry xRefTable dict dictName entryName required sinceVersion None;
  match d with
  | None => Ok tt
  | Some d =>
      let dictName := "appCharDict" in
      validateIntegerEntry xRefTable d dictName "R" OPTIONAL V10 None;;
      validateNumberArrayEntry xRefTable d dictName "BC" OPTIONAL V10 None;;
      validateNumberArrayEntry xRefTable d dictName "BG" OPTIONAL V10 None;;
      validateStringEntry xRefTable d dictName "CA" OPTIONAL V10 None;;
      validateStringEntry xRefTable d dictName "RC" OPTIONAL V10 None;;
      validateStringEntry xRefTable d dictName "AC" OPTIONAL V10 None;;
      validateStreamDictEntry xRefTable d dictName "I" OPTIONAL V10 None;;
      validateStreamDictEntry xRefTable d dictName "RI" OPTIONAL V10 None;;
      validateStreamDictEntry xRefTable d dictName "IX" OPTIONAL V10 None;;
      validateIconFitDictEntry xRefTable d dictName "IF" OPTIONAL V10;;
      discard (validateIntegerEntry xRefTable d dictName "TP" OPTIONAL V10
                 (Some (fun i => Z.leb 0 i && Z.leb i 6)))
  end.

(** [validateURIActionDictEntry] (lines 283-305 and 1917-1939). *)
Definition validateURIActionDictEntry (xRefTable : XRefTable) (dict : Dict)
    (dictName entryName : string) (required : bool) (sinceVersion : PDFVersion)
  : Result unit :=
  d ← validateDictEntry xRefTable dict dictName entryName required sinceVersion None;
  match d with
  | None => Ok tt
  | Some d =>
      let dictName := "URIActionDict" in
      validateNameEntry xRefTable d dictName "Type" OPTIONAL V10
        (Some (fun s => String.eqb s "Action"));;
      validateNameEntry xRefTable d dictName "S" REQUIRED V10
        (Some (fun s => String.eqb s "URI"));;
      validateURIActionDict dg xRefTable d dictName
  end.

(** [validateEntryMeasure] (lines 452-467 and 2109-2124). *)
Definition validateEntryMeasure (xRefTable : XRefTable) (dict : Dict)
    (dictName : string) (required : bool) (sinceVersion : PDFVersion)
  : Result unit :=
  d ← validateDictEntry xRefTable dict dictName "Measure" required sinceVersion None;
  match d with
  | Some d => validateMeasureDict dg xRefTable d sinceVersion
  | None => Ok tt
  end.

(** [validateCP] (lines 469 and 2126). *)
Definition validateCP (s : string) : bool :=
  String.eqb s "Inline" || String.eqb s "Top".

(** [validateEntryIT] (lines 583-605 and 2264-2286). *)
Definition validateIntent (xRefTable : XRefTable) (s : string) : bool :=
  if versionEq (Version xRefTable) V16 then String.eqb s "PolygonCloud"
  else if versionEq (Version xRefTable) V17
       then memberOf s ["PolygonCloud"; "PolyLineDimension"; "PolygonDimension"]
       else false.

Definition validateEntryIT (xRefTable : XRefTable) (dict : Dict)
    (dictName : string) (required : bool) (sinceVersion : PDFVersion)
  : Result unit :=
  discard (validateNameEntry xRefTable dict dictName "IT" required sinceVersion
             (Some (validateIntent xRefTable))).

(** [validateMovieDict] (lines 762-786 and 2541-2574).  The key of the
    second accessor is spelled as the source spells it. *)
Definition validateMovieDict (xRefTable : XRefTable) (dict : Dict) : Result unit :=
  let dictName := "movieDict" in
  validateFileSpecEntry dg xRefTable dict dictName "F" REQUIRED V10;;
  validateIntegerArrayEntry xRefTable dict dictName "Ascpect" OPTIONAL V10
    (Some (fun a => Nat.eqb (length a) 2));;
  validateIntegerEntry xRefTable dict dictName "Rotate" OPTIONAL V10 None;;
  validateBooleanOrStreamEntry xRefTable dict dictName "Poster" OPTIONAL V10.

(** The closure [validateFontDictArray] of [validateAnnotationDictTrapNet]
    (lines 969-997 and 2812-2840): the loop over the array, with the
    running [retValue]. *)
Fixpoint fontDictArrayLoop (xRefTable : XRefTable) (retValue : bool)
    (a : list PDFObject) : bool :=
  match a with
  | [] => retValue
  | v :: rest =>
      match v with
      | PDFNull => fontDictArrayLoop xRefTable retValue rest
      | _ =>
          match DereferenceDict xRefTable v with
          | Ok None => fontDictArrayLoop xRefTable retValue rest
          | Ok (Some dict) =>
              match TypeOf dict with
              | None => false
              | Some t =>
                  if negb (String.eqb t "Font") then false
                  else fontDictArrayLoop xRefTable true rest
              end
          | _ => false
          end
      end
  end.

Definition validateFontDictArray (xRefTable : XRefTable) (a : list PDFObject) : bool :=
  fontDictArrayLoop xRefTable false a.

(** The closure [validateFixedPrintDict] of [validateAnnotationDictWatermark]
    (lines 1015-1044 and 2870-2899). *)
Definition validateFixedPrintDict (xRefTable : XRefTable) (dict : Dict) : bool :=
  let dictName := "fixedPrintDict" in
  isOk (validateNameEntry xRefTable dict dictName "Type" REQUIRED V10
          (Some (fun s => String.eqb s "FixedPrint"));;
        validateIntegerArrayEntry xRefTable dict dictName "Matrix" OPTIONAL V10
          (Some (fun a => Nat.eqb (length a) 6));;
        validateNumberEntry xRefTable dict dictName "H" OPTIONAL V10 None;;
        validateNumberEntry xRefTable dict dictName "V" OPTIONAL V10 None;;
        Ok tt).

(** [validateEntryIC] (lines 1081-1116 and 2953-2988). *)
Definition validateICArray (xRefTable : XRefTable) (arr : list PDFObject) : bool :=
  if negb (Nat.eqb (length arr) 3) then false
  else
    forallb
      (fun v =>
         match Dereference xRefTable v with
         | Ok (PDFInteger n) => negb (Z.ltb n 0 || Z.ltb 1 n)
         | Ok (PDFFloat n) => negb (negb (Qle_bool 0%Q n) || negb (Qle_bool n 1%Q))
         | Ok _ => true
         | _ => false
         end)
      arr.

Definition validateEntryIC (xRefTable : XRefTable) (dict : Dict)
    (dictName : string) (required : bool) (sinceVersion : PDFVersion)
  : Result unit :=
  discard (validateNumberArrayEntry xRefTable dict dictName "IC" required sinceVersion
             (Some (validateICArray xRefTable))).

(** [validateExDataDict] (lines 1164-1176 and 3048-3060). *)
Definition validateExDataDict (xRefTable : XRefTable) (dict : Dict) : Result unit :=
  let dictName := "ExData" in
  validateNameEntry xRefTable dict dictName "Type" OPTIONAL V10
    (Some (fun s => String.eqb s "ExData"));;
  discard (validateNameEntry xRefTable dict dictName "Subtype" REQUIRED V10
             (Some (fun s => String.eqb s "Markup3D"))).

(** [validateOptionalContent] (lines 3176-3194); the first revision calls
    it and does not define it in this file. *)
Definition validateOptionalContent (xRefTable : XRefTable) (dict : Dict)
    (dictName entryName : string) (required : bool) (sinceVersion : PDFVersion)
  : Result unit :=
  d ← validateDictEntry xRefTable dict dictName entryName required sinceVersion None;
  match d with
  | None => Ok tt
  | Some d =>
      t ← validateNameEntry xRefTable d "optionalContent" "Type" REQUIRED sinceVersion
            (Some (fun s => String.eqb s "OCG" || String.eqb s "OCMD"));
      match t with
      | None => Panic
      | Some t =>
          if String.eqb t "OCG"
          then validateOptionalContentGroupDict dg xRefTable d sinceVersion
          else validateOptionalContentMembershipDict dg xRefTable d sinceVersion
      end
  end.

(** [validateEntryP] (lines 1297-1318 and 3196-3220). *)
Definition validateEntryP (xRefTable : XRefTable) (dict : Dict)
    (dictName : string) (required : bool) (sinceVersion : PDFVersion)
  : Result unit :=
  indRef ← validateIndRefEntry xRefTable dict dictName "P" required sinceVersion;
  match indRef with
  | None => Ok tt
  | Some indRef =>
      d ← DereferenceDict xRefTable indRef;
      match d with
      | None => Err (mkError CrossReferenceError "validateEntryP" "entry P is nil")
      | Some d =>
          discard (validateNameEntry xRefTable d "pageDict" "Type" REQUIRED V10
                     (Some (fun s => String.eqb s "Page")))
      end
  end.

(** [validateAppearDictEntry] (lines 1320-1332 and 3222-3234). *)
Definition validateAppearDictEntry (xRefTable : XRefTable) (dict : Dict)
    (dictName : string) (required : bool) (sinceVersion : PDFVersion)
  : Result unit :=
  d ← validateDictEntry xRefTable dict dictName "AP" required sinceVersion None;
  match d with
  | Some d => validateAppearanceDict dg xRefTable d
  | None => Ok tt
  end.

(** [validateBorderArrayLength] (lines 1334-1336 and 3236-3238). *)
Definition validateBorderArrayLength (a : list PDFObject) : bool :=
  Nat.eqb (length a) 3 || Nat.eqb (length a) 4.

(** [validateAnnotationDictGeneral] (lines 1338-1427 and 3240-3330): the
    fields common to every annotation; returns the subtype name. *)
Definition validateAnnotationDictGeneral (xRefTable : XRefTable) (dict : Dict)
    (dictName : string) : Result (option string) :=
  validateNameEntry xRefTable dict dictName "Type" OPTIONAL V10
    (Some (fun s => String.eqb s "Annot"));;
  subtype ← validateNameEntry xRefTable dict dictName "Subtype" REQUIRED V10 None;
  validateRectangleEntry xRefTable dict dictName "Rect" REQUIRED V10 None;;
  validateStringEntry xRefTable dict dictName "Contents" OPTIONAL V10 None;;
  validateEntryP xRefTable dict dictName OPTIONAL V10;;
  validateStringEntry xRefTable dict dictName "NM" OPTIONAL V14 None;;
  validateStringEntry xRefTable dict dictName "M" OPTIONAL V11 None;;
  validateIntegerEntry xRefTable dict dictName "F" OPTIONAL V11 None;;
  validateAppearDictEntry xRefTable dict dictName OPTIONAL V12;;
  validateNameEntry xRefTable dict dictName "AS" OPTIONAL V11 None;;
  validateNumberArrayEntry xRefTable dict dictName "Border" OPTIONAL V10
    (Some validateBorderArrayLength);;
  validateNumberArrayEntry xRefTable dict dictName "C" OPTIONAL V11 None;;
  validateIntegerEntry xRefTable dict dictName "StructParent" OPTIONAL V13 None;;
  validateOptionalContent xRefTable dict dictName "OC" OPTIONAL V15;;
  Ok subtype.

(** *** The callers of [validateAnnotationDict]

    [validateAnnotationDict] is reached again from the Popup and IRT entries
    of a markup annotation, from the AAPL:AKExtras entry, and from the page
    tree.  These callers take it as a parameter; each revision ties the knot
    with its own dispatch table. *)
Section Callers.
Variable validateAnnotationDict : XRefTable -> Dict -> Result bool.

(** [validateAAPLAKExtrasDictEntry] (lines 24-53 and 1623-1656).  The
    dictionary under "AAPL:AKPDFAnnotationDictionary" is optional, and is
    handed to [validateAnnotationDict] even when it is nil. *)
Definition validateAAPLAKExtrasDictEntry (xRefTable : XRefTable) (dict : Dict)
    (dictName entryName : string) (required : bool) (sinceVersion : PDFVersion)
  : Result unit :=
  d ← validateDictEntry xRefTable dict dictName entryName required sinceVersion None;
  match d with
  | None => Ok tt
  | Some d =>
      let dictName := "AAPLAKExtrasDict" in
      validateStringEntry xRefTable d dictName "AAPL:AKAnnotationObject" OPTIONAL
        sinceVersion None;;
      ad ← validateDictEntry xRefTable d dictName "AAPL:AKPDFAnnotationDictionary"
             OPTIONAL sinceVersion None;
      match ad with
      | None => Panic
      | Some ad => validateAnnotationDict xRefTable ad;; Ok tt
      end
  end.

(** [validateAnnotationDictSpecial] (lines 1486-1491 and 3384-3391). *)
Definition validateAnnotationDictSpecial (xRefTable : XRefTable) (dict : Dict)
    (dictName : string) : Result unit :=
  validateAAPLAKExtrasDictEntry xRefTable dict dictName "AAPL:AKExtras" OPTIONAL V10.

(** [validatePopupEntry] (lines 1178-1200 and 3062-3083). *)
Definition validatePopupEntry (xRefTable : XRefTable) (dict : Dict)
    (dictName entryName : string) (required : bool) (sinceVersion : PDFVersion)
  : Result unit :=
  d ← validateDictEntry xRefTable dict dictName entryName required sinceVersion None;
  match d with
  | Some d =>
      validateNameEntry xRefTable d dictName "Subtype" REQUIRED V10
        (Some (fun s => String.eqb s "Popup"));;
      validateAnnotationDict xRefTable d;;
      Ok tt
  | None => Ok tt
  end.

(** [validateIRTEntry] (lines 1202-1217 and 3085-3100). *)
Definition validateIRTEntry (xRefTable : XRefTable) (dict : Dict)
    (dictName entryName : string) (required : bool) (sinceVersion : PDFVersion)
  : Result unit :=
  d ← validateDictEntry xRefTable dict dictName entryName required sinceVersion None;
  match d with
  | Some d => validateAnnotationDict xRefTable d;; Ok tt
  | None => Ok tt
  end.

(** The element of an Annots array as an annotation dictionary: a
    reference to one, or one given inline (lines 1534-1547, 3444-3455). *)
Definition annotsDictOf (xRefTable : XRefTable) (v : PDFObject) : Result Dict :=
  match v with
  | PDFIndirectRef _ _ =>
      match DereferenceDict xRefTable v with
      | Ok (Some annotsDict) => Ok annotsDict
      | _ => Err (mkError StructuralCorruption "validatePageAnnotations"
                    "corrupted annotation dict")
      end
  | PDFDict annotsDict => Ok annotsDict
  | _ => Err (mkError StructuralCorruption "validatePageAnnotations"
                "corrupted array of indrefs")
  end.

(** The loop of [validatePageAnnotations] (lines 1528-1554, 3438-3462),
    with the running [hasTrapNet]. *)
Fixpoint pageAnnotationsLoop (xRefTable : XRefTable) (hasTrapNet : bool)
    (arr : list PDFObject) : Result unit :=
  match arr with
  | [] => Ok tt
  | v :: rest =>
      if hasTrapNet
      then Err (mkError OrderingViolation "validatePageAnnotations"
                  "corrupted page annotation list, TrapNet has to be the last entry")
      else
        annotsDict ← annotsDictOf xRefTable v;
        hasTrapNet ← validateAnnotationDict xRefTable annotsDict;
        pageAnnotationsLoop xRefTable hasTrapNet rest
  end.

(** [validatePageAnnotations] (lines 1515-1557 and 3419-3467). *)
Definition validatePageAnnotations (xRefTable : XRefTable) (dict : Dict) : Result unit :=
  arr ← validateArrayEntry xRefTable dict "pageDict" "Annots" OPTIONAL V10 None;
  match arr with
  | None => Ok tt
  | Some arr => pageAnnotationsLoop xRefTable false arr
  end.

(** The loop of [validatePagesAnnotations] over the kids (lines 1572-1612,
    3484-3524); [recurse] is the call on a "Pages" kid. *)
Fixpoint pagesKidsLoop (recurse : Dict -> Result unit) (xRefTable : XRefTable)
    (kidsArray : list PDFObject) : Result unit :=
  match kidsArray with
  | [] => Ok tt
  | v :: rest =>
      match v with
      | PDFNull => pagesKidsLoop recurse xRefTable rest
      | _ =>
          d ← DereferenceDict xRefTable v;
          match d with
          | None => Err (mkError StructuralCorruption "validatePagesAnnotations"
                           "pageNodeDict is null")
          | Some d =>
              match TypeOf d with
              | None => Err (mkError StructuralCorruption "validatePagesAnnotations"
                               "missing pageNodeDict type")
              | Some dictType =>
                  if String.eqb dictType "Pages"
                  then recurse d;; pagesKidsLoop recurse xRefTable rest
                  else if String.eqb dictType "Page"
                  then validatePageAnnotations xRefTable d;;
                       pagesKidsLoop recurse xRefTable rest
                  else Err (mkError StructuralCorruption "validatePagesAnnotations"
                              dictType)
              end
          end
      end
  end.

(** [validatePagesAnnotations] (lines 1559-1615 and 3469-3529).  [Kids] is
    read with [PDFArrayEntry], whose nil result is dereferenced by the
    [range] loop. *)
Fixpoint validatePagesAnnotations (fuel : nat) (xRefTable : XRefTable)
    (dict : Dict) : Result unit :=
  match IntEntry dict "Count" with
  | None => Err (mkError MissingRequiredField "validatePagesAnnotations" "Count")
  | Some pageCount =>
      match PDFArrayEntry dict "Kids" with
      | None => Panic
      | Some kidsArray =>
          pagesKidsLoop
            (fun d =>
               match fuel with
               | O => OutOfFuel
               | S fuel' => validatePagesAnnotations fuel' xRefTable d
               end)
            xRefTable kidsArray
      end
  end.

End Callers.
End Validators.
End Shared.

(** ** The revision of package [pdfcpu] (lines 1-1615) *)

Module Pdfcpu.

(** The entries whose version floor depends on the validation mode: each
    one is an occurrence of
    [sinceVersion := Vs; if xRefTable.ValidationMode == ValidationRelaxed { sinceVersion = Vr }]
    in this revision. *)
Inductive RelaxedEntry : Set :=
| LinkBS            (* line 336 *)
| FreeTextQ         (* line 353 *)
| FreeTextRC        (* line 363 *)
| FreeTextCL        (* line 379 *)
| FreeTextIT        (* line 392 *)
| FreeTextRD        (* line 411 *)
| FreeTextBS        (* line 421 *)
| FreeTextLE        (* line 431 *)
| LineLE            (* line 488, also used for IC *)
| CircleOrSquareIC  (* line 562 *)
| MarkupSubj        (* line 1260 *).

Definition allRelaxedEntries : list RelaxedEntry :=
  [LinkBS; FreeTextQ; FreeTextRC; FreeTextCL; FreeTextIT; FreeTextRD;
   FreeTextBS; FreeTextLE; LineLE; CircleOrSquareIC; MarkupSubj].

(** The floor assigned first (strict) and the one substituted under
    relaxed validation. *)
Definition floors (e : RelaxedEntry) : PDFVersion * PDFVersion :=
  match e with
  | LinkBS => (V16, V13)
  | FreeTextQ => (V14, V13)
  | FreeTextRC => (V15, V14)
  | FreeTextCL => (V16, V14)
  | FreeTextIT => (V16, V14)
  | FreeTextRD => (V16, V14)
  | FreeTextBS => (V16, V13)
  | FreeTextLE => (V16, V14)
  | LineLE => (V14, V13)
  | CircleOrSquareIC => (V14, V13)
  | MarkupSubj => (V15, V14)
  end.

Definition sinceVersionIn (mode : ValidationMode) (e : RelaxedEntry) : PDFVersion :=
  if isRelaxed mode then snd (floors e) else fst (floors e).

Section Validators.
Variable dg : Delegates.

(** [validateAnnotationDictText] (lines 233-261). *)
Definition validateAnnotationDictText (xRefTable : XRefTable) (dict : Dict)
    (dictName : string) : Result unit :=
  validateBooleanEntry xRefTable dict dictName "Open" OPTIONAL V10 None;;
  validateNameEntry xRefTable dict dictName "Name" OPTIONAL V10 None;;
  state ← validateStringEntry xRefTable dict dictName "State" OPTIONAL V15
            (Some (fun s => memberOf s ["None"; "Unmarked"]));
  discard (validateStringEntry xRefTable dict dictName "StateModel"
             (match state with Some _ => true | None => false end) V15
             (Some (fun s => memberOf s ["Marked"; "Review"]))).

(** [validateActionOrDestination] (lines 263-281). *)
Definition validateActionOrDestination (xRefTable : XRefTable) (dict : Dict)
    (dictName : string) (sinceVersion : PDFVersion) : Result unit :=
  d ← validateDictEntry xRefTable dict dictName "A" OPTIONAL sinceVersion None;
  match d with
  | Some d => validateActionDict dg xRefTable d
  | None =>
      obj ← validateEntry xRefTable dict dictName "Dest" OPTIONAL sinceVersion;
      match obj with
      | None => Ok tt
      | Some obj => validateDestination dg xRefTable obj
      end
  end.

(** [validateAnnotationDictLink] (lines 307-342). *)
Definition validateAnnotationDictLink (xRefTable : XRefTable) (dict : Dict)
    (dictName : string) : Result unit :=
  validateActionOrDestination xRefTable dict dictName V11;;
  validateNameEntry xRefTable dict dictName "H" OPTIONAL V12 None;;
  Shared.validateURIActionDictEntry dg xRefTable dict dictName "PA" OPTIONAL V13;;
  validateNumberArrayEntry xRefTable dict dictName "QuadPoints" OPTIONAL V16
    (Some (fun a => Nat.eqb (length a) 8));;
  let sinceVersion := sinceVersionIn (ValidationModeOf xRefTable) LinkBS in
  Shared.validateBorderStyleDict xRefTable dict dictName "BS" OPTIONAL sinceVersion.

(** [validateAnnotationDictFreeTextPart1] (lines 344-387); the parameter
    [sinceVersion] is overwritten before its first use. *)
Definition validateAnnotationDictFreeTextPart1 (xRefTable : XRefTable) (dict : Dict)
    (dictName : string) (sinceVersion : PDFVersion) : Result unit :=
  validateStringEntry xRefTable dict dictName "DA" REQUIRED V10 None;;
  let sinceVersion := sinceVersionIn (ValidationModeOf xRefTable) FreeTextQ in
  validateIntegerEntry xRefTable dict dictName "Q" OPTIONAL sinceVersion
    (Some (fun i => Z.leb 0 i && Z.leb i 2));;
  let sinceVersion := sinceVersionIn (ValidationModeOf xRefTable) FreeTextRC in
  validateStringOrStreamEntry xRefTable dict dictName "RC" OPTIONAL sinceVersion;;
  validateStringEntry xRefTable dict dictName "DS" OPTIONAL V15 None;;
  let sinceVersion := sinceVersionIn (ValidationModeOf xRefTable) FreeTextCL in
  discard (validateNumberArrayEntry xRefTable dict dictName "CL" OPTIONAL sinceVersion
             (Some (fun a => Nat.eqb (length a) 4 || Nat.eqb (length a) 6))).

(** [validateAnnotationDictFreeTextPart2] (lines 389-438). *)
Definition validateAnnotationDictFreeTextPart2 (xRefTable : XRefTable) (dict : Dict)
    (dictName : string) (sinceVersion : PDFVersion) : Result unit :=
  let sinceVersion := sinceVersionIn (ValidationModeOf xRefTable) FreeTextIT in
  validateNameEntry xRefTable dict dictName "IT" OPTIONAL sinceVersion
    (Some (fun s => memberOf s
       ["FreeText"; "FreeTextCallout"; "FreeTextTypeWriter"; "FreeTextTypewriter"]));;
  Shared.validateBorderEffectDictEntry xRefTable dict dictName "BE" OPTIONAL V15;;
  let sinceVersion := sinceVersionIn (ValidationModeOf xRefTable) FreeTextRD in
  validateRectangleEntry xRefTable dict dictName "RD" OPTIONAL sinceVersion None;;
  let sinceVersion := sinceVersionIn (ValidationModeOf xRefTable) FreeTextBS in
  Shared.validateBorderStyleDict xRefTable dict dictName "BS" OPTIONAL sinceVersion;;
  let sinceVersion := sinceVersionIn (ValidationModeOf xRefTable) FreeTextLE in
  discard (validateNameEntry xRefTable dict dictName "LE" OPTIONAL sinceVersion None).

(** [validateAnnotationDictFreeText] (lines 440-450). *)
Definition validateAnnotationDictFreeText (xRefTable : XRefTable) (dict : Dict)
    (dictName : string) : Result unit :=
  validateAnnotationDictFreeTextPart1 xRefTable dict dictName V13;;
  validateAnnotationDictFreeTextPart2 xRefTable dict dictName V13.

(** [validateAnnotationDictLine] (lines 471-549). *)
Definition validateAnnotationDictLine (xRefTable : XRefTable) (dict : Dict)
    (dictName : string) : Result unit :=
  validateNumberArrayEntry xRefTable dict dictName "L" REQUIRED V10
    (Some (fun a => Nat.eqb (length a) 4));;
  Shared.validateBorderStyleDict xRefTable dict dictName "BS" OPTIONAL V10;;
  let sinceVersion := sinceVersionIn (ValidationModeOf xRefTable) LineLE in
  validateNameArrayEntry xRefTable dict dictName "LE" OPTIONAL sinceVersion
    (Some (fun a => Nat.eqb (length a) 2));;
  validateNumberArrayEntry xRefTable dict dictName "IC" OPTIONAL sinceVersion None;;
  lle ← validateNumberEntry xRefTable dict dictName "LLE" OPTIONAL V16
          (Some (fun f => negb (Qle_bool f 0%Q)));
  validateNumberEntry xRefTable dict dictName "LL"
    (match lle with Some _ => true | None => false end) V16 None;;
  validateBooleanEntry xRefTable dict dictName "Cap" OPTIONAL V16 None;;
  validateNameEntry xRefTable dict dictName "IT" OPTIONAL V16 None;;
  validateNumberEntry xRefTable dict dictName "LLO" OPTIONAL V17
    (Some (fun f => negb (Qle_bool f 0%Q)));;
  validateNameEntry xRefTable dict dictName "CP" OPTIONAL V17 (Some Shared.validateCP);;
  Shared.validateEntryMeasure dg xRefTable dict dictName OPTIONAL V17;;
  discard (validateNumberArrayEntry xRefTable dict dictName "CO" OPTIONAL V17
             (Some (fun a => Nat.eqb (length a) 2))).

(** [validateAnnotationDictCircleOrSquare] (lines 551-581). *)
Definition validateAnnotationDictCircleOrSquare (xRefTable : XRefTable) (dict : Dict)
    (dictName : string) : Result unit :=
  Shared.validateBorderStyleDict xRefTable dict dictName "BS" OPTIONAL V10;;
  let sinceVersion := sinceVersionIn (ValidationModeOf xRefTable) CircleOrSquareIC in
  validateNumberArrayEntry xRefTable dict dictName "IC" OPTIONAL sinceVersion None;;
  Shared.validateBorderEffectDictEntry xRefTable dict dictName "BE" OPTIONAL V15;;
  discard (validateRectangleEntry xRefTable dict dictName "RD" OPTIONAL V15 None).

(** The closure [ensureArrayLength] of [validateAnnotationDictPolyLine]. *)
Definition ensureArrayLength (a : list PDFObject) (lengths : list nat) : bool :=
  existsb (fun n => Nat.eqb (length a) n) lengths.

(** [validateAnnotationDictPolyLine] (lines 607-654). *)
Definition validateAnnotationDictPolyLine (xRefTable : XRefTable) (dict : Dict)
    (dictName : string) : Result unit :=
  validateNumberArrayEntry xRefTable dict dictName "Vertices" REQUIRED V10 None;;
  (if String.eqb dictName "PolyLine"
   then discard (validateNameArrayEntry xRefTable dict dictName "LE" OPTIONAL V10
                   (Some (fun a => Nat.eqb (length a) 2)))
   else Ok tt);;
  Shared.validateBorderStyleDict xRefTable dict dictName "BS" OPTIONAL V10;;
  validateNumberArrayEntry xRefTable dict dictName "IC" OPTIONAL V14
    (Some (fun a => ensureArrayLength a [1; 3; 4]%nat));;
  (if String.eqb dictName "Polygon"
   then Shared.validateBorderEffectDictEntry xRefTable dict dictName "BE" OPTIONAL V10
   else Ok tt);;
  Shared.validateEntryIT xRefTable dict dictName OPTIONAL V16.

(** [validateTextMarkupAnnotation] (lines 656-664). *)
Definition validateTextMarkupAnnotation (xRefTable : XRefTable) (dict : Dict)
    (dictName : string) : Result unit :=
  discard (validateNumberArrayEntry xRefTable dict dictName "QuadPoints" REQUIRED V10
             (Some (fun a => Nat.eqb (length a) 8))).

(** [validateAnnotationDictStamp] (lines 666-674). *)
Definition validateAnnotationDictStamp (xRefTable : XRefTable) (dict : Dict)
    (dictName : string) : Result unit :=
  discard (validateNameEntry xRefTable dict dictName "Name" OPTIONAL V10 None).

(** [validateAnnotationDictCaret] (lines 676-690). *)
Definition validateAnnotationDictCaret (xRefTable : XRefTable) (dict : Dict)
    (dictName : string) : Result unit :=
  validateRectangleEntry xRefTable dict dictName "RD" OPTIONAL V15 None;;
  discard (validateNameEntry xRefTable dict dictName "Sy" OPTIONAL V10
             (Some (fun s => String.eqb s "P" || String.eqb s "None"))).

(** [validateAnnotationDictInk] (lines 692-706). *)
Definition validateAnnotationDictInk (xRefTable : XRefTable) (dict : Dict)
    (dictName : string) : Result unit :=
  validateArrayArrayEntry xRefTable dict dictName "InkList" REQUIRED V10 None;;
  Shared.validateBorderStyleDict xRefTable dict dictName "BS" OPTIONAL V10.

(** [validateAnnotationDictPopup] (lines 708-728).  When "Parent" resolves
    to nil the function returns the nil error at once. *)
Definition validateAnnotationDictPopup (xRefTable : XRefTable) (dict : Dict)
    (dictName : string) : Result unit :=
  indRef ← validateIndRefEntry xRefTable dict dictName "Parent" OPTIONAL V10;
  let open := discard (validateBooleanEntry xRefTable dict dictName "Open" OPTIONAL V10 None) in
  match indRef with
  | Some indRef =>
      d ← DereferenceDict xRefTable indRef;
      match d with
      | None => Ok tt
      | Some _ => open
      end
  | None => open
  end.

(** [validateAnnotationDictFileAttachment] (lines 730-744). *)
Definition validateAnnotationDictFileAttachment (xRefTable : XRefTable) (dict : Dict)
    (dictName : string) : Result unit :=
  validateFileSpecEntry dg xRefTable dict dictName "FS" REQUIRED V10;;
  discard (validateNameEntry xRefTable dict dictName "Name" OPTIONAL V10 None).

(** [validateAnnotationDictSound] (lines 746-760). *)
Definition validateAnnotationDictSound (xRefTable : XRefTable) (dict : Dict)
    (dictName : string) : Result unit :=
  validateSoundDictEntry dg xRefTable dict dictName "Sound" REQUIRED V10;;
  discard (validateNameEntry xRefTable dict dictName "Name" OPTIONAL V10 None).

(** [validateAnnotationDictMovie] (lines 788-838). *)
Definition validateAnnotationDictMovie (xRefTable : XRefTable) (dict : Dict)
    (dictName : string) : Result unit :=
  validateStringEntry xRefTable dict dictName "T" OPTIONAL V10 None;;
  d ← validateDictEntry xRefTable dict dictName "Movie" REQUIRED V10 None;
  match d with
  | None => Panic
  | Some d =>
      Shared.validateMovieDict dg xRefTable d;;
      match Find dict "A" with
      | Some obj =>
          obj ← Dereference xRefTable obj;
          match obj with
          | PDFDict obj => validateMovieActivationDict dg xRefTable obj
          | _ => Ok tt
          end
      | None => Ok tt
      end
  end.

(** [validateAnnotationDictWidget] (lines 840-892).  The result of the call
    on "BS" (line 882) is dropped: the test after it reads the [err] of the
    call before. *)
Definition validateAnnotationDictWidget (xRefTable : XRefTable) (dict : Dict)
    (dictName : string) : Result unit :=
  validateNameEntry xRefTable dict dictName "H" OPTIONAL V10
    (Some (fun s => memberOf s ["N"; "I"; "O"; "P"; "T"; "A"]));;
  Shared.validateAppearanceCharacteristicsDictEntry xRefTable dict dictName "MK" OPTIONAL V10;;
  d ← validateDictEntry xRefTable dict dictName "A" OPTIONAL V11 None;
  match d with
  | Some d => validateActionDict dg xRefTable d
  | None => Ok tt
  end;;
  validateAdditionalActions dg xRefTable dict dictName "AA" OPTIONAL V12 "fieldOrAnnot";;
  let _dropped := Shared.validateBorderStyleDict xRefTable dict dictName "BS" OPTIONAL V12 in
  discard (validateIndRefEntry xRefTable dict dictName "Parent" OPTIONAL V10).

(** [validateAnnotationDictScreen] (lines 894-924). *)
Definition validateAnnotationDictScreen (xRefTable : XRefTable) (dict : Dict)
    (dictName : string) : Result unit :=
  validateNameEntry xRefTable dict dictName "T" OPTIONAL V10 None;;
  Shared.validateAppearanceCharacteristicsDictEntry xRefTable dict dictName "MK" OPTIONAL V10;;
  d ← validateDictEntry xRefTable dict dictName "A" OPTIONAL V10 None;
  match d with
  | Some d => validateActionDict dg xRefTable d
  | None => Ok tt
  end;;
  validateAdditionalActions dg xRefTable dict dictName "AA" OPTIONAL V12 "fieldOrAnnot".

(** [validateAnnotationDictPrinterMark] (lines 926-944). *)
Definition validateAnnotationDictPrinterMark (xRefTable : XRefTable) (dict : Dict)
    (dictName : string) : Result unit :=
  validateNameEntry xRefTable dict dictName "MN" OPTIONAL V10 None;;
  validateIntegerEntry xRefTable dict dictName "F" REQUIRED V11 None;;
  Shared.validateAppearDictEntry dg xRefTable dict dictName REQUIRED V12.

(** [validateAnnotationDictTrapNet] (lines 946-1007). *)
Definition validateAnnotationDictTrapNet (xRefTable : XRefTable) (dict : Dict)
    (dictName : string) : Result unit :=
  validateDateEntry dg xRefTable dict dictName "LastModified" OPTIONAL V10;;
  validateArrayEntry xRefTable dict dictName "Version" OPTIONAL V10 None;;
  validateNameArrayEntry xRefTable dict dictName "AnnotStates" OPTIONAL V10 None;;
  validateArrayEntry xRefTable dict dictName "FontFauxing" OPTIONAL V10
    (Some (Shared.validateFontDictArray xRefTable));;
  discard (validateIntegerEntry xRefTable dict dictName "F" REQUIRED V11 None).

(** [validateAnnotationDictWatermark] (lines 1009-1049). *)
Definition validateAnnotationDictWatermark (xRefTable : XRefTable) (dict : Dict)
    (dictName : string) : Result unit :=
  discard (validateDictEntry xRefTable dict dictName "FixedPrint" OPTIONAL V10
             (Some (Shared.validateFixedPrintDict xRefTable))).

(** [validateAnnotationDict3D] (lines 1051-1079). *)
Definition validateAnnotationDict3D (xRefTable : XRefTable) (dict : Dict)
    (dictName : string) : Result unit :=
  validateStreamDictOrDictEntry xRefTable dict dictName "3DD" REQUIRED V16;;
  validateEntry xRefTable dict dictName "3DV" OPTIONAL V16;;
  validateDictEntry xRefTable dict dictName "3DA" OPTIONAL V16 None;;
  discard (validateBooleanEntry xRefTable dict dictName "3DI" OPTIONAL V16 None).

(** [validateAnnotationDictRedact] (lines 1118-1162). *)
Definition validateAnnotationDictRedact (xRefTable : XRefTable) (dict : Dict)
    (dictName : string) : Result unit :=
  validateNumberArrayEntry xRefTable dict dictName "QuadPoints" OPTIONAL V10 None;;
  Shared.validateEntryIC xRefTable dict dictName OPTIONAL V10;;
  validateStreamDictEntry xRefTable dict dictName "RO" OPTIONAL V10 None;;
  validateStringEntry xRefTable dict dictName "OverlayText" OPTIONAL V10 None;;
  validateBooleanEntry xRefTable dict dictName "Repeat" OPTIONAL V10 None;;
  validateStringEntry xRefTable dict dictName "DA" REQUIRED V10 None;;
  discard (validateIntegerEntry xRefTable dict dictName "Q" OPTIONAL V10 None).

(** The dispatch table of [validateAnnotationDictConcrete] (lines
    1433-1464): subtype name, validator, minimum version, markup flag. *)
Record Descriptor : Type := mkDescriptor {
  validate : XRefTable -> Dict -> string -> Result unit;
  sinceVersion : PDFVersion;
  markup : bool
}.

Definition annotationTable : list (string * Descriptor) :=
  [ ("Text", mkDescriptor validateAnnotationDictText V10 true);
    ("Link", mkDescriptor validateAnnotationDictLink V10 false);
    ("FreeText", mkDescriptor validateAnnotationDictFreeText V13 true);
    ("Line", mkDescriptor validateAnnotationDictLine V13 true);
    ("Polygon", mkDescriptor validateAnnotationDictPolyLine V15 true);
    ("PolyLine", mkDescriptor validateAnnotationDictPolyLine V15 true);
    ("Highlight", mkDescriptor validateTextMarkupAnnotation V13 true);
    ("Underline", mkDescriptor validateTextMarkupAnnotation V13 true);
    ("Squiggly", mkDescriptor validateTextMarkupAnnotation V14 true);
    ("StrikeOut", mkDescriptor validateTextMarkupAnnotation V13 true);
    ("Square", mkDescriptor validateAnnotationDictCircleOrSquare V13 true);
    ("Circle", mkDescriptor validateAnnotationDictCircleOrSquare V13 true);
    ("Stamp", mkDescriptor validateAnnotationDictStamp V13 true);
    ("Caret", mkDescriptor validateAnnotationDictCaret V15 true);
    ("Ink", mkDescriptor validateAnnotationDictInk V13 true);
    ("Popup", mkDescriptor validateAnnotationDictPopup V13 false);
    ("FileAttachment", mkDescriptor validateAnnotationDictFileAttachment V13 true);
    ("Sound", mkDescriptor validateAnnotationDictSound V12 true);
    ("Movie", mkDescriptor validateAnnotationDictMovie V12 false);
    ("Widget", mkDescriptor validateAnnotationDictWidget V12 false);
    ("Screen", mkDescriptor validateAnnotationDictScreen V15 false);
    ("PrinterMark", mkDescriptor validateAnnotationDictPrinterMark V14 false);
    ("TrapNet", mkDescriptor validateAnnotationDictTrapNet V13 false);
    ("Watermark", mkDescriptor validateAnnotationDictWatermark V16 false);
    ("3D", mkDescriptor validateAnnotationDict3D V16 false);
    ("Redact", mkDescriptor validateAnnotationDictRedact V17 true) ].

(** The [range] over the table with its test [subtype.Value() == k]: the
    keys of a map are distinct, so at most one entry is taken. *)
Fixpoint lookupDescriptor (subtype : string) (table : list (string * Descriptor))
  : option (string * Descriptor) :=
  match table with
  | [] => None
  | (k, v) :: rest =>
      if String.eqb subtype k then Some (k, v) else lookupDescriptor subtype rest
  end.

Section Recursion.
Variable validateAnnotationDict : XRefTable -> Dict -> Result bool.

(** [validateMarkupAnnotation] (lines 1219-1295). *)
Definition validateMarkupAnnotation (xRefTable : XRefTable) (dict : Dict) : Result unit :=
  let dictName := "markupAnnot" in
  validateStringEntry xRefTable dict dictName "T" OPTIONAL V11 None;;
  Shared.validatePopupEntry validateAnnotationDict xRefTable dict dictName "Popup" OPTIONAL V13;;
  validateNumberEntry xRefTable dict dictName "CA" OPTIONAL V14 None;;
  validateStringOrStreamEntry xRefTable dict dictName "RC" OPTIONAL V15;;
  validateDateEntry dg xRefTable dict dictName "CreationDate" OPTIONAL V15;;
  Shared.validateIRTEntry validateAnnotationDict xRefTable dict dictName "IRT" OPTIONAL V15;;
  let sinceVersion := sinceVersionIn (ValidationModeOf xRefTable) MarkupSubj in
  validateStringEntry xRefTable dict dictName "Subj" OPTIONAL sinceVersion None;;
  validateNameEntry xRefTable dict dictName "RT" OPTIONAL V16
    (Some (fun s => String.eqb s "R" || String.eqb s "Group"));;
  validateNameEntry xRefTable dict dictName "IT" OPTIONAL V16 None;;
  d ← validateDictEntry xRefTable dict dictName "ExData" OPTIONAL V17 None;
  match d with
  | Some d => Shared.validateExDataDict xRefTable d
  | None => Ok tt
  end.

(** [validateAnnotationDictConcrete] (lines 1429-1484): the version of the
    document is checked first, then the markup fields, then the subtype's
    own fields. *)
Definition validateAnnotationDictConcrete (xRefTable : XRefTable) (dict : Dict)
    (subtype : string) : Result unit :=
  match lookupDescriptor subtype annotationTable with
  | Some (k, v) =>
      ValidateVersion xRefTable k (sinceVersion v);;
      (if markup v then validateMarkupAnnotation xRefTable dict else Ok tt);;
      validate v xRefTable dict k
  | None =>
      Err (mkError UnknownSubtype "validateAnnotationDictConcrete" subtype)
  end.

(** The body of [validateAnnotationDict] (lines 1493-1513). *)
Definition validateAnnotationDictBody (xRefTable : XRefTable) (dict : Dict) : Result bool :=
  let dictName := "annotDict" in
  subtype ← Shared.validateAnnotationDictGeneral dg xRefTable dict dictName;
  match subtype with
  | None => Panic
  | Some subtype =>
      validateAnnotationDictConcrete xRefTable dict subtype;;
      Shared.validateAnnotationDictSpecial validateAnnotationDict xRefTable dict dictName;;
      Ok (String.eqb subtype "TrapNet")
  end.

End Recursion.

(** [validateAnnotationDict]: a recursive call costs one unit of fuel. *)
Fixpoint validateAnnotationDict (fuel : nat) (xRefTable : XRefTable) (dict : Dict)
  : Result bool :=
  validateAnnotationDictBody
    (fun x d =>
       match fuel with
       | O => OutOfFuel
       | S fuel' => validateAnnotationDict fuel' x d
       end)
    xRefTable dict.

(** [validatePageAnnotations] (lines 1515-1557). *)
Definition validatePageAnnotations (fuel : nat) (xRefTable : XRefTable) (dict : Dict)
  : Result unit :=
  Shared.validatePageAnnotations (validateAnnotationDict fuel) xRefTable dict.

(** [validatePagesAnnotations] (lines 1559-1615). *)
Definition validatePagesAnnotations (fuel : nat) (xRefTable : XRefTable) (dict : Dict)
  : Result unit :=
  Shared.validatePagesAnnotations (validateAnnotationDict fuel) fuel xRefTable dict.

End Validators.
End Pdfcpu.

(** ** The revision of package [validate] (lines 1616-3529) *)

Module Validate.

(** The entries whose version floor depends on the validation mode in
    this revision. *)
Inductive RelaxedEntry : Set :=
| LinkBS            (* line 1977 *)
| FreeTextQ         (* line 2000 *)
| FreeTextRC        (* line 2010 *)
| FreeTextCL        (* line 2026 *)
| FreeTextIT        (* line 2038 *)
| FreeTextRD        (* line 2054 *)
| FreeTextBS        (* line 2064 *)
| FreeTextLE        (* line 2074 *)
| LineLE            (* line 2152, also used for IC *)
| CircleOrSquareIC  (* line 2238 *).

Definition allRelaxedEntries : list RelaxedEntry :=
  [LinkBS; FreeTextQ; FreeTextRC; FreeTextCL; FreeTextIT; FreeTextRD;
   FreeTextBS; FreeTextLE; LineLE; CircleOrSquareIC].

Definition floors (e : RelaxedEntry) : PDFVersion * PDFVersion :=
  match e with
  | LinkBS => (V16, V14)
  | FreeTextQ => (V14, V13)
  | FreeTextRC => (V15, V14)
  | FreeTextCL => (V16, V14)
  | FreeTextIT => (V16, V14)
  | FreeTextRD => (V16, V14)
  | FreeTextBS => (V16, V13)
  | FreeTextLE => (V16, V14)
  | LineLE => (V14, V13)
  | CircleOrSquareIC => (V14, V13)
  end.

Definition sinceVersionIn (mode : ValidationMode) (e : RelaxedEntry) : PDFVersion :=
  if isRelaxed mode then snd (floors e) else fst (floors e).

(** The block headed [// Version check] that opens every subtype validator
    of this revision; [fn] is the function name its message gives. *)
Definition versionCheck (xRefTable : XRefTable) (fn dictName : string)
    (sinceVersion : PDFVersion) : Result unit :=
  if versionLt (Version xRefTable) sinceVersion
  then Err (mkError UnsupportedInVersion fn dictName)
  else Ok tt.

(** Modelled from the spec: the predicates this revision names and does
    not define in this file; the sets are those of sections 4.3 (Text,
    FreeText, Widget), which the other revision writes inline. *)
Definition validateAnnotationState (s : string) : bool :=
  memberOf s ["None"; "Unmarked"].

Definition validateAnnotationStateModel (s : string) : bool :=
  memberOf s ["Marked"; "Review"].

Definition validateIntentOfFreeTextAnnotation (s : string) : bool :=
  memberOf s ["FreeText"; "FreeTextCallout"; "FreeTextTypeWriter"; "FreeTextTypewriter"].

Definition validateAnnotationHighlightingMode (s : string) : bool :=
  memberOf s ["N"; "I"; "O"; "P"; "T"; "A"].

Section Validators.
Variable dg : Delegates.

(** [validateAnnotationDictText] (lines 1857-1895). *)
Definition validateAnnotationDictText (xRefTable : XRefTable) (dict : Dict)
    (dictName : string) (sinceVersion : PDFVersion) : Result unit :=
  versionCheck xRefTable "validateAnnotationDictText" dictName sinceVersion;;
  validateBooleanEntry xRefTable dict dictName "Open" OPTIONAL V10 None;;
  validateNameEntry xRefTable dict dictName "Name" OPTIONAL V10 None;;
  state ← validateStringEntry xRefTable dict dictName "State" OPTIONAL V15
            (Some validateAnnotationState);
  validateStringEntry xRefTable dict dictName "StateModel"
    (match state with Some _ => true | None => false end) V15
    (Some validateAnnotationStateModel);;
  Ok tt.

(** [validateActionOrDestination] (lines 1897-1915). *)
Definition validateActionOrDestination (xRefTable : XRefTable) (dict : Dict)
    (dictName : string) : Result unit :=
  d1 ← validateDictEntry xRefTable dict dictName "A" OPTIONAL V11 None;
  match d1 with
  | Some d1 => validateActionDict dg xRefTable d1
  | None =>
      match Find dict "Dest" with
      | None => Err (mkError MissingRequiredField "validateActionOrDestination"
                       "missing action or destination")
      | Some d2 => validateDestination dg xRefTable d2
      end
  end.

(** [validateAnnotationDictLink] (lines 1941-1989). *)
Definition validateAnnotationDictLink (xRefTable : XRefTable) (dict : Dict)
    (dictName : string) (sinceVersion : PDFVersion) : Result unit :=
  versionCheck xRefTable "validateAnnotationDictLink" dictName sinceVersion;;
  validateActionOrDestination xRefTable dict dictName;;
  validateNameEntry xRefTable dict dictName "H" OPTIONAL V12 None;;
  Shared.validateURIActionDictEntry dg xRefTable dict dictName "PA" OPTIONAL V13;;
  validateNumberArrayEntry xRefTable dict dictName "QuadPoints" OPTIONAL V16
    (Some (fun a => Nat.eqb (length a) 8));;
  let sinceVersion := sinceVersionIn (ValidationModeOf xRefTable) LinkBS in
  Shared.validateBorderStyleDict xRefTable dict dictName "BS" OPTIONAL sinceVersion;;
  Ok tt.

(** [validateAnnotationDictFreeTextPart1] (lines 1991-2033). *)
Definition validateAnnotationDictFreeTextPart1 (xRefTable : XRefTable) (dict : Dict)
    (dictName : string) (sinceVersion : PDFVersion) : Result unit :=
  validateStringEntry xRefTable dict dictName "DA" REQUIRED V10 None;;
  let sinceVersion := sinceVersionIn (ValidationModeOf xRefTable) FreeTextQ in
  validateIntegerEntry xRefTable dict dictName "Q" OPTIONAL sinceVersion
    (Some (fun i => Z.leb 0 i && Z.leb i 2));;
  let sinceVersion := sinceVersionIn (ValidationModeOf xRefTable) FreeTextRC in
  validateStringOrStreamEntry xRefTable dict dictName "RC" OPTIONAL sinceVersion;;
  validateStringEntry xRefTable dict dictName "DS" OPTIONAL V15 None;;
  let sinceVersion := sinceVersionIn (ValidationModeOf xRefTable) FreeTextCL in
  discard (validateNumberArrayEntry xRefTable dict dictName "CL" OPTIONAL sinceVersion
             (Some (fun a => Nat.eqb (length a) 4 || Nat.eqb (length a) 6))).

(** [validateAnnotationDictFreeTextPart2] (lines 2035-2081). *)
Definition validateAnnotationDictFreeTextPart2 (xRefTable : XRefTable) (dict : Dict)
    (dictName : string) (sinceVersion : PDFVersion) : Result unit :=
  let sinceVersion := sinceVersionIn (ValidationModeOf xRefTable) FreeTextIT in
  validateNameEntry xRefTable dict dictName "IT" OPTIONAL sinceVersion
    (Some validateIntentOfFreeTextAnnotation);;
  Shared.validateBorderEffectDictEntry xRefTable dict dictName "BE" OPTIONAL V15;;
  let sinceVersion := sinceVersionIn (ValidationModeOf xRefTable) FreeTextRD in
  validateRectangleEntry xRefTable dict dictName "RD" OPTIONAL sinceVersion None;;
  let sinceVersion := sinceVersionIn (ValidationModeOf xRefTable) FreeTextBS in
  Shared.validateBorderStyleDict xRefTable dict dictName "BS" OPTIONAL sinceVersion;;
  let sinceVersion := sinceVersionIn (ValidationModeOf xRefTable) FreeTextLE in
  discard (validateNameEntry xRefTable dict dictName "LE" OPTIONAL sinceVersion None).

(** [validateAnnotationDictFreeText] (lines 2083-2107). *)
Definition validateAnnotationDictFreeText (xRefTable : XRefTable) (dict : Dict)
    (dictName : string) (sinceVersion : PDFVersion) : Result unit :=
  versionCheck xRefTable "validateAnnotationDictFreeText" dictName sinceVersion;;
  validateAnnotationDictFreeTextPart1 xRefTable dict dictName sinceVersion;;
  validateAnnotationDictFreeTextPart2 xRefTable dict dictName sinceVersion;;
  Ok tt.

(** [validateAnnotationDictLine] (lines 2128-2218). *)
Definition validateAnnotationDictLine (xRefTable : XRefTable) (dict : Dict)
    (dictName : string) (sinceVersion : PDFVersion) : Result unit :=
  versionCheck xRefTable "validateAnnotationDictLine" dictName sinceVersion;;
  validateNumberArrayEntry xRefTable dict dictName "L" REQUIRED V10
    (Some (fun a => Nat.eqb (length a) 4));;
  Shared.validateBorderStyleDict xRefTable dict dictName "BS" OPTIONAL V10;;
  let sinceVersion := sinceVersionIn (ValidationModeOf xRefTable) LineLE in
  validateNameArrayEntry xRefTable dict dictName "LE" OPTIONAL sinceVersion
    (Some (fun a => Nat.eqb (length a) 2));;
  validateNumberArrayEntry xRefTable dict dictName "IC" OPTIONAL sinceVersion None;;
  lle ← validateNumberEntry xRefTable dict dictName "LLE" OPTIONAL V16
          (Some (fun f => negb (Qle_bool f 0%Q)));
  validateNumberEntry xRefTable dict dictName "LL"
    (match lle with Some _ => true | None => false end) V16 None;;
  validateBooleanEntry xRefTable dict dictName "Cap" OPTIONAL V16 None;;
  validateNameEntry xRefTable dict dictName "IT" OPTIONAL V16 None;;
  validateNumberEntry xRefTable dict dictName "LLO" OPTIONAL V17
    (Some (fun f => negb (Qle_bool f 0%Q)));;
  validateNameEntry xRefTable dict dictName "CP" OPTIONAL V17 (Some Shared.validateCP);;
  Shared.validateEntryMeasure dg xRefTable dict dictName OPTIONAL V17;;
  validateNumberArrayEntry xRefTable dict dictName "CO" OPTIONAL V17
    (Some (fun a => Nat.eqb (length a) 2));;
  Ok tt.

(** [validateAnnotationDictCircleOrSquare] (lines 2220-2262). *)
Definition validateAnnotationDictCircleOrSquare (xRefTable : XRefTable) (dict : Dict)
    (dictName : string) (sinceVersion : PDFVersion) : Result unit :=
  versionCheck xRefTable "validateAnnotationDictCircleOrSquare" dictName sinceVersion;;
  Shared.validateBorderStyleDict xRefTable dict dictName "BS" OPTIONAL V10;;
  let sinceVersion := sinceVersionIn (ValidationModeOf xRefTable) CircleOrSquareIC in
  validateNumberArrayEntry xRefTable dict dictName "IC" OPTIONAL sinceVersion None;;
  Shared.validateBorderEffectDictEntry xRefTable dict dictName "BE" OPTIONAL V15;;
  validateRectangleEntry xRefTable dict dictName "RD" OPTIONAL V15 None;;
  Ok tt.

(** The closure [ensureArrayLength] of [validateAnnotationDictPolyLine]. *)
Definition ensureArrayLength (a : list PDFObject) (lengths : list nat) : bool :=
  existsb (fun n => Nat.eqb (length a) n) lengths.

(** [validateAnnotationDictPolyLine] (lines 2288-2349); the message of its
    version check names [validateAnnotationDictText]. *)
Definition validateAnnotationDictPolyLine (xRefTable : XRefTable) (dict : Dict)
    (dictName : string) (sinceVersion : PDFVersion) : Result unit :=
  versionCheck xRefTable "validateAnnotationDictText" dictName sinceVersion;;
  validateNumberArrayEntry xRefTable dict dictName "Vertices" REQUIRED V10 None;;
  (if String.eqb dictName "PolyLine"
   then discard (validateNameArrayEntry xRefTable dict dictName "LE" OPTIONAL V10
                   (Some (fun a => Nat.eqb (length a) 2)))
   else Ok tt);;
  Shared.validateBorderStyleDict xRefTable dict dictName "BS" OPTIONAL V10;;
  validateNumberArrayEntry xRefTable dict dictName "IC" OPTIONAL V14
    (Some (fun a => ensureArrayLength a [1; 3; 4]%nat));;
  (if String.eqb dictName "Polygon"
   then Shared.validateBorderEffectDictEntry xRefTable dict dictName "BE" OPTIONAL V10
   else Ok tt);;
  Shared.validateEntryIT xRefTable dict dictName OPTIONAL V16;;
  Ok tt.

(** [validateTextMarkupAnnotation] (lines 2351-2371). *)
Definition validateTextMarkupAnnotation (xRefTable : XRefTable) (dict : Dict)
    (dictName : string) (sinceVersion : PDFVersion) : Result unit :=
  versionCheck xRefTable "validateTextMarkupAnnotation" dictName sinceVersion;;
  validateNumberArrayEntry xRefTable dict dictName "QuadPoints" REQUIRED V10
    (Some (fun a => Nat.eqb (length a) 8));;
  Ok tt.

(** [validateAnnotationDictStamp] (lines 2373-2393). *)
Definition validateAnnotationDictStamp (xRefTable : XRefTable) (dict : Dict)
    (dictName : string) (sinceVersion : PDFVersion) : Result unit :=
  versionCheck xRefTable "validateAnnotationDictStamp" dictName sinceVersion;;
  validateNameEntry xRefTable dict dictName "Name" OPTIONAL V10 None;;
  Ok tt.

(** [validateAnnotationDictCaret] (lines 2395-2421). *)
Definition validateAnnotationDictCaret (xRefTable : XRefTable) (dict : Dict)
    (dictName : string) (sinceVersion : PDFVersion) : Result unit :=
  versionCheck xRefTable "validateAnnotationDictCaret" dictName sinceVersion;;
  validateRectangleEntry xRefTable dict dictName "RD" OPTIONAL V15 None;;
  validateNameEntry xRefTable dict dictName "Sy" OPTIONAL V10
    (Some (fun s => String.eqb s "P" || String.eqb s "None"));;
  Ok tt.

(** [validateAnnotationDictInk] (lines 2423-2449). *)
Definition validateAnnotationDictInk (xRefTable : XRefTable) (dict : Dict)
    (dictName : string) (sinceVersion : PDFVersion) : Result unit :=
  versionCheck xRefTable "validateAnnotationDictInk" dictName sinceVersion;;
  validateArrayArrayEntry xRefTable dict dictName "InkList" REQUIRED V10 None;;
  Shared.validateBorderStyleDict xRefTable dict dictName "BS" OPTIONAL V10;;
  Ok tt.

(** [validateAnnotationDictPopup] (lines 2451-2483). *)
Definition validateAnnotationDictPopup (xRefTable : XRefTable) (dict : Dict)
    (dictName : string) (sinceVersion : PDFVersion) : Result unit :=
  versionCheck xRefTable "validateAnnotationDictPopup" dictName sinceVersion;;
  indRef ← validateIndRefEntry xRefTable dict dictName "Parent" OPTIONAL V10;
  let open := discard (validateBooleanEntry xRefTable dict dictName "Open" OPTIONAL V10 None) in
  match indRef with
  | Some indRef =>
      d ← DereferenceDict xRefTable indRef;
      match d with
      | None => Ok tt
      | Some _ => open
      end
  | None => open
  end.

(** [validateAnnotationDictFileAttachment] (lines 2485-2511). *)
Definition validateAnnotationDictFileAttachment (xRefTable : XRefTable) (dict : Dict)
    (dictName : string) (sinceVersion : PDFVersion) : Result unit :=
  versionCheck xRefTable "validateAnnotationDictFileAttachment" dictName sinceVersion;;
  validateFileSpecEntry dg xRefTable dict dictName "FS" REQUIRED V10;;
  validateNameEntry xRefTable dict dictName "Name" OPTIONAL V10 None;;
  Ok tt.

(** [validateAnnotationDictSound] (lines 2513-2539). *)
Definition validateAnnotationDictSound (xRefTable : XRefTable) (dict : Dict)
    (dictName : string) (sinceVersion : PDFVersion) : Result unit :=
  versionCheck xRefTable "validateAnnotationDictSound" dictName sinceVersion;;
  validateSoundDictEntry dg xRefTable dict dictName "Sound" REQUIRED V10;;
  validateNameEntry xRefTable dict dictName "Name" OPTIONAL V10 None;;
  Ok tt.

(** [validateAnnotationDictMovie] (lines 2576-2635); the message of its
    version check names [validateAnnotationDictText]. *)
Definition validateAnnotationDictMovie (xRefTable : XRefTable) (dict : Dict)
    (dictName : string) (sinceVersion : PDFVersion) : Result unit :=
  versionCheck xRefTable "validateAnnotationDictText" dictName sinceVersion;;
  validateStringEntry xRefTable dict dictName "T" OPTIONAL V10 None;;
  d ← validateDictEntry xRefTable dict dictName "Movie" REQUIRED V10 None;
  match d with
  | None => Panic
  | Some d =>
      Shared.validateMovieDict dg xRefTable d;;
      match Find dict "A" with
      | Some obj =>
          obj ← Dereference xRefTable obj;
          match obj with
          | PDFDict obj => validateMovieActivationDict dg xRefTable obj
          | _ => Ok tt
          end
      | None => Ok tt
      end
  end.

(** [validateAnnotationDictWidget] (lines 2637-2700).  As in the other
    revision the result of the call on "BS" (line 2685) is dropped. *)
Definition validateAnnotationDictWidget (xRefTable : XRefTable) (dict : Dict)
    (dictName : string) (sinceVersion : PDFVersion) : Result unit :=
  versionCheck xRefTable "validateAnnotationDictWidget" dictName sinceVersion;;
  validateNameEntry xRefTable dict dictName "H" OPTIONAL V10
    (Some validateAnnotationHighlightingMode);;
  Shared.validateAppearanceCharacteristicsDictEntry xRefTable dict dictName "MK" OPTIONAL V10;;
  d ← validateDictEntry xRefTable dict dictName "A" OPTIONAL V11 None;
  match d with
  | Some d => validateActionDict dg xRefTable d
  | None => Ok tt
  end;;
  validateAdditionalActions dg xRefTable dict dictName "AA" OPTIONAL V12 "fieldOrAnnot";;
  let _dropped := Shared.validateBorderStyleDict xRefTable dict dictName "BS" OPTIONAL V12 in
  validateIndRefEntry xRefTable dict dictName "Parent" OPTIONAL V10;;
  Ok tt.

(** [validateAnnotationDictScreen] (lines 2702-2746). *)
Definition validateAnnotationDictScreen (xRefTable : XRefTable) (dict : Dict)
    (dictName : string) (sinceVersion : PDFVersion) : Result unit :=
  versionCheck xRefTable "validateAnnotationDictScreen" dictName sinceVersion;;
  validateNameEntry xRefTable dict dictName "T" OPTIONAL V10 None;;
  Shared.validateAppearanceCharacteristicsDictEntry xRefTable dict dictName "MK" OPTIONAL V10;;
  d ← validateDictEntry xRefTable dict dictName "A" OPTIONAL V10 None;
  match d with
  | Some d => validateActionDict dg xRefTable d
  | None => Ok tt
  end;;
  validateAdditionalActions dg xRefTable dict dictName "AA" OPTIONAL V12 "fieldOrAnnot";;
  Ok tt.

(** [validateAnnotationDictPrinterMark] (lines 2748-2780). *)
Definition validateAnnotationDictPrinterMark (xRefTable : XRefTable) (dict : Dict)
    (dictName : string) (sinceVersion : PDFVersion) : Result unit :=
  versionCheck xRefTable "validateAnnotationDictPrinterMark" dictName sinceVersion;;
  validateNameEntry xRefTable dict dictName "MN" OPTIONAL V10 None;;
  validateIntegerEntry xRefTable dict dictName "F" REQUIRED V11 None;;
  Shared.validateAppearDictEntry dg xRefTable dict dictName REQUIRED V12;;
  Ok tt.

(** [validateAnnotationDictTrapNet] (lines 2782-2855). *)
Definition validateAnnotationDictTrapNet (xRefTable : XRefTable) (dict : Dict)
    (dictName : string) (sinceVersion : PDFVersion) : Result unit :=
  versionCheck xRefTable "validateAnnotationDictTrapNet" dictName sinceVersion;;
  validateDateEntry dg xRefTable dict dictName "LastModified" OPTIONAL V10;;
  validateArrayEntry xRefTable dict dictName "Version" OPTIONAL V10 None;;
  validateNameArrayEntry xRefTable dict dictName "AnnotStates" OPTIONAL V10 None;;
  validateArrayEntry xRefTable dict dictName "FontFauxing" OPTIONAL V10
    (Some (Shared.validateFontDictArray xRefTable));;
  validateIntegerEntry xRefTable dict dictName "F" REQUIRED V11 None;;
  Ok tt.

(** [validateAnnotationDictWatermark] (lines 2857-2909). *)
Definition validateAnnotationDictWatermark (xRefTable : XRefTable) (dict : Dict)
    (dictName : string) (sinceVersion : PDFVersion) : Result unit :=
  versionCheck xRefTable "validateAnnotationDictWatermark" dictName sinceVersion;;
  validateDictEntry xRefTable dict dictName "FixedPrint" OPTIONAL V10
    (Some (Shared.validateFixedPrintDict xRefTable));;
  Ok tt.

(** [validateAnnotationDict3D] (lines 2911-2951); [validateEntry] takes no
    version floor here. *)
Definition validateAnnotationDict3D (xRefTable : XRefTable) (dict : Dict)
    (dictName : string) (sinceVersion : PDFVersion) : Result unit :=
  versionCheck xRefTable "validateAnnotationDict3D" dictName sinceVersion;;
  validateStreamDictOrDictEntry xRefTable dict dictName "3DD" REQUIRED V10;;
  validateEntry xRefTable dict dictName "3DV" OPTIONAL V10;;
  validateDictEntry xRefTable dict dictName "3DA" OPTIONAL V10 None;;
  validateBooleanEntry xRefTable dict dictName "3DI" OPTIONAL V10 None;;
  Ok tt.

(** [validateAnnotationDictRedact] (lines 2990-3046). *)
Definition validateAnnotationDictRedact (xRefTable : XRefTable) (dict : Dict)
    (dictName : string) (sinceVersion : PDFVersion) : Result unit :=
  versionCheck xRefTable "validateAnnotationDictRedact" dictName sinceVersion;;
  validateNumberArrayEntry xRefTable dict dictName "QuadPoints" OPTIONAL V10 None;;
  Shared.validateEntryIC xRefTable dict dictName OPTIONAL V10;;
  validateStreamDictEntry xRefTable dict dictName "RO" OPTIONAL V10 None;;
  validateStringEntry xRefTable dict dictName "OverlayText" OPTIONAL V10 None;;
  validateBooleanEntry xRefTable dict dictName "Repeat" OPTIONAL V10 None;;
  validateStringEntry xRefTable dict dictName "DA" REQUIRED V10 None;;
  validateIntegerEntry xRefTable dict dictName "Q" OPTIONAL V10 None;;
  Ok tt.

(** The dispatch table of [validateAnnotationDictConcrete] (lines
    3336-3367). *)
Record Descriptor : Type := mkDescriptor {
  validate : XRefTable -> Dict -> string -> PDFVersion -> Result unit;
  sinceVersion : PDFVersion;
  markup : bool
}.

Definition annotationTable : list (string * Descriptor) :=
  [ ("Text", mkDescriptor validateAnnotationDictText V10 true);
    ("Link", mkDescriptor validateAnnotationDictLink V10 false);
    ("FreeText", mkDescriptor validateAnnotationDictFreeText V13 true);
    ("Line", mkDescriptor validateAnnotationDictLine V13 true);
    ("Polygon", mkDescriptor validateAnnotationDictPolyLine V15 true);
    ("PolyLine", mkDescriptor validateAnnotationDictPolyLine V15 true);
    ("Highlight", mkDescriptor validateTextMarkupAnnotation V13 true);
    ("Underline", mkDescriptor validateTextMarkupAnnotation V13 true);
    ("Squiggly", mkDescriptor validateTextMarkupAnnotation V14 true);
    ("StrikeOut", mkDescriptor validateTextMarkupAnnotation V13 true);
    ("Square", mkDescriptor validateAnnotationDictCircleOrSquare V13 true);
    ("Circle", mkDescriptor validateAnnotationDictCircleOrSquare V13 true);
    ("Stamp", mkDescriptor validateAnnotationDictStamp V13 true);
    ("Caret", mkDescriptor validateAnnotationDictCaret V15 true);
    ("Ink", mkDescriptor validateAnnotationDictInk V13 true);
    ("Popup", mkDescriptor validateAnnotationDictPopup V13 false);
    ("FileAttachment", mkDescriptor validateAnnotationDictFileAttachment V13 true);
    ("Sound", mkDescriptor validateAnnotationDictSound V12 true);
    ("Movie", mkDescriptor validateAnnotationDictMovie V12 false);
    ("Widget", mkDescriptor validateAnnotationDictWidget V12 false);
    ("Screen", mkDescriptor validateAnnotationDictScreen V15 false);
    ("PrinterMark", mkDescriptor validateAnnotationDictPrinterMark V14 false);
    ("TrapNet", mkDescriptor validateAnnotationDictTrapNet V13 false);
    ("Watermark", mkDescriptor validateAnnotationDictWatermark V16 false);
    ("3D", mkDescriptor validateAnnotationDict3D V16 false);
    ("Redact", mkDescriptor validateAnnotationDictRedact V17 true) ].

Fixpoint lookupDescriptor (subtype : string) (table : list (string * Descriptor))
  : option (string * Descriptor) :=
  match table with
  | [] => None
  | (k, v) :: rest =>
      if String.eqb subtype k then Some (k, v) else lookupDescriptor subtype rest
  end.

Section Recursion.
Variable validateAnnotationDict : XRefTable -> Dict -> Result bool.

(** [validateMarkupAnnotation] (lines 3102-3174). *)
Definition validateMarkupAnnotation (xRefTable : XRefTable) (dict : Dict) : Result unit :=
  let dictName := "markupAnnot" in
  validateStringEntry xRefTable dict dictName "T" OPTIONAL V11 None;;
  Shared.validatePopupEntry validateAnnotationDict xRefTable dict dictName "Popup" OPTIONAL V13;;
  validateNumberEntry xRefTable dict dictName "CA" OPTIONAL V14 None;;
  validateStringOrStreamEntry xRefTable dict dictName "RC" OPTIONAL V15;;
  validateDateEntry dg xRefTable dict dictName "CreationDate" OPTIONAL V15;;
  Shared.validateIRTEntry validateAnnotationDict xRefTable dict dictName "IRT" OPTIONAL V15;;
  validateStringEntry xRefTable dict dictName "Subj" OPTIONAL V15 None;;
  validateNameEntry xRefTable dict dictName "RT" OPTIONAL V16
    (Some (fun s => String.eqb s "R" || String.eqb s "Group"));;
  validateNameEntry xRefTable dict dictName "IT" OPTIONAL V16 None;;
  d ← validateDictEntry xRefTable dict dictName "ExData" OPTIONAL V17 None;
  match d with
  | Some d => Shared.validateExDataDict xRefTable d
  | None => Ok tt
  end.

(** [validateAnnotationDictConcrete] (lines 3332-3382): the markup fields
    first, then the subtype's validator, which checks the version. *)
Definition validateAnnotationDictConcrete (xRefTable : XRefTable) (dict : Dict)
    (subtype : string) : Result unit :=
  match lookupDescriptor subtype annotationTable with
  | Some (k, v) =>
      (if markup v then validateMarkupAnnotation xRefTable dict else Ok tt);;
      validate v xRefTable dict k (sinceVersion v)
  | None =>
      Err (mkError UnknownSubtype "validateAnnotationDictConcrete" subtype)
  end.

(** The body of [validateAnnotationDict] (lines 3393-3417). *)
Definition validateAnnotationDictBody (xRefTable : XRefTable) (dict : Dict) : Result bool :=
  let dictName := "annotDict" in
  subtype ← Shared.validateAnnotationDictGeneral dg xRefTable dict dictName;
  match subtype with
  | None => Panic
  | Some subtype =>
      validateAnnotationDictConcrete xRefTable dict subtype;;
      Shared.validateAnnotationDictSpecial validateAnnotationDict xRefTable dict dictName;;
      Ok (String.eqb subtype "TrapNet")
  end.

End Recursion.

(** [validateAnnotationDict]: a recursive call costs one unit of fuel. *)
Fixpoint validateAnnotationDict (fuel : nat) (xRefTable : XRefTable) (dict : Dict)
  : Result bool :=
  validateAnnotationDictBody
    (fun x d =>
       match fuel with
       | O => OutOfFuel
       | S fuel' => validateAnnotationDict fuel' x d
       end)
    xRefTable dict.

(** [validatePageAnnotations] (lines 3419-3467). *)
Definition validatePageAnnotations (fuel : nat) (xRefTable : XRefTable) (dict : Dict)
  : Result unit :=
  Shared.validatePageAnnotations (validateAnnotationDict fuel) xRefTable dict.

(** [validatePagesAnnotations] (lines 3469-3529). *)
Definition validatePagesAnnotations (fuel : nat) (xRefTable : XRefTable) (dict : Dict)
  : Result unit :=
  Shared.validatePagesAnnotations (validateAnnotationDict fuel) fuel xRefTable dict.

End Validators.
End Validate.

(** * Inputs and predicates of the properties *)

(** ** Errors the properties name *)

Definition missingCount : Error :=
  mkError MissingRequiredField "validatePagesAnnotations" "Count".

Definition trapNetNotLast : Error :=
  mkError OrderingViolation "validatePageAnnotations"
    "corrupted page annotation list, TrapNet has to be the last entry".

Definition unknownSubtype (s : string) : Error :=
  mkError UnknownSubtype "validateAnnotationDictConcrete" s.

Definition missingActionOrDestination : Error :=
  mkError MissingRequiredField "validateActionOrDestination"
    "missing action or destination".

Definition fontFauxingViolation : Error :=
  mkError ConstraintViolation "TrapNet" "FontFauxing".


(** ** Predicates *)

(** An element of an Annots array validates, as a TrapNet annotation or as
    another one. *)
Definition validatesAs (vad : XRefTable -> Dict -> Result bool)
    (xRefTable : XRefTable) (isTrapNet : bool) (v : PDFObject) : Prop :=
  exists annotsDict,
    Shared.annotsDictOf xRefTable v = Ok annotsDict /\
    vad xRefTable annotsDict = Ok isTrapNet.

(** What the loop of [validateFontDictArray] does with one element: it
    passes over an element that is null or resolves to null, and it counts
    an element that resolves to a dictionary of Type "Font". *)
Definition skipped (xRefTable : XRefTable) (v : PDFObject) : Prop :=
  DereferenceDict xRefTable v = Ok None.

Definition isFontDict (xRefTable : XRefTable) (v : PDFObject) : Prop :=
  exists dict, DereferenceDict xRefTable v = Ok (Some dict) /\ TypeOf dict = Some "Font".

(** [r'] is what [r] becomes with more fuel: the same result, unless [r]
    ran out of fuel. *)
Definition withMoreFuel {A : Type} (r r' : Result A) : Prop :=
  r = OutOfFuel \/ r = r'.

(** The value sets of "State" and "StateModel" in a Text annotation. *)
Definition stateSet : list string := ["None"; "Unmarked"].
Definition stateModelSet : list string := ["Marked"; "Review"].

(** ** Documents and dictionaries *)

(** A document without indirect objects. *)
Definition emptyTable (v : PDFVersion) (m : ValidationMode) : XRefTable :=
  mkXRefTable v m ∅.

Definition rect : PDFObject :=
  PDFArray [PDFInteger 0; PDFInteger 0; PDFInteger 100; PDFInteger 100].

Definition numbers (n : nat) : PDFObject := PDFArray (repeat (PDFInteger 0) n).

(** An annotation dictionary with the two entries every annotation needs
    and the given further ones. *)
Definition annot (subtype : string) (entries : list (string * PDFObject)) : Dict :=
  list_to_map (("Subtype", PDFName subtype) :: ("Rect", rect) :: entries).

Definition linkDest : PDFObject := PDFArray [PDFInteger 0; PDFName "Fit"].

Definition trapNetAnnot : Dict := annot "TrapNet" [("F", PDFInteger 0)].
Definition linkAnnot : Dict := annot "Link" [("Dest", linkDest)].

(** A Link annotation with neither "A" nor "Dest". *)
Definition bareLink : Dict := annot "Link" [].

(** A Link annotation with a destination and a border style. *)
Definition linkWithBorderStyle : Dict :=
  annot "Link" [("Dest", linkDest); ("BS", PDFDict ∅)].

(** A TrapNet annotation with the given "FontFauxing" entry. *)
Definition trapNetWith (fontFauxing : PDFObject) : Dict :=
  annot "TrapNet" [("F", PDFInteger 0); ("FontFauxing", fontFauxing)].

(** A Text annotation with a "State" and no "StateModel". *)
Definition textWithState : Dict := annot "Text" [("State", PDFStringLiteral "Unmarked")].

(** A page with the given Annots array. *)
Definition pageDict (annots : list PDFObject) : Dict :=
  list_to_map [("Type", PDFName "Page"); ("Annots", PDFArray annots)].

(** A page-tree node with a page count and no kids. *)
Definition pagesWithoutKids : Dict :=
  list_to_map [("Type", PDFName "Pages"); ("Count", PDFInteger 1)].

(** A document whose object 1 is a page-tree node with object 2, a page,
    as its kid. *)
Definition onePageTree : XRefTable :=
  mkXRefTable V13 ValidationStrict
    (list_to_map
       [(1%N, PDFDict (list_to_map [("Type", PDFName "Pages"); ("Count", PDFInteger 1);
                                    ("Kids", PDFArray [PDFIndirectRef 2 0])]));
        (2%N, PDFDict (pageDict [PDFDict linkAnnot; PDFDict trapNetAnnot]))]).

(** A movie dictionary with a file specification and an integer array of
    length [n] under [key], and the Movie annotation that holds it. *)
Definition fileSpec : PDFObject := PDFStringLiteral "attachment.bin".

Definition movieDictWith (key : string) (n : nat) : Dict :=
  list_to_map [("F", fileSpec); (key, numbers n)].

Definition movieAnnot (key : string) (n : nat) : Dict :=
  annot "Movie" [("Movie", PDFDict (movieDictWith key n))].

(** The structure the specification gives as an example of a cycle (section
    9): annotation A (object 1) has a Popup entry that points to B (object
    2), and B has an IRT entry that points back to A. *)
Definition cycleA : Dict := annot "Text" [("Popup", PDFIndirectRef 2 0)].
Definition cycleB : Dict := annot "Popup" [("IRT", PDFIndirectRef 1 0)].

Definition cycleTable (v : PDFVersion) (m : ValidationMode) : XRefTable :=
  mkXRefTable v m (list_to_map [(1%N, PDFDict cycleA); (2%N, PDFDict cycleB)]).

(** A markup annotation (object 1) whose IRT entry points to itself. *)
Definition selfReply : Dict := annot "Text" [("IRT", PDFIndirectRef 1 0)].

Definition selfReplyTable (v : PDFVersion) (m : ValidationMode) : XRefTable :=
  mkXRefTable v m (list_to_map [(1%N, PDFDict selfReply)]).

(** A Text annotation whose Popup entry points to object 2, and a document
    in which object 2 is the given dictionary. *)
Definition withPopup : Dict := annot "Text" [("Popup", PDFIndirectRef 2 0)].

Definition popupTable (v : PDFVersion) (m : ValidationMode) (popup : Dict) : XRefTable :=
  mkXRefTable v m (list_to_map [(2%N, PDFDict popup)]).

(** ** Minimal annotations

    For each subtype, the annotation with "Subtype", "Rect" and the entries
    its validator requires, and nothing else. *)

Definition movieDict : Dict := list_to_map [("F", fileSpec)].
Definition soundStream : PDFObject := PDFStreamDict ∅ [].
Definition appearanceDict : Dict := list_to_map [("N", PDFStreamDict ∅ [])].

(** [linkNeedsDest] chooses the Link annotation: the one with a
    destination, or the bare one with neither action nor destination. *)
Definition requiredEntries (linkNeedsDest : bool) (subtype : string)
  : list (string * PDFObject) :=
  match subtype with
  | "Link" => if linkNeedsDest then [("Dest", linkDest)] else []
  | "FreeText" => [("DA", PDFStringLiteral "/Helv 12 Tf")]
  | "Line" => [("L", numbers 4)]
  | "Polygon" | "PolyLine" => [("Vertices", numbers 6)]
  | "Highlight" | "Underline" | "Squiggly" | "StrikeOut" => [("QuadPoints", numbers 8)]
  | "Ink" => [("InkList", PDFArray [numbers 4])]
  | "FileAttachment" => [("FS", fileSpec)]
  | "Sound" => [("Sound", soundStream)]
  | "Movie" => [("Movie", PDFDict movieDict)]
  | "PrinterMark" => [("F", PDFInteger 0); ("AP", PDFDict appearanceDict)]
  | "TrapNet" => [("F", PDFInteger 0)]
  | "3D" => [("3DD", PDFStreamDict ∅ [])]
  | "Redact" => [("DA", PDFStringLiteral "/Helv 12 Tf")]
  | _ => []
  end.

Definition minimalAnnot (linkNeedsDest : bool) (subtype : string) : Dict :=
  annot subtype (requiredEntries linkNeedsDest subtype).

(** The delegates accept what the minimal annotations hand to them: the
    required entries they are in charge of, and an absent optional "AA". *)
Definition acceptsRequiredEntries (dg : Delegates) : Prop :=
  forall (xRefTable : XRefTable) (linkNeedsDest : bool),
    validateFileSpecEntry dg xRefTable (minimalAnnot linkNeedsDest "FileAttachment")
      "FileAttachment" "FS" REQUIRED V10 = Ok tt /\
    validateSoundDictEntry dg xRefTable (minimalAnnot linkNeedsDest "Sound")
      "Sound" "Sound" REQUIRED V10 = Ok tt /\
    validateFileSpecEntry dg xRefTable movieDict "movieDict" "F" REQUIRED V10 = Ok tt /\
    validateAppearanceDict dg xRefTable appearanceDict = Ok tt /\
    validateDestination dg xRefTable linkDest = Ok tt /\
    validateAdditionalActions dg xRefTable (minimalAnnot linkNeedsDest "Widget")
      "Widget" "AA" OPTIONAL V12 "fieldOrAnnot" = Ok tt /\
    validateAdditionalActions dg xRefTable (minimalAnnot linkNeedsDest "Screen")
      "Screen" "AA" OPTIONAL V12 "fieldOrAnnot" = Ok tt.

(** The subtypes of the dispatch table with their minimum versions; the
    two revisions agree on them. *)
Definition subtypeFloors : list (string * PDFVersion) :=
  [ ("Text", V10); ("Link", V10); ("FreeText", V13); ("Line", V13);
    ("Polygon", V15); ("PolyLine", V15); ("Highlight", V13); ("Underline", V13);
    ("Squiggly", V14); ("StrikeOut", V13); ("Square", V13); ("Circle", V13);
    ("Stamp", V13); ("Caret", V15); ("Ink", V13); ("Popup", V13);
    ("FileAttachment", V13); ("Sound", V12); ("Movie", V12); ("Widget", V12);
    ("Screen", V15); ("PrinterMark", V14); ("TrapNet", V13); ("Watermark", V16);
    ("3D", V16); ("Redact", V17) ].

(** ** Entries as the accessors see them *)

(** The object an entry of a dictionary resolves to. *)
Definition resolve (xRefTable : XRefTable) (dict : Dict) (key : string) : option PDFObject :=
  match dict !! key with
  | Some obj =>
      match Dereference xRefTable obj with
      | Ok o => Some o
      | _ => None
      end
  | None => None
  end.

(** ** Comparing two runs *)

(** Whatever the first run returns, the second run returns too. *)
Definition okImplies {A : Type} (r r' : Result A) : Prop :=
  forall a, r = Ok a -> r' = Ok a.

(** Two validation contexts over the same objects, the second one with a
    document version that is not lower and a validation mode that is not
    stricter. *)
Definition atLeastAsPermissive (x x' : XRefTable) : Prop :=
  Table x = Table x' /\
  versionLe (Version x) (Version x') = true /\
  (ValidationModeOf x = ValidationModeOf x' \/ ValidationModeOf x' = ValidationRelaxed).

(** The delegated validators return in the second context what they return
    in the first. *)
Definition delegatesAgree (dg : Delegates) (x x' : XRefTable) : Prop :=
  (forall d, okImplies (validateActionDict dg x d) (validateActionDict dg x' d)) /\
  (forall o, okImplies (validateDestination dg x o) (validateDestination dg x' o)) /\
  (forall d n, okImplies (validateURIActionDict dg x d n) (validateURIActionDict dg x' d n)) /\
  (forall d s, okImplies (validateMeasureDict dg x d s) (validateMeasureDict dg x' d s)) /\
  (forall d n e r s, okImplies (validateFileSpecEntry dg x d n e r s)
                               (validateFileSpecEntry dg x' d n e r s)) /\
  (forall d n e r s, okImplies (validateSoundDictEntry dg x d n e r s)
                               (validateSoundDictEntry dg x' d n e r s)) /\
  (forall d, okImplies (validateMovieActivationDict dg x d)
                       (validateMovieActivationDict dg x' d)) /\
  (forall d n e r s k, okImplies (validateAdditionalActions dg x d n e r s k)
                                 (validateAdditionalActions dg x' d n e r s k)) /\
  (forall d, okImplies (validateAppearanceDict dg x d) (validateAppearanceDict dg x' d)) /\
  (forall d s, okImplies (validateOptionalContentGroupDict dg x d s)
                         (validateOptionalContentGroupDict dg x' d s)) /\
  (forall d s, okImplies (validateOptionalContentMembershipDict dg x d s)
                         (validateOptionalContentMembershipDict dg x' d s)).

(** The subtypes whose annotations carry the markup entries: the flag of
    the dispatch table. *)
Definition isMarkup (subtype : string) : bool :=
  match Pdfcpu.lookupDescriptor subtype (Pdfcpu.annotationTable acceptAll) with
  | Some (_, d) => Pdfcpu.markup d
  | None => false
  end.

(** The same validation context in another mode, and for another document
    version. *)
Definition inMode (m : ValidationMode) (x : XRefTable) : XRefTable :=
  mkXRefTable (Version x) m (Table x).


(** ** Arrays of annotations and page trees *)

(** An Annots array that is empty, or whose elements all validate, none
    but the last one as a TrapNet annotation. *)
Definition annotsInOrder (vad : XRefTable -> Dict -> Result bool)
    (xRefTable : XRefTable) (arr : list PDFObject) : Prop :=
  arr = [] \/
  exists pre last b,
    arr = (pre ++ [last])%list /\
    Forall (validatesAs vad xRefTable false) pre /\
    validatesAs vad xRefTable b last.

(** An element of an Annots array that is neither a reference nor a
    dictionary. *)
Definition neitherReferenceNorDict (v : PDFObject) : bool :=
  match v with
  | PDFIndirectRef _ _ | PDFDict _ => false
  | _ => true
  end.

Definition corruptedArrayOfIndRefs : Error :=
  mkError StructuralCorruption "validatePageAnnotations" "corrupted array of indrefs".

Definition corruptedAnnotationDict : Error :=
  mkError StructuralCorruption "validatePageAnnotations" "corrupted annotation dict".

(** The pages below a page-tree node: the kids of type "Page" of the node
    and of the nodes of type "Pages" below it. *)
Inductive pageOf (xRefTable : XRefTable) : Dict -> Dict -> Prop :=
| pageOf_kid (node : Dict) (kids : list PDFObject) (v : PDFObject) (page : Dict) :
    PDFArrayEntry node "Kids" = Some kids ->
    In v kids ->
    DereferenceDict xRefTable v = Ok (Some page) ->
    TypeOf page = Some "Page" ->
    pageOf xRefTable node page
| pageOf_below (node : Dict) (kids : list PDFObject) (v : PDFObject) (child page : Dict) :
    PDFArrayEntry node "Kids" = Some kids ->
    In v kids ->
    DereferenceDict xRefTable v = Ok (Some child) ->
    TypeOf child = Some "Pages" ->
    pageOf xRefTable child page ->
    pageOf xRefTable node page.

Definition pageNodeDictIsNull : Error :=
  mkError StructuralCorruption "validatePagesAnnotations" "pageNodeDict is null".

Definition missingPageNodeDictType : Error :=
  mkError StructuralCorruption "validatePagesAnnotations" "missing pageNodeDict type".

Definition unexpectedPageNodeDictType (dictType : string) : Error :=
  mkError StructuralCorruption "validatePagesAnnotations" dictType.

(** A page-tree node with the given page count and kids. *)
Definition pagesNode (count : Z) (kids : list PDFObject) : Dict :=
  list_to_map [("Type", PDFName "Pages"); ("Count", PDFInteger count);
               ("Kids", PDFArray kids)].

(** A document whose only object, number [n], is the null object. *)
Definition nullObjectTable (v : PDFVersion) (m : ValidationMode) (n : N) : XRefTable :=
  mkXRefTable v m (list_to_map [(n, PDFNull)]).

(** A Line annotation with leader lines. *)
Definition lineWithLeaders : Dict :=
  annot "Line" [("L", numbers 4); ("LLE", PDFInteger 3); ("LL", PDFInteger 5)].

(** The subtypes validated by [validateTextMarkupAnnotation]. *)
Definition textMarkupSubtypes : list string :=
  ["Highlight"; "Underline"; "Squiggly"; "StrikeOut"].

(** The version floors of the optional entries every annotation may have
    ([validateAnnotationDictGeneral]) and of those a markup annotation may
    have ([validateMarkupAnnotation]; "Subj", whose floor depends on the
    validation mode, is left out). *)
Definition generalFloors : list (string * PDFVersion) :=
  [ ("NM", V14); ("M", V11); ("F", V11); ("AP", V12); ("AS", V11); ("C", V11);
    ("StructParent", V13); ("OC", V15) ].

Definition markupFloors : list (string * PDFVersion) :=
  [ ("T", V11); ("Popup", V13); ("CA", V14); ("RC", V15); ("CreationDate", V15);
    ("IRT", V15); ("RT", V16); ("IT", V16); ("ExData", V17) ].

(** The entries a subtype validator reads as required itself (those handed
    to a delegate, "FS" and "Sound", are not listed). *)
Definition requiredKeys (subtype : string) : list string :=
  match subtype with
  | "FreeText" => ["DA"]
  | "Line" => ["L"]
  | "Polygon" | "PolyLine" => ["Vertices"]
  | "Highlight" | "Underline" | "Squiggly" | "StrikeOut" => ["QuadPoints"]
  | "Ink" => ["InkList"]
  | "Movie" => ["Movie"]
  | "PrinterMark" => ["F"; "AP"]
  | "TrapNet" => ["F"]
  | "3D" => ["3DD"]
  | "Redact" => ["DA"]
  | _ => []
  end.

(** The names a name-valued entry of a subtype validator may hold, where
    the source writes the set out. *)
Definition namedValues (subtype key : string) : option (list string) :=
  match subtype, key with
  | "Caret", "Sy" => Some ["P"; "None"]
  | "Line", "CP" => Some ["Inline"; "Top"]
  | _, _ => None
  end.

(** The destination delegate resolves what it accepts: an accepted
    destination is not a dangling reference, and what it resolves to is null
    or is accepted too. *)
Definition destinationsResolve (dg : Delegates) (x : XRefTable) : Prop :=
  forall obj,
    validateDestination dg x obj = Ok tt ->
    exists o, Dereference x obj = Ok o /\
              (o = PDFNull \/ validateDestination dg x o = Ok tt).

(** Delegates that accept whatever resolves. *)
Definition acceptResolved : Delegates := {|
  validateDate := validateDate acceptAll;
  validateActionDict := validateActionDict acceptAll;
  validateDestination := fun x obj => Dereference x obj;; Ok tt;
  validateURIActionDict := validateURIActionDict acceptAll;
  validateMeasureDict := validateMeasureDict acceptAll;
  validateFileSpecEntry := validateFileSpecEntry acceptAll;
  validateSoundDictEntry := validateSoundDictEntry acceptAll;
  validateMovieActivationDict := validateMovieActivationDict acceptAll;
  validateAdditionalActions := validateAdditionalActions acceptAll;
  validateAppearanceDict := validateAppearanceDict acceptAll;
  validateOptionalContentGroupDict := validateOptionalContentGroupDict acceptAll;
  validateOptionalContentMembershipDict := validateOptionalContentMembershipDict acceptAll
|}.

(** * Properties *)

(** ** Results *)

Lemma bind_Ok {A B : Type} (a : A) (k : A -> Result B) : (Ok a ≫= k) = k a.
Proof. reflexivity. Qed.

Lemma bind_Err {A B : Type} (e : Error) (k : A -> Result B) : (Err e ≫= k) = Err e.
Proof. reflexivity. Qed.

Lemma bind_eq_Ok {A B : Type} (r : Result A) (k : A -> Result B) (b : B) :
  (r ≫= k) = Ok b -> exists a, r = Ok a /\ k a = Ok b.
Proof. destruct r; cbn; try discriminate. intros H. eauto. Qed.

Lemma versionLt_V10 (v : PDFVersion) : versionLt v V10 = false.
Proof. destruct v; reflexivity. Qed.

Lemma versionLt_le (a b : PDFVersion) : versionLt a b = negb (versionLe b a).
Proof. destruct a, b; reflexivity. Qed.

(** ** The accessors *)

(** An entry that is not in the dictionary: an error when required, nil
    otherwise. *)
Lemma validateKindEntry_absent {A : Type} (cast : PDFObject -> option A)
    xRefTable (dict : Dict) dictName entryName required sinceVersion validate :
  dict !! entryName = None ->
  validateKindEntry cast xRefTable dict dictName entryName required sinceVersion validate
  = if required then Err (mkError MissingRequiredField dictName entryName) else Ok None.
Proof. unfold validateKindEntry, Find. intros ->. reflexivity. Qed.

(** An entry that resolves to an object other than null, in a document
    that has reached the floor. *)
Lemma validateKindEntry_present {A : Type} (cast : PDFObject -> option A)
    xRefTable (dict : Dict) dictName entryName required sinceVersion validate obj o :
  dict !! entryName = Some obj ->
  Dereference xRefTable obj = Ok o ->
  o <> PDFNull ->
  versionLt (Version xRefTable) sinceVersion = false ->
  validateKindEntry cast xRefTable dict dictName entryName required sinceVersion validate
  = match cast o with
    | None => Err (mkError UnexpectedType dictName entryName)
    | Some a =>
        match validate with
        | Some p =>
            if p a then Ok (Some a)
            else Err (mkError ConstraintViolation dictName entryName)
        | None => Ok (Some a)
        end
    end.
Proof.
  unfold validateKindEntry, Find. intros -> Hd Hn Hv.
  rewrite Hd. unfold mbind, result_bind, bind. rewrite Hv.
  destruct o; try reflexivity. congruence.
Qed.

(** A required entry never comes back nil. *)
Lemma validateKindEntry_required {A : Type} (cast : PDFObject -> option A)
    xRefTable (dict : Dict) dictName entryName sinceVersion validate r :
  validateKindEntry cast xRefTable dict dictName entryName REQUIRED sinceVersion validate
  = Ok r -> exists a, r = Some a.
Proof.
  unfold validateKindEntry, REQUIRED, mbind, result_bind, bind.
  destruct (Find dict entryName) as [obj|]; [|discriminate].
  destruct (Dereference xRefTable obj) as [o| | |]; try discriminate.
  destruct (versionLt (Version xRefTable) sinceVersion);
    [destruct o; discriminate|].
  intros H.
  assert (Hc : match cast o with
               | None => Err (mkError UnexpectedType dictName entryName)
               | Some a => match validate with
                           | Some p => if p a then Ok (Some a)
                                       else Err (mkError ConstraintViolation dictName entryName)
                           | None => Ok (Some a)
                           end
               end = Ok r) by (destruct o; try discriminate; exact H).
  clear H. destruct (cast o) as [a|]; [|discriminate].
  destruct validate as [p|]; [destruct (p a); [|discriminate]|];
    injection Hc as <-; eauto.
Qed.

(** Lowering the floor of an accessor never turns an accepted entry into
    a rejected one. *)
Lemma validateKindEntry_floor_mono {A : Type} (cast : PDFObject -> option A)
    xRefTable (dict : Dict) dictName entryName required lo hi validate r :
  versionLe lo hi = true ->
  validateKindEntry cast xRefTable dict dictName entryName required hi validate = Ok r ->
  validateKindEntry cast xRefTable dict dictName entryName required lo validate = Ok r.
Proof.
  unfold validateKindEntry, mbind, result_bind, bind. intros Hle.
  destruct (Find dict entryName) as [obj|]; [|trivial].
  destruct (Dereference xRefTable obj) as [o| | |]; trivial.
  assert (Hv : versionLt (Version xRefTable) hi = false ->
               versionLt (Version xRefTable) lo = false).
  { revert Hle. destruct (Version xRefTable), lo, hi; cbn; congruence. }
  destruct (versionLt (Version xRefTable) hi) eqn:Hhi.
  - destruct o; trivial; discriminate.
  - rewrite (Hv eq_refl). trivial.
Qed.

(** ** Version floors under relaxed validation *)

(** C5: for every entry whose version floor is substituted under relaxed
    validation, in either revision, the relaxed floor is at most the strict
    floor: relaxed mode never raises a floor.  The pairs named as examples
    are those of the first revision: BS of Link 1.6 to 1.3, Q of FreeText 1.4
    to 1.3, CL of FreeText 1.6 to 1.4, Subj of the markup fields 1.5 to
    1.4. *)
Theorem relaxed_floor_never_above_strict_floor :
  (forall e : Pdfcpu.RelaxedEntry,
     versionLe (Pdfcpu.sinceVersionIn ValidationRelaxed e)
               (Pdfcpu.sinceVersionIn ValidationStrict e) = true) /\
  (forall e : Validate.RelaxedEntry,
     versionLe (Validate.sinceVersionIn ValidationRelaxed e)
               (Validate.sinceVersionIn ValidationStrict e) = true) /\
  (forall (mode : ValidationMode) (e : Pdfcpu.RelaxedEntry),
     versionLe (Pdfcpu.sinceVersionIn mode e)
               (Pdfcpu.sinceVersionIn ValidationStrict e) = true) /\
  (forall (mode : ValidationMode) (e : Validate.RelaxedEntry),
     versionLe (Validate.sinceVersionIn mode e)
               (Validate.sinceVersionIn ValidationStrict e) = true) /\
  Pdfcpu.floors Pdfcpu.LinkBS = (V16, V13) /\
  Pdfcpu.floors Pdfcpu.FreeTextQ = (V14, V13) /\
  Pdfcpu.floors Pdfcpu.FreeTextCL = (V16, V14) /\
  Pdfcpu.floors Pdfcpu.MarkupSubj = (V15, V14).
Proof.
  repeat split; try (intros e; destruct e; reflexivity);
    intros mode e; destruct mode, e; reflexivity.
Qed.

(** The lists of relaxed entries are complete. *)
Lemma allRelaxedEntries_complete :
  (forall e : Pdfcpu.RelaxedEntry, In e Pdfcpu.allRelaxedEntries) /\
  (forall e : Validate.RelaxedEntry, In e Validate.allRelaxedEntries).
Proof. split; intros e; destruct e; cbn; tauto. Qed.

(** ** The page tree *)

Lemma validatePagesAnnotations_unfold vad fuel xRefTable (dict : Dict) :
  Shared.validatePagesAnnotations vad fuel xRefTable dict
  = match IntEntry dict "Count" with
    | None => Err missingCount
    | Some _ =>
        match PDFArrayEntry dict "Kids" with
        | None => Panic
        | Some kidsArray =>
            Shared.pagesKidsLoop vad
              (fun d => match fuel with
                        | O => OutOfFuel
                        | S fuel' => Shared.validatePagesAnnotations vad fuel' xRefTable d
                        end)
              xRefTable kidsArray
        end
    end.
Proof. destruct fuel; reflexivity. Qed.

Lemma validatePagesAnnotations_no_count vad fuel xRefTable (dict : Dict) :
  IntEntry dict "Count" = None ->
  Shared.validatePagesAnnotations vad fuel xRefTable dict = Err missingCount.
Proof. intros H. rewrite validatePagesAnnotations_unfold, H. reflexivity. Qed.

Lemma validatePagesAnnotations_no_kids vad fuel xRefTable (dict : Dict) :
  is_Some (IntEntry dict "Count") ->
  PDFArrayEntry dict "Kids" = None ->
  Shared.validatePagesAnnotations vad fuel xRefTable dict = Panic.
Proof.
  intros [n Hn] Hk. rewrite validatePagesAnnotations_unfold, Hn, Hk. reflexivity.
Qed.

Lemma validatePagesAnnotations_returns vad fuel xRefTable (dict : Dict) r :
  Shared.validatePagesAnnotations vad fuel xRefTable dict = r ->
  r <> Panic -> r <> Err missingCount ->
  is_Some (IntEntry dict "Count") /\ is_Some (PDFArrayEntry dict "Kids").
Proof.
  rewrite validatePagesAnnotations_unfold.
  destruct (IntEntry dict "Count") as [n|]; [|congruence].
  destruct (PDFArrayEntry dict "Kids") as [k|]; [|congruence].
  intros _ _ _. split; eauto.
Qed.

(** C10: [validatePagesAnnotations] is not total on page-tree nodes.  On a
    node with an integer "Count" and no "Kids" array it dereferences the nil
    array pointer, which is a panic and not an error; a node without "Count"
    gets an ordinary error; and whenever the function returns (success, or
    any error but the one for "Count") the node carries both entries.  This
    holds in both revisions, for any delegates and any amount of fuel. *)
Theorem validatePagesAnnotations_panics_without_kids
    (dg : Delegates) (fuel : nat) (xRefTable : XRefTable) (dict : Dict) :
  (IntEntry dict "Count" = None ->
     Pdfcpu.validatePagesAnnotations dg fuel xRefTable dict = Err missingCount /\
     Validate.validatePagesAnnotations dg fuel xRefTable dict = Err missingCount) /\
  (is_Some (IntEntry dict "Count") -> PDFArrayEntry dict "Kids" = None ->
     Pdfcpu.validatePagesAnnotations dg fuel xRefTable dict = Panic /\
     Validate.validatePagesAnnotations dg fuel xRefTable dict = Panic) /\
  (forall r : Result unit,
     Pdfcpu.validatePagesAnnotations dg fuel xRefTable dict = r \/
     Validate.validatePagesAnnotations dg fuel xRefTable dict = r ->
     r <> Panic -> r <> Err missingCount ->
     is_Some (IntEntry dict "Count") /\ is_Some (PDFArrayEntry dict "Kids")) /\
  (Pdfcpu.validatePagesAnnotations dg fuel xRefTable dict = Ok tt \/
   Validate.validatePagesAnnotations dg fuel xRefTable dict = Ok tt ->
     is_Some (IntEntry dict "Count") /\ is_Some (PDFArrayEntry dict "Kids")).
Proof.
  unfold Pdfcpu.validatePagesAnnotations, Validate.validatePagesAnnotations.
  split; [|split; [|split]].
  - intros H. split; apply validatePagesAnnotations_no_count; exact H.
  - intros Hc Hk. split; apply validatePagesAnnotations_no_kids; assumption.
  - intros r [H|H] Hp He; eapply validatePagesAnnotations_returns; eauto.
  - intros [H|H]; eapply validatePagesAnnotations_returns; eauto; discriminate.
Qed.

Lemma validatePagesAnnotations_panics_without_kids_witness :
  Pdfcpu.validatePagesAnnotations acceptAll 0 (emptyTable V17 ValidationStrict)
    pagesWithoutKids = Panic /\
  Validate.validatePagesAnnotations acceptAll 0 (emptyTable V17 ValidationStrict)
    pagesWithoutKids = Panic.
Proof.
  apply (proj1 (proj2 (validatePagesAnnotations_panics_without_kids
                         acceptAll 0 (emptyTable V17 ValidationStrict)
                         pagesWithoutKids))).
  - exists 1%Z. reflexivity.
  - reflexivity.
Defined.

(** A well-formed node with no kids at all is accepted: the function does
    return on nodes that carry both entries. *)
Lemma validatePagesAnnotations_empty_kids dg fuel v m :
  Pdfcpu.validatePagesAnnotations dg fuel (emptyTable v m)
    (list_to_map [("Type", PDFName "Pages"); ("Count", PDFInteger 0);
                  ("Kids", PDFArray [])]) = Ok tt /\
  Validate.validatePagesAnnotations dg fuel (emptyTable v m)
    (list_to_map [("Type", PDFName "Pages"); ("Count", PDFInteger 0);
                  ("Kids", PDFArray [])]) = Ok tt.
Proof.
  unfold Pdfcpu.validatePagesAnnotations, Validate.validatePagesAnnotations.
  split; rewrite validatePagesAnnotations_unfold; reflexivity.
Qed.

(** ** The Annots array *)

Section AnnotsLoop.
Variable vad : XRefTable -> Dict -> Result bool.
Variable xRefTable : XRefTable.

Lemma pageAnnotationsLoop_flag_set (v : PDFObject) (rest : list PDFObject) :
  Shared.pageAnnotationsLoop vad xRefTable true (v :: rest) = Err trapNetNotLast.
Proof. reflexivity. Qed.

Lemma pageAnnotationsLoop_step (v : PDFObject) (rest : list PDFObject) (b : bool) :
  validatesAs vad xRefTable b v ->
  Shared.pageAnnotationsLoop vad xRefTable false (v :: rest)
  = Shared.pageAnnotationsLoop vad xRefTable b rest.
Proof. intros (d & Hd & Hv). cbn. rewrite Hd. cbn. rewrite Hv. reflexivity. Qed.

(** The elements are taken in array order: a prefix of elements that
    validate and are not TrapNet annotations is passed over. *)
Lemma pageAnnotationsLoop_prefix (pre rest : list PDFObject) :
  Forall (validatesAs vad xRefTable false) pre ->
  Shared.pageAnnotationsLoop vad xRefTable false (pre ++ rest)
  = Shared.pageAnnotationsLoop vad xRefTable false rest.
Proof.
  induction 1 as [|v pre Hv _ IH]; [reflexivity|].
  rewrite <- app_comm_cons, (pageAnnotationsLoop_step _ _ _ Hv). exact IH.
Qed.

(** Whatever follows a TrapNet annotation is an ordering violation. *)
Lemma pageAnnotationsLoop_after_trapNet (pre rest : list PDFObject) (t x : PDFObject) :
  Forall (validatesAs vad xRefTable false) pre ->
  validatesAs vad xRefTable true t ->
  Shared.pageAnnotationsLoop vad xRefTable false (pre ++ t :: x :: rest)
  = Err trapNetNotLast.
Proof.
  intros Hpre Ht.
  rewrite (pageAnnotationsLoop_prefix _ _ Hpre), (pageAnnotationsLoop_step _ _ _ Ht).
  reflexivity.
Qed.

(** The first failure is what the loop returns. *)
Lemma pageAnnotationsLoop_first_error (pre rest : list PDFObject) (x : PDFObject)
    (annotsDict : Dict) (e : Error) :
  Forall (validatesAs vad xRefTable false) pre ->
  Shared.annotsDictOf xRefTable x = Ok annotsDict ->
  vad xRefTable annotsDict = Err e ->
  Shared.pageAnnotationsLoop vad xRefTable false (pre ++ x :: rest) = Err e.
Proof.
  intros Hpre Hd He. rewrite (pageAnnotationsLoop_prefix _ _ Hpre).
  cbn. rewrite Hd. cbn. rewrite He. reflexivity.
Qed.

(** A TrapNet annotation in last position is accepted. *)
Lemma pageAnnotationsLoop_trapNet_last (pre : list PDFObject) (t : PDFObject) (b : bool) :
  Forall (validatesAs vad xRefTable false) pre ->
  validatesAs vad xRefTable b t ->
  Shared.pageAnnotationsLoop vad xRefTable false (pre ++ [t]) = Ok tt.
Proof.
  intros Hpre Ht.
  rewrite (pageAnnotationsLoop_prefix _ _ Hpre), (pageAnnotationsLoop_step _ _ _ Ht).
  reflexivity.
Qed.

Lemma validatePageAnnotations_array (dict : Dict) (arr : list PDFObject) :
  validateArrayEntry xRefTable dict "pageDict" "Annots" OPTIONAL V10 None = Ok (Some arr) ->
  Shared.validatePageAnnotations vad xRefTable dict
  = Shared.pageAnnotationsLoop vad xRefTable false arr.
Proof. unfold Shared.validatePageAnnotations. intros ->. reflexivity. Qed.

End AnnotsLoop.

(** ** Evaluation on concrete dictionaries *)

(** Evaluation of a validator on a concrete dictionary, for arbitrary
    delegates of which some answers are assumed: the validator is run with
    the delegates left symbolic, then the assumed answers are put in. *)
Ltac delegate_answer H :=
  lazymatch type of H with
  | ?f ?a ?b ?c ?d ?e ?g ?h = Ok tt =>
      is_var f;
      match goal with
      | |- context [f ?a' ?b' ?c' ?d' ?e' ?g' ?h'] =>
          let r := fresh "r" in
          let E := fresh "E" in
          remember (f a' b' c' d' e' g' h') as r eqn:E in |- *;
          (assert (r = Ok tt) as -> by exact (eq_trans E H));
          clear E
      end
  | ?f ?a ?b ?c ?d ?e ?g = Ok tt =>
      is_var f;
      match goal with
      | |- context [f ?a' ?b' ?c' ?d' ?e' ?g'] =>
          let r := fresh "r" in
          let E := fresh "E" in
          remember (f a' b' c' d' e' g') as r eqn:E in |- *;
          (assert (r = Ok tt) as -> by exact (eq_trans E H));
          clear E
      end
  | ?f ?a ?b = Ok tt =>
      is_var f;
      match goal with
      | |- context [f ?a' ?b'] =>
          let r := fresh "r" in
          let E := fresh "E" in
          remember (f a' b') as r eqn:E in |- *;
          (assert (r = Ok tt) as -> by exact (eq_trans E H));
          clear E
      end
  end.

Ltac use_delegates :=
  repeat match goal with
         | H : _ = Ok tt |- _ => progress (delegate_answer H)
         end.

Ltac evaluate := vm_compute; use_delegates; try reflexivity.

Ltac evaluate_failure :=
  unfold failsWith; vm_compute; use_delegates; eexists; split; reflexivity.

Ltac symbolic_delegates dg :=
  let date := fresh "date" in
  let act := fresh "act" in
  let dest := fresh "dest" in
  let uri := fresh "uri" in
  let meas := fresh "meas" in
  let fs := fresh "fs" in
  let sound := fresh "sound" in
  let mact := fresh "mact" in
  let aa := fresh "aa" in
  let ap := fresh "ap" in
  let ocg := fresh "ocg" in
  let ocmd := fresh "ocmd" in
  destruct dg as [date act dest uri meas fs sound mact aa ap ocg ocmd].

(** C1: the elements of an Annots array are validated in array order, and
    once an element has validated as a TrapNet annotation every further
    element is an ordering violation, whatever it is: the test comes before
    the element is even resolved.  So an array TrapNet, Link fails, while
    Link, TrapNet and TrapNet alone are accepted (from version 1.3 on, with
    a destination the delegate accepts).  Both revisions. *)
Theorem trapNet_has_to_be_the_last_entry
    (dg : Delegates) (fuel : nat) (xRefTable : XRefTable) :
  (forall (dict : Dict) (pre rest : list PDFObject) (t x : PDFObject),
     validateArrayEntry xRefTable dict "pageDict" "Annots" OPTIONAL V10 None
       = Ok (Some (pre ++ t :: x :: rest)%list) ->
     (Forall (validatesAs (Pdfcpu.validateAnnotationDict dg fuel) xRefTable false) pre ->
      validatesAs (Pdfcpu.validateAnnotationDict dg fuel) xRefTable true t ->
      Pdfcpu.validatePageAnnotations dg fuel xRefTable dict = Err trapNetNotLast) /\
     (Forall (validatesAs (Validate.validateAnnotationDict dg fuel) xRefTable false) pre ->
      validatesAs (Validate.validateAnnotationDict dg fuel) xRefTable true t ->
      Validate.validatePageAnnotations dg fuel xRefTable dict = Err trapNetNotLast)) /\
  (forall (dict : Dict) (pre rest : list PDFObject),
     validateArrayEntry xRefTable dict "pageDict" "Annots" OPTIONAL V10 None
       = Ok (Some (pre ++ rest)%list) ->
     (Forall (validatesAs (Pdfcpu.validateAnnotationDict dg fuel) xRefTable false) pre ->
      Pdfcpu.validatePageAnnotations dg fuel xRefTable dict
      = Shared.pageAnnotationsLoop (Pdfcpu.validateAnnotationDict dg fuel)
          xRefTable false rest) /\
     (Forall (validatesAs (Validate.validateAnnotationDict dg fuel) xRefTable false) pre ->
      Validate.validatePageAnnotations dg fuel xRefTable dict
      = Shared.pageAnnotationsLoop (Validate.validateAnnotationDict dg fuel)
          xRefTable false rest)) /\
  (versionLe V13 (Version xRefTable) = true ->
   validateDestination dg xRefTable linkDest = Ok tt ->
   (Pdfcpu.validatePageAnnotations dg fuel xRefTable
      (pageDict [PDFDict trapNetAnnot; PDFDict linkAnnot]) = Err trapNetNotLast /\
    Pdfcpu.validatePageAnnotations dg fuel xRefTable
      (pageDict [PDFDict linkAnnot; PDFDict trapNetAnnot]) = Ok tt /\
    Pdfcpu.validatePageAnnotations dg fuel xRefTable
      (pageDict [PDFDict trapNetAnnot]) = Ok tt) /\
   (Validate.validatePageAnnotations dg fuel xRefTable
      (pageDict [PDFDict trapNetAnnot; PDFDict linkAnnot]) = Err trapNetNotLast /\
    Validate.validatePageAnnotations dg fuel xRefTable
      (pageDict [PDFDict linkAnnot; PDFDict trapNetAnnot]) = Ok tt /\
    Validate.validatePageAnnotations dg fuel xRefTable
      (pageDict [PDFDict trapNetAnnot]) = Ok tt)).
Proof.
  split; [|split].
  - intros dict pre rest t x Harr.
    unfold Pdfcpu.validatePageAnnotations, Validate.validatePageAnnotations.
    rewrite !(validatePageAnnotations_array _ _ _ _ Harr).
    split; intros Hpre Ht; apply pageAnnotationsLoop_after_trapNet; assumption.
  - intros dict pre rest Harr.
    unfold Pdfcpu.validatePageAnnotations, Validate.validatePageAnnotations.
    rewrite !(validatePageAnnotations_array _ _ _ _ Harr).
    split; intros Hpre; apply pageAnnotationsLoop_prefix; assumption.
  - intros Hv Hd. symbolic_delegates dg.
    destruct xRefTable as [v m tbl], fuel;
      destruct v; cbn in Hv; try discriminate Hv; clear Hv;
      vm_compute in Hd; (repeat split; evaluate).
Qed.

Lemma trapNet_has_to_be_the_last_entry_witness :
  Pdfcpu.validatePageAnnotations acceptAll 0 (emptyTable V13 ValidationStrict)
    (pageDict [PDFDict trapNetAnnot; PDFDict linkAnnot]) = Err trapNetNotLast /\
  Validate.validatePageAnnotations acceptAll 0 (emptyTable V13 ValidationStrict)
    (pageDict [PDFDict trapNetAnnot; PDFDict linkAnnot]) = Err trapNetNotLast.
Proof.
  destruct (proj1 (trapNet_has_to_be_the_last_entry acceptAll 0
                     (emptyTable V13 ValidationStrict))
              (pageDict [PDFDict trapNetAnnot; PDFDict linkAnnot])
              [] [] (PDFDict trapNetAnnot) (PDFDict linkAnnot) eq_refl)
    as [H1 H2].
  split.
  - apply H1; [constructor|]. exists trapNetAnnot. split; reflexivity.
  - apply H2; [constructor|]. exists trapNetAnnot. split; reflexivity.
Defined.

(** ** The dispatch table *)

Lemma acceptAll_acceptsRequiredEntries : acceptsRequiredEntries acceptAll.
Proof. intros x b. repeat split. Qed.

Ltac assume_delegates Hdg xRefTable b :=
  let H1 := fresh "Hfs" in
  let H2 := fresh "Hsound" in
  let H3 := fresh "Hmovie" in
  let H4 := fresh "Hap" in
  let H5 := fresh "Hdest" in
  let H6 := fresh "Hwidget" in
  let H7 := fresh "Hscreen" in
  destruct (Hdg xRefTable b) as (H1 & H2 & H3 & H4 & H5 & H6 & H7);
  cbn in H1, H2, H3, H4, H5, H6, H7;
  vm_compute in H1, H2, H3, H4, H5, H6, H7.

Lemma pdfcpu_subtypeFloors dg :
  map (fun kv => (fst kv, Pdfcpu.sinceVersion (snd kv))) (Pdfcpu.annotationTable dg)
  = subtypeFloors.
Proof. reflexivity. Qed.

Lemma validate_subtypeFloors dg :
  map (fun kv => (fst kv, Validate.sinceVersion (snd kv))) (Validate.annotationTable dg)
  = subtypeFloors.
Proof. reflexivity. Qed.

Ltac floor_entries Hin :=
  cbn in Hin;
  repeat (destruct Hin as [Hin|Hin]; [injection Hin as <- <-|]);
  [..|contradiction Hin].

(** The general fields of a minimal annotation: accepted once the
    document has reached the floor of the subtype; below it, accepted or
    rejected for the version. *)
Lemma general_minimal dg (Hdg : acceptsRequiredEntries dg) b xRefTable k f :
  In (k, f) subtypeFloors ->
  (versionLe f (Version xRefTable) = true ->
   Shared.validateAnnotationDictGeneral dg xRefTable (minimalAnnot b k) "annotDict"
   = Ok (Some k)) /\
  (Shared.validateAnnotationDictGeneral dg xRefTable (minimalAnnot b k) "annotDict"
   = Ok (Some k) \/
   failsWith UnsupportedInVersion
     (Shared.validateAnnotationDictGeneral dg xRefTable (minimalAnnot b k) "annotDict")).
Proof.
  intros Hin. destruct xRefTable as [ver m tbl].
  destruct (Hdg (mkXRefTable ver m tbl) b) as (_ & _ & _ & Hap & _).
  clear Hdg. symbolic_delegates dg. cbn in Hap.
  floor_entries Hin.
  all: destruct b, ver; vm_compute in Hap.
  all: split; [intros Hv; cbn in Hv; try discriminate Hv; clear Hv|].
  all: try solve [evaluate].
  all: first [ left; solve [evaluate] | right; solve [evaluate_failure] ].
Qed.

Lemma pdfcpu_validateAnnotationDict_unfold dg fuel xRefTable (dict : Dict) :
  Pdfcpu.validateAnnotationDict dg fuel xRefTable dict
  = Pdfcpu.validateAnnotationDictBody dg
      (fun x d => match fuel with
                  | O => OutOfFuel
                  | S fuel' => Pdfcpu.validateAnnotationDict dg fuel' x d
                  end)
      xRefTable dict.
Proof. destruct fuel; reflexivity. Qed.

Lemma validate_validateAnnotationDict_unfold dg fuel xRefTable (dict : Dict) :
  Validate.validateAnnotationDict dg fuel xRefTable dict
  = Validate.validateAnnotationDictBody dg
      (fun x d => match fuel with
                  | O => OutOfFuel
                  | S fuel' => Validate.validateAnnotationDict dg fuel' x d
                  end)
      xRefTable dict.
Proof. destruct fuel; reflexivity. Qed.

Lemma pdfcpu_in_subtypeFloors dg k v :
  In (k, v) (Pdfcpu.annotationTable dg) -> In (k, Pdfcpu.sinceVersion v) subtypeFloors.
Proof.
  intros Hin. rewrite <- (pdfcpu_subtypeFloors dg).
  apply (in_map (fun kv => (fst kv, Pdfcpu.sinceVersion (snd kv))) _ _ Hin).
Qed.

Lemma validate_in_subtypeFloors dg k v :
  In (k, v) (Validate.annotationTable dg) -> In (k, Validate.sinceVersion v) subtypeFloors.
Proof.
  intros Hin. rewrite <- (validate_subtypeFloors dg).
  apply (in_map (fun kv => (fst kv, Validate.sinceVersion (snd kv))) _ _ Hin).
Qed.

Ltac table_entries Hin :=
  cbn in Hin;
  repeat (destruct Hin as [Hin|Hin]; [injection Hin as <- <-|]);
  [..|contradiction Hin].

Ltac assume_required Hdg :=
  match goal with
  | |- context [mkXRefTable ?a ?b ?c] =>
      assume_delegates Hdg (mkXRefTable a b c) true
  end;
  clear Hdg.

(** The first revision on the minimal annotation of a subtype of its
    table.  Its Link validator hands the floor 1.1 to "A" and "Dest" (line
    312), hence the condition on Link. *)
Lemma pdfcpu_minimal dg (Hdg : acceptsRequiredEntries dg) fuel xRefTable k v :
  In (k, v) (Pdfcpu.annotationTable dg) ->
  (versionLe (Pdfcpu.sinceVersion v) (Version xRefTable) = true ->
   (k = "Link" -> versionLe V11 (Version xRefTable) = true) ->
   Pdfcpu.validateAnnotationDict dg fuel xRefTable (minimalAnnot true k)
   = Ok (String.eqb k "TrapNet")) /\
  (versionLt (Version xRefTable) (Pdfcpu.sinceVersion v) = true ->
   failsWith UnsupportedInVersion
     (Pdfcpu.validateAnnotationDict dg fuel xRefTable (minimalAnnot true k))).
Proof.
  intros Hin. rewrite pdfcpu_validateAnnotationDict_unfold.
  unfold Pdfcpu.validateAnnotationDictBody.
  destruct (general_minimal dg Hdg true xRefTable k _ (pdfcpu_in_subtypeFloors _ _ _ Hin))
    as [Hok Hany].
  split; intros Hv.
  - intros Hlink. rewrite (Hok Hv). clear Hok Hany.
    destruct xRefTable as [ver m tbl]. table_entries Hin.
    all: destruct ver; cbn in Hv; try discriminate Hv; clear Hv.
    all: try (specialize (Hlink eq_refl); discriminate Hlink).
    all: clear Hlink.
    all: symbolic_delegates dg; assume_required Hdg.
    all: solve [evaluate].
  - clear Hok. destruct Hany as [Hg|(e & He & Hk)].
    + rewrite Hg. clear Hg.
      destruct xRefTable as [ver m tbl]. table_entries Hin.
      all: destruct ver; cbn in Hv; try discriminate Hv; clear Hv.
      all: symbolic_delegates dg; assume_required Hdg.
      all: solve [evaluate_failure].
    + rewrite He. exists e. split; [reflexivity|exact Hk].
Qed.

(** The second revision on the minimal annotation of a subtype of its
    table. *)
Lemma validate_minimal dg (Hdg : acceptsRequiredEntries dg) fuel xRefTable k v :
  In (k, v) (Validate.annotationTable dg) ->
  (versionLe (Validate.sinceVersion v) (Version xRefTable) = true ->
   Validate.validateAnnotationDict dg fuel xRefTable (minimalAnnot true k)
   = Ok (String.eqb k "TrapNet")) /\
  (versionLt (Version xRefTable) (Validate.sinceVersion v) = true ->
   failsWith UnsupportedInVersion
     (Validate.validateAnnotationDict dg fuel xRefTable (minimalAnnot true k))).
Proof.
  intros Hin. rewrite validate_validateAnnotationDict_unfold.
  unfold Validate.validateAnnotationDictBody.
  destruct (general_minimal dg Hdg true xRefTable k _ (validate_in_subtypeFloors _ _ _ Hin))
    as [Hok Hany].
  split; intros Hv.
  - rewrite (Hok Hv). clear Hok Hany.
    destruct xRefTable as [ver m tbl]. table_entries Hin.
    all: destruct ver; cbn in Hv; try discriminate Hv; clear Hv.
    all: symbolic_delegates dg;
         match goal with
         | |- context [mkXRefTable ?a ?b ?c] =>
             assume_delegates Hdg (mkXRefTable a b c) true
         end; clear Hdg.
    all: solve [evaluate].
  - clear Hok. destruct Hany as [Hg|(e & He & Hk)].
    + rewrite Hg. clear Hg.
      destruct xRefTable as [ver m tbl]. table_entries Hin.
      all: destruct ver; cbn in Hv; try discriminate Hv; clear Hv.
      all: symbolic_delegates dg;
           match goal with
           | |- context [mkXRefTable ?a ?b ?c] =>
               assume_delegates Hdg (mkXRefTable a b c) true
           end; clear Hdg.
      all: solve [evaluate_failure].
    + rewrite He. exists e. split; [reflexivity|exact Hk].
Qed.

(** A subtype name that is no key of the table. *)
Lemma pdfcpu_lookupDescriptor_None dg (s : string) :
  ~ In s (map fst (Pdfcpu.annotationTable dg)) ->
  Pdfcpu.lookupDescriptor s (Pdfcpu.annotationTable dg) = None.
Proof.
  generalize (Pdfcpu.annotationTable dg). intros table.
  induction table as [|[k v] rest IH]; cbn; [reflexivity|].
  intros Hn. destruct (String.eqb_spec s k) as [->|Hne]; [tauto|].
  apply IH. tauto.
Qed.

Lemma validate_lookupDescriptor_None dg (s : string) :
  ~ In s (map fst (Validate.annotationTable dg)) ->
  Validate.lookupDescriptor s (Validate.annotationTable dg) = None.
Proof.
  generalize (Validate.annotationTable dg). intros table.
  induction table as [|[k v] rest IH]; cbn; [reflexivity|].
  intros Hn. destruct (String.eqb_spec s k) as [->|Hne]; [tauto|].
  apply IH. tauto.
Qed.

(** In the first revision both "A" and "Dest" have the floor 1.1, so the
    Link annotation that carries a destination is rejected in a document of
    version 1.0, the minimum version of Link. *)
Lemma pdfcpu_link_with_destination_at_V10 dg fuel m tbl :
  Pdfcpu.validateAnnotationDict dg fuel (mkXRefTable V10 m tbl) linkAnnot
  = Err (mkError UnsupportedInVersion "Link" "Dest").
Proof.
  rewrite pdfcpu_validateAnnotationDict_unfold. symbolic_delegates dg. evaluate.
Qed.

(** ** Link: action or destination *)

Lemma pdfcpu_validateActionOrDestination_neither dg xRefTable (dict : Dict)
    dictName sinceVersion :
  dict !! "A" = None -> dict !! "Dest" = None ->
  Pdfcpu.validateActionOrDestination dg xRefTable dict dictName sinceVersion = Ok tt.
Proof.
  intros HA HD. unfold Pdfcpu.validateActionOrDestination, validateDictEntry, validateEntry.
  rewrite !validateKindEntry_absent by assumption. reflexivity.
Qed.

Lemma validate_validateActionOrDestination_neither dg xRefTable (dict : Dict) dictName :
  dict !! "A" = None -> dict !! "Dest" = None ->
  Validate.validateActionOrDestination dg xRefTable dict dictName
  = Err missingActionOrDestination.
Proof.
  intros HA HD. unfold Validate.validateActionOrDestination, validateDictEntry.
  rewrite validateKindEntry_absent by assumption. cbn. unfold Find. rewrite HD.
  reflexivity.
Qed.

(** C2: a Link annotation needs "A" or "Dest".  The second revision
    rejects the Link annotation that has neither with its missing
    action-or-destination error; the first revision, whose comment on the
    call still reads "A or Dest, required either or", reads both entries as
    optional and accepts it. *)
Theorem link_without_action_or_destination
    (dg : Delegates) (fuel : nat) (xRefTable : XRefTable) :
  Pdfcpu.validateAnnotationDict dg fuel xRefTable bareLink = Ok false /\
  Validate.validateAnnotationDict dg fuel xRefTable bareLink
  = Err missingActionOrDestination /\
  (forall (dict : Dict) (dictName : string) (sinceVersion : PDFVersion),
     dict !! "A" = None -> dict !! "Dest" = None ->
     Pdfcpu.validateActionOrDestination dg xRefTable dict dictName sinceVersion = Ok tt /\
     Validate.validateActionOrDestination dg xRefTable dict dictName
     = Err missingActionOrDestination).
Proof.
  split; [|split].
  - rewrite pdfcpu_validateAnnotationDict_unfold. symbolic_delegates dg.
    destruct xRefTable as [ver m tbl]. destruct ver; evaluate.
  - rewrite validate_validateAnnotationDict_unfold. symbolic_delegates dg.
    destruct xRefTable as [ver m tbl]. destruct ver; evaluate.
  - intros dict dictName sinceVersion HA HD. split.
    + apply pdfcpu_validateActionOrDestination_neither; assumption.
    + apply validate_validateActionOrDestination_neither; assumption.
Qed.

Lemma link_without_action_or_destination_witness :
  Pdfcpu.validateActionOrDestination acceptAll (emptyTable V17 ValidationStrict)
    bareLink "Link" V11 = Ok tt /\
  Validate.validateActionOrDestination acceptAll (emptyTable V17 ValidationStrict)
    bareLink "Link" = Err missingActionOrDestination.
Proof.
  apply (proj2 (proj2 (link_without_action_or_destination acceptAll 0
                         (emptyTable V17 ValidationStrict))));
    reflexivity.
Defined.

(** ** Movie: the movie dictionary *)

(** C7: the movie dictionary has a required file specification "F", and
    its "Aspect" entry has to be an integer array of length 2.  The code
    hands "F" to the file specification delegate as required, but reads the
    array under the key "Ascpect": an "Aspect" entry of length 3 is
    accepted, in the movie dictionary and in the Movie annotation, in both
    revisions, while the same array under the misspelled key is the
    constraint violation the comment in the source announces for
    "Aspect". *)
Theorem movie_aspect_length_unchecked
    (dg : Delegates) (fuel : nat) (xRefTable : XRefTable) :
  (forall (key : string) (n : nat),
     validateFileSpecEntry dg xRefTable (movieDictWith key n) "movieDict" "F" REQUIRED V10
     = Ok tt) ->
  versionLe V12 (Version xRefTable) = true ->
  Shared.validateMovieDict dg xRefTable (movieDictWith "Aspect" 3) = Ok tt /\
  Pdfcpu.validateAnnotationDict dg fuel xRefTable (movieAnnot "Aspect" 3) = Ok false /\
  Validate.validateAnnotationDict dg fuel xRefTable (movieAnnot "Aspect" 3) = Ok false /\
  Shared.validateMovieDict dg xRefTable (movieDictWith "Ascpect" 3)
  = Err (mkError ConstraintViolation "movieDict" "Ascpect") /\
  Shared.validateMovieDict dg xRefTable (movieDictWith "Ascpect" 2) = Ok tt.
Proof.
  intros Hfs Hv.
  pose proof (Hfs "Aspect" 3) as H1. pose proof (Hfs "Ascpect" 3) as H2.
  pose proof (Hfs "Ascpect" 2) as H3. clear Hfs.
  rewrite pdfcpu_validateAnnotationDict_unfold, validate_validateAnnotationDict_unfold.
  symbolic_delegates dg. cbn in H1, H2, H3.
  destruct xRefTable as [ver m tbl].
  destruct ver; cbn in Hv; try discriminate Hv; clear Hv;
    vm_compute in H1, H2, H3; (repeat split; evaluate).
Qed.

Lemma movie_aspect_length_unchecked_witness :
  Shared.validateMovieDict acceptAll (emptyTable V12 ValidationStrict)
    (movieDictWith "Aspect" 3) = Ok tt.
Proof.
  apply (movie_aspect_length_unchecked acceptAll 0 (emptyTable V12 ValidationStrict));
    reflexivity.
Defined.

(** ** TrapNet: the FontFauxing array *)

Lemma skipped_PDFNull xRefTable : skipped xRefTable PDFNull.
Proof. reflexivity. Qed.

Lemma fontDictArrayLoop_step xRefTable (retValue : bool) (v : PDFObject)
    (rest : list PDFObject) :
  Shared.fontDictArrayLoop xRefTable retValue (v :: rest)
  = match DereferenceDict xRefTable v with
    | Ok None => Shared.fontDictArrayLoop xRefTable retValue rest
    | Ok (Some dict) =>
        match TypeOf dict with
        | Some t =>
            if String.eqb t "Font"
            then Shared.fontDictArrayLoop xRefTable true rest
            else false
        | None => false
        end
    | _ => false
    end.
Proof.
  assert (Hn : forall b : bool,
             (if negb b then false else Shared.fontDictArrayLoop xRefTable true rest)
             = (if b then Shared.fontDictArrayLoop xRefTable true rest else false))
    by (intros []; reflexivity).
  destruct v; try reflexivity; cbn -[String.eqb DereferenceDict];
    (destruct (DereferenceDict xRefTable _) as [[dict|]| | |]; try reflexivity;
     destruct (TypeOf dict); [apply Hn|reflexivity]).
Qed.

Lemma fontDictArrayLoop_spec xRefTable (a : list PDFObject) (retValue : bool) :
  Shared.fontDictArrayLoop xRefTable retValue a = true <->
  Forall (fun v => skipped xRefTable v \/ isFontDict xRefTable v) a /\
  (retValue = true \/ Exists (isFontDict xRefTable) a).
Proof.
  revert retValue. induction a as [|v rest IH]; intros retValue.
  - cbn. split.
    + intros ->. split; [constructor|left; reflexivity].
    + intros [_ [H|H]]; [exact H|inversion H].
  - rewrite fontDictArrayLoop_step. unfold skipped, isFontDict.
    destruct (DereferenceDict xRefTable v) as [[dict|]| | |] eqn:Hd.
    + destruct (TypeOf dict) as [t|] eqn:Ht.
      * destruct (String.eqb_spec t "Font") as [->|Hne].
        -- rewrite IH. split.
           ++ intros [Hall _]. split.
              ** constructor; [right; eauto|exact Hall].
              ** right. constructor. eauto.
           ++ intros [Hall _]. inversion Hall; subst. split; [assumption|left; reflexivity].
        -- split; [discriminate|].
           intros [Hall _]. inversion Hall as [|? ? [Hs|(d' & Hd' & Ht')] _]; subst.
           ++ rewrite Hd in Hs. discriminate.
           ++ rewrite Hd in Hd'. injection Hd' as <-. congruence.
      * split; [discriminate|].
        intros [Hall _]. inversion Hall as [|? ? [Hs|(d' & Hd' & Ht')] _]; subst.
        -- rewrite Hd in Hs. discriminate.
        -- rewrite Hd in Hd'. injection Hd' as <-. congruence.
    + rewrite IH. split.
      * intros [Hall Hex]. split; [constructor; [left; exact Hd|exact Hall]|].
        destruct Hex as [H|H]; [left; exact H|right; constructor 2; exact H].
      * intros [Hall Hex]. inversion Hall; subst. split; [assumption|].
        destruct Hex as [H|H]; [left; exact H|].
        inversion H as [? ? (d' & Hd' & _)|]; subst; [|right; assumption].
        rewrite Hd in Hd'. discriminate.
    + split; [discriminate|].
      intros [Hall _]. inversion Hall as [|? ? [Hs|(d' & Hd' & Ht')] _]; subst;
        [rewrite Hd in Hs|rewrite Hd in Hd']; discriminate.
    + split; [discriminate|].
      intros [Hall _]. inversion Hall as [|? ? [Hs|(d' & Hd' & Ht')] _]; subst;
        [rewrite Hd in Hs|rewrite Hd in Hd']; discriminate.
    + split; [discriminate|].
      intros [Hall _]. inversion Hall as [|? ? [Hs|(d' & Hd' & Ht')] _]; subst;
        [rewrite Hd in Hs|rewrite Hd in Hd']; discriminate.
Qed.

(** The predicate holds exactly when every element is skipped or is a
    Font dictionary, and at least one element is a Font dictionary. *)
Lemma validateFontDictArray_spec xRefTable (a : list PDFObject) :
  Shared.validateFontDictArray xRefTable a = true <->
  Forall (fun v => skipped xRefTable v \/ isFontDict xRefTable v) a /\
  Exists (isFontDict xRefTable) a.
Proof.
  unfold Shared.validateFontDictArray. rewrite fontDictArrayLoop_spec.
  split; intros [H1 H2]; (split; [exact H1|]).
  - destruct H2 as [H2|H2]; [discriminate|exact H2].
  - right. exact H2.
Qed.

(** With nothing but skipped elements the predicate fails. *)
Lemma validateFontDictArray_all_skipped xRefTable (a : list PDFObject) :
  Forall (skipped xRefTable) a -> Shared.validateFontDictArray xRefTable a = false.
Proof.
  intros Hall. destruct (Shared.validateFontDictArray xRefTable a) eqn:E; [|reflexivity].
  apply validateFontDictArray_spec in E. destruct E as [_ Hex].
  apply Exists_exists in Hex. destruct Hex as (v & Hin & d & Hd & _).
  rewrite Forall_forall in Hall. specialize (Hall v Hin).
  unfold skipped in Hall. congruence.
Qed.

(** An accessor with a predicate, in terms of the one without. *)
Lemma validateKindEntry_predicate {A : Type} (cast : PDFObject -> option A)
    xRefTable (dict : Dict) dictName entryName required sinceVersion p a :
  validateKindEntry cast xRefTable dict dictName entryName required sinceVersion None
  = Ok (Some a) ->
  validateKindEntry cast xRefTable dict dictName entryName required sinceVersion (Some p)
  = if p a then Ok (Some a) else Err (mkError ConstraintViolation dictName entryName).
Proof.
  unfold validateKindEntry, mbind, result_bind, bind.
  destruct (Find dict entryName) as [obj|]; [|destruct required; discriminate].
  destruct (Dereference xRefTable obj) as [o| | |]; try discriminate.
  destruct (versionLt (Version xRefTable) sinceVersion).
  - destruct o; try discriminate; destruct required; discriminate.
  - intros H.
    assert (Hc : cast o = Some a).
    { destruct o; try (destruct required; discriminate);
        (destruct (cast _); [injection H as ->; reflexivity|discriminate]). }
    destruct o; try (destruct required; discriminate); rewrite Hc; reflexivity.
Qed.

Lemma pdfcpu_trapNet_fontFauxing dg xRefTable (dict : Dict) (a : list PDFObject) lm ve st :
  validateDateEntry dg xRefTable dict "TrapNet" "LastModified" OPTIONAL V10 = Ok lm ->
  validateArrayEntry xRefTable dict "TrapNet" "Version" OPTIONAL V10 None = Ok ve ->
  validateNameArrayEntry xRefTable dict "TrapNet" "AnnotStates" OPTIONAL V10 None = Ok st ->
  validateArrayEntry xRefTable dict "TrapNet" "FontFauxing" OPTIONAL V10 None = Ok (Some a) ->
  Pdfcpu.validateAnnotationDictTrapNet dg xRefTable dict "TrapNet"
  = if Shared.validateFontDictArray xRefTable a
    then discard (validateIntegerEntry xRefTable dict "TrapNet" "F" REQUIRED V11 None)
    else Err fontFauxingViolation.
Proof.
  intros H1 H2 H3 H4. unfold Pdfcpu.validateAnnotationDictTrapNet.
  rewrite H1, H2, H3. cbn.
  unfold validateArrayEntry in *.
  rewrite (validateKindEntry_predicate _ _ _ _ _ _ _ _ _ H4).
  destruct (Shared.validateFontDictArray xRefTable a); reflexivity.
Qed.

Lemma validate_trapNet_fontFauxing dg xRefTable (dict : Dict) (a : list PDFObject)
    sinceVersion lm ve st :
  versionLt (Version xRefTable) sinceVersion = false ->
  validateDateEntry dg xRefTable dict "TrapNet" "LastModified" OPTIONAL V10 = Ok lm ->
  validateArrayEntry xRefTable dict "TrapNet" "Version" OPTIONAL V10 None = Ok ve ->
  validateNameArrayEntry xRefTable dict "TrapNet" "AnnotStates" OPTIONAL V10 None = Ok st ->
  validateArrayEntry xRefTable dict "TrapNet" "FontFauxing" OPTIONAL V10 None = Ok (Some a) ->
  Validate.validateAnnotationDictTrapNet dg xRefTable dict "TrapNet" sinceVersion
  = if Shared.validateFontDictArray xRefTable a
    then discard (validateIntegerEntry xRefTable dict "TrapNet" "F" REQUIRED V11 None)
    else Err fontFauxingViolation.
Proof.
  intros Hv H1 H2 H3 H4.
  unfold Validate.validateAnnotationDictTrapNet, Validate.versionCheck.
  rewrite Hv, H1, H2, H3. cbn.
  unfold validateArrayEntry in *.
  rewrite (validateKindEntry_predicate _ _ _ _ _ _ _ _ _ H4).
  destruct (Shared.validateFontDictArray xRefTable a); [|reflexivity].
  cbn. unfold discard.
  destruct (validateIntegerEntry xRefTable dict "TrapNet" "F" REQUIRED V11 None);
    reflexivity.
Qed.

(** C8, as stated, fails: a "FontFauxing" array that is empty, or holds
    null elements only, is not passed over as if the entry were absent.  The
    predicate answers false on it and the TrapNet annotation is rejected,
    although the same annotation without the entry is accepted. *)
Lemma fontFauxing_without_fonts_is_rejected :
  Pdfcpu.validateAnnotationDict acceptAll 0 (emptyTable V13 ValidationStrict)
    (trapNetWith (PDFArray [])) = Err fontFauxingViolation /\
  Pdfcpu.validateAnnotationDict acceptAll 0 (emptyTable V13 ValidationStrict)
    (trapNetWith (PDFArray [PDFNull; PDFNull])) = Err fontFauxingViolation /\
  Validate.validateAnnotationDict acceptAll 0 (emptyTable V13 ValidationStrict)
    (trapNetWith (PDFArray [])) = Err fontFauxingViolation /\
  Validate.validateAnnotationDict acceptAll 0 (emptyTable V13 ValidationStrict)
    (trapNetWith (PDFArray [PDFNull; PDFNull])) = Err fontFauxingViolation /\
  Pdfcpu.validateAnnotationDict acceptAll 0 (emptyTable V13 ValidationStrict)
    trapNetAnnot = Ok true /\
  Validate.validateAnnotationDict acceptAll 0 (emptyTable V13 ValidationStrict)
    trapNetAnnot = Ok true.
Proof. repeat split; vm_compute; reflexivity. Qed.

(** C8, amended: every element of a "FontFauxing" array that is not null
    has to resolve to a dictionary whose Type is "Font" (or to null), null
    elements are skipped, and the array has to hold at least one Font
    dictionary: on an empty or all-null array, as on an array with an
    element that is no Font dictionary, the predicate fails and the TrapNet
    annotation is rejected with a constraint violation.  Both revisions. *)
Theorem fontFauxing_needs_a_font_dictionary
    (dg : Delegates) (xRefTable : XRefTable) (dict : Dict) (a : list PDFObject)
    (sinceVersion : PDFVersion)
    (lm : option string) (ve st : option (list PDFObject)) :
  versionLt (Version xRefTable) sinceVersion = false ->
  validateDateEntry dg xRefTable dict "TrapNet" "LastModified" OPTIONAL V10 = Ok lm ->
  validateArrayEntry xRefTable dict "TrapNet" "Version" OPTIONAL V10 None = Ok ve ->
  validateNameArrayEntry xRefTable dict "TrapNet" "AnnotStates" OPTIONAL V10 None = Ok st ->
  validateArrayEntry xRefTable dict "TrapNet" "FontFauxing" OPTIONAL V10 None = Ok (Some a) ->
  (Shared.validateFontDictArray xRefTable a = true <->
   Forall (fun v => skipped xRefTable v \/ isFontDict xRefTable v) a /\
   Exists (isFontDict xRefTable) a) /\
  skipped xRefTable PDFNull /\
  (Shared.validateFontDictArray xRefTable a = false ->
   Pdfcpu.validateAnnotationDictTrapNet dg xRefTable dict "TrapNet"
   = Err fontFauxingViolation /\
   Validate.validateAnnotationDictTrapNet dg xRefTable dict "TrapNet" sinceVersion
   = Err fontFauxingViolation) /\
  (Forall (skipped xRefTable) a ->
   Pdfcpu.validateAnnotationDictTrapNet dg xRefTable dict "TrapNet"
   = Err fontFauxingViolation /\
   Validate.validateAnnotationDictTrapNet dg xRefTable dict "TrapNet" sinceVersion
   = Err fontFauxingViolation) /\
  (Shared.validateFontDictArray xRefTable a = true ->
   Pdfcpu.validateAnnotationDictTrapNet dg xRefTable dict "TrapNet"
   = discard (validateIntegerEntry xRefTable dict "TrapNet" "F" REQUIRED V11 None) /\
   Validate.validateAnnotationDictTrapNet dg xRefTable dict "TrapNet" sinceVersion
   = discard (validateIntegerEntry xRefTable dict "TrapNet" "F" REQUIRED V11 None)).
Proof.
  intros Hv H1 H2 H3 H4.
  pose proof (pdfcpu_trapNet_fontFauxing dg _ _ _ _ _ _ H1 H2 H3 H4) as Hp.
  pose proof (validate_trapNet_fontFauxing dg _ _ _ _ _ _ _ Hv H1 H2 H3 H4) as Hq.
  split; [apply validateFontDictArray_spec|].
  split; [apply skipped_PDFNull|].
  split; [|split].
  - intros Hf. rewrite Hp, Hq, Hf. split; reflexivity.
  - intros Hall. rewrite Hp, Hq, (validateFontDictArray_all_skipped _ _ Hall).
    split; reflexivity.
  - intros Ht. rewrite Hp, Hq, Ht. split; reflexivity.
Qed.

Lemma fontFauxing_needs_a_font_dictionary_witness :
  Pdfcpu.validateAnnotationDictTrapNet acceptAll (emptyTable V13 ValidationStrict)
    (trapNetWith (PDFArray [PDFNull])) "TrapNet" = Err fontFauxingViolation /\
  Validate.validateAnnotationDictTrapNet acceptAll (emptyTable V13 ValidationStrict)
    (trapNetWith (PDFArray [PDFNull])) "TrapNet" V13 = Err fontFauxingViolation.
Proof.
  apply (proj1 (proj2 (proj2 (proj2
           (fontFauxing_needs_a_font_dictionary acceptAll
              (emptyTable V13 ValidationStrict) (trapNetWith (PDFArray [PDFNull]))
              [PDFNull] V13 None None None
              eq_refl eq_refl eq_refl eq_refl eq_refl))))).
  repeat constructor.
Defined.

(** ** Recursion through Popup and IRT *)

(** C9, as stated, fails: validation does terminate on the cyclic
    structure of its example.  B has to be of subtype Popup, Popup is no
    markup subtype, so the IRT entry of B is never read: with fuel for one
    recursive call A is accepted, in every version from 1.3 on. *)
Lemma popup_irt_cycle_terminates :
  Table (cycleTable V17 ValidationStrict) !! 1%N = Some (PDFDict cycleA) /\
  cycleA !! "Popup" = Some (PDFIndirectRef 2 0) /\
  Table (cycleTable V17 ValidationStrict) !! 2%N = Some (PDFDict cycleB) /\
  cycleB !! "IRT" = Some (PDFIndirectRef 1 0) /\
  Pdfcpu.validateAnnotationDict acceptAll 1 (cycleTable V17 ValidationStrict) cycleA
  = Ok false /\
  Validate.validateAnnotationDict acceptAll 1 (cycleTable V17 ValidationStrict) cycleA
  = Ok false.
Proof. repeat split; vm_compute; reflexivity. Qed.

Ltac recursive_call_answer H :=
  lazymatch type of H with
  | ?f ?a ?b = ?v =>
      is_var f;
      match goal with
      | |- context [f ?a' ?b'] =>
          let r := fresh "r" in
          let E := fresh "E" in
          remember (f a' b') as r eqn:E in |- *;
          (assert (r = v) as -> by exact (eq_trans E H));
          clear E
      end
  end.

(** One more level of recursion does not help on the self reply. *)
Lemma pdfcpu_selfReply_body dg v m (rec : XRefTable -> Dict -> Result bool) :
  versionLe V15 v = true ->
  rec (selfReplyTable v m) selfReply = OutOfFuel ->
  Pdfcpu.validateAnnotationDictBody dg rec (selfReplyTable v m) selfReply = OutOfFuel.
Proof.
  intros Hv Hrec. symbolic_delegates dg.
  destruct v; cbn in Hv; try discriminate Hv; clear Hv;
    destruct m; vm_compute in Hrec; vm_compute;
    recursive_call_answer Hrec; reflexivity.
Qed.

Lemma validate_selfReply_body dg v m (rec : XRefTable -> Dict -> Result bool) :
  versionLe V15 v = true ->
  rec (selfReplyTable v m) selfReply = OutOfFuel ->
  Validate.validateAnnotationDictBody dg rec (selfReplyTable v m) selfReply = OutOfFuel.
Proof.
  intros Hv Hrec. symbolic_delegates dg.
  destruct v; cbn in Hv; try discriminate Hv; clear Hv;
    destruct m; vm_compute in Hrec; vm_compute;
    recursive_call_answer Hrec; reflexivity.
Qed.

(** The cycle through Popup and IRT is left after one recursive call. *)
Lemma cycle_terminates dg n v m :
  versionLe V13 v = true ->
  Pdfcpu.validateAnnotationDict dg (S n) (cycleTable v m) cycleA = Ok false /\
  Validate.validateAnnotationDict dg (S n) (cycleTable v m) cycleA = Ok false.
Proof.
  intros Hv. symbolic_delegates dg.
  destruct v; cbn in Hv; try discriminate Hv; clear Hv;
    destruct m, n; split; vm_compute; reflexivity.
Qed.

(** C9, amended: the validator follows Popup and IRT entries without a
    depth counter and without a set of visited objects, and the recursion is
    unbounded on some inputs: on a markup annotation whose IRT entry points
    back to itself, in a document of version 1.5 or later, no amount of fuel
    is enough, in either revision and whatever the delegates.  A cycle alone
    is not enough for that: on A whose Popup entry points to B whose IRT
    entry points back to A, validation returns after one recursive call,
    since B has to be a Popup annotation and Popup is no markup subtype. *)
Theorem irt_self_reference_recursion_unbounded
    (dg : Delegates) (fuel : nat) (v : PDFVersion) (m : ValidationMode) :
  versionLe V15 v = true ->
  (Table (selfReplyTable v m) !! 1%N = Some (PDFDict selfReply) /\
   selfReply !! "IRT" = Some (PDFIndirectRef 1 0) /\
   Pdfcpu.validateAnnotationDict dg fuel (selfReplyTable v m) selfReply = OutOfFuel /\
   Validate.validateAnnotationDict dg fuel (selfReplyTable v m) selfReply = OutOfFuel) /\
  (Table (cycleTable v m) !! 1%N = Some (PDFDict cycleA) /\
   cycleA !! "Popup" = Some (PDFIndirectRef 2 0) /\
   Table (cycleTable v m) !! 2%N = Some (PDFDict cycleB) /\
   cycleB !! "IRT" = Some (PDFIndirectRef 1 0) /\
   Pdfcpu.validateAnnotationDict dg (S fuel) (cycleTable v m) cycleA = Ok false /\
   Validate.validateAnnotationDict dg (S fuel) (cycleTable v m) cycleA = Ok false).
Proof.
  intros Hv. split.
  - split; [reflexivity|]. split; [reflexivity|].
    induction fuel as [|fuel [IH1 IH2]].
    + split.
      * rewrite pdfcpu_validateAnnotationDict_unfold.
        apply pdfcpu_selfReply_body; [exact Hv|reflexivity].
      * rewrite validate_validateAnnotationDict_unfold.
        apply validate_selfReply_body; [exact Hv|reflexivity].
    + split.
      * rewrite pdfcpu_validateAnnotationDict_unfold.
        apply pdfcpu_selfReply_body; [exact Hv|exact IH1].
      * rewrite validate_validateAnnotationDict_unfold.
        apply validate_selfReply_body; [exact Hv|exact IH2].
  - do 4 (split; [reflexivity|]).
    apply cycle_terminates. destruct v; cbn in Hv; try discriminate Hv; reflexivity.
Qed.

Lemma irt_self_reference_recursion_unbounded_witness :
  Pdfcpu.validateAnnotationDict acceptAll 5 (selfReplyTable V15 ValidationStrict)
    selfReply = OutOfFuel /\
  Validate.validateAnnotationDict acceptAll 5 (selfReplyTable V15 ValidationStrict)
    selfReply = OutOfFuel.
Proof.
  apply (proj1 (irt_self_reference_recursion_unbounded acceptAll 5 V15 ValidationStrict
                  eq_refl)).
Defined.

(** ** The Popup entry of a markup annotation *)








(** The inner validation of a Popup annotation, surfaced: the Popup
    annotation lacks its "Rect". *)
Lemma popup_inner_error_surfaces :
  Pdfcpu.validateAnnotationDict acceptAll 1
    (popupTable V13 ValidationStrict (list_to_map [("Subtype", PDFName "Popup")]))
    withPopup
  = Err (mkError MissingRequiredField "annotDict" "Rect") /\
  Validate.validateAnnotationDict acceptAll 1
    (popupTable V13 ValidationStrict (list_to_map [("Subtype", PDFName "Popup")]))
    withPopup
  = Err (mkError MissingRequiredField "annotDict" "Rect").
Proof. split; vm_compute; reflexivity. Qed.

(** ** Text: State and StateModel *)

Lemma pdfcpu_text_after_state xRefTable (dict : Dict) dictName o n state :
  validateBooleanEntry xRefTable dict dictName "Open" OPTIONAL V10 None = Ok o ->
  validateNameEntry xRefTable dict dictName "Name" OPTIONAL V10 None = Ok n ->
  validateStringEntry xRefTable dict dictName "State" OPTIONAL V15
    (Some (fun s => memberOf s stateSet)) = state ->
  Pdfcpu.validateAnnotationDictText xRefTable dict dictName
  = (state ← state;
     discard (validateStringEntry xRefTable dict dictName "StateModel"
                (match state with Some _ => true | None => false end) V15
                (Some (fun s => memberOf s stateModelSet)))).
Proof.
  intros Ho Hn Hs. unfold Pdfcpu.validateAnnotationDictText.
  rewrite Ho, Hn. cbn -[validateStringEntry]. rewrite <- Hs. reflexivity.
Qed.

Lemma validate_text_after_state xRefTable (dict : Dict) dictName sinceVersion o n state :
  versionLt (Version xRefTable) sinceVersion = false ->
  validateBooleanEntry xRefTable dict dictName "Open" OPTIONAL V10 None = Ok o ->
  validateNameEntry xRefTable dict dictName "Name" OPTIONAL V10 None = Ok n ->
  validateStringEntry xRefTable dict dictName "State" OPTIONAL V15
    (Some (fun s => memberOf s stateSet)) = state ->
  Validate.validateAnnotationDictText xRefTable dict dictName sinceVersion
  = (state ← state;
     discard (validateStringEntry xRefTable dict dictName "StateModel"
                (match state with Some _ => true | None => false end) V15
                (Some (fun s => memberOf s stateModelSet)))).
Proof.
  intros Hv Ho Hn Hs.
  unfold Validate.validateAnnotationDictText, Validate.versionCheck.
  rewrite Hv, Ho, Hn. cbn -[validateStringEntry]. rewrite <- Hs. reflexivity.
Qed.

(** C6: in a Text annotation "State" is optional and has to be "None" or
    "Unmarked"; once "State" is there, "StateModel" (which has to be
    "Marked" or "Review") is required: a Text annotation with a "State" and
    no "StateModel" is a missing-required-field error on "StateModel",
    while one with neither entry is accepted.  Both revisions, given that
    the entries read before ("Open", "Name") are accepted and, in the second
    revision, that the version check of the subtype passes. *)
Theorem text_state_requires_stateModel
    (xRefTable : XRefTable) (dict : Dict) (dictName : string)
    (sinceVersion : PDFVersion) (o : option bool) (n : option string) :
  versionLt (Version xRefTable) sinceVersion = false ->
  validateBooleanEntry xRefTable dict dictName "Open" OPTIONAL V10 None = Ok o ->
  validateNameEntry xRefTable dict dictName "Name" OPTIONAL V10 None = Ok n ->
  (dict !! "State" = None -> dict !! "StateModel" = None ->
   Pdfcpu.validateAnnotationDictText xRefTable dict dictName = Ok tt /\
   Validate.validateAnnotationDictText xRefTable dict dictName sinceVersion = Ok tt) /\
  (forall s : string,
     validateStringEntry xRefTable dict dictName "State" OPTIONAL V15 None = Ok (Some s) ->
     (memberOf s ["None"; "Unmarked"] = false ->
      Pdfcpu.validateAnnotationDictText xRefTable dict dictName
      = Err (mkError ConstraintViolation dictName "State") /\
      Validate.validateAnnotationDictText xRefTable dict dictName sinceVersion
      = Err (mkError ConstraintViolation dictName "State")) /\
     (memberOf s ["None"; "Unmarked"] = true ->
      dict !! "StateModel" = None ->
      Pdfcpu.validateAnnotationDictText xRefTable dict dictName
      = Err (mkError MissingRequiredField dictName "StateModel") /\
      Validate.validateAnnotationDictText xRefTable dict dictName sinceVersion
      = Err (mkError MissingRequiredField dictName "StateModel")) /\
     (memberOf s ["None"; "Unmarked"] = true ->
      forall sm : string,
        validateStringEntry xRefTable dict dictName "StateModel" REQUIRED V15 None
        = Ok (Some sm) ->
        Pdfcpu.validateAnnotationDictText xRefTable dict dictName
        = (if memberOf sm ["Marked"; "Review"] then Ok tt
           else Err (mkError ConstraintViolation dictName "StateModel")) /\
        Validate.validateAnnotationDictText xRefTable dict dictName sinceVersion
        = (if memberOf sm ["Marked"; "Review"] then Ok tt
           else Err (mkError ConstraintViolation dictName "StateModel")))).
Proof.
  intros Hv Ho Hn.
  pose proof (fun st => pdfcpu_text_after_state xRefTable dict dictName o n st Ho Hn) as Hp.
  pose proof (fun st => validate_text_after_state xRefTable dict dictName sinceVersion
                          o n st Hv Ho Hn) as Hq.
  unfold validateStringEntry in *. split.
  - intros Hs Hm.
    rewrite (Hp _ eq_refl), (Hq _ eq_refl).
    rewrite (validateKindEntry_absent _ _ _ _ _ _ _ _ Hs). cbn.
    rewrite (validateKindEntry_absent _ _ _ _ _ _ _ _ Hm). split; reflexivity.
  - intros s Hs.
    pose proof (validateKindEntry_predicate asString xRefTable dict dictName "State"
                  OPTIONAL V15 (fun s => memberOf s stateSet) s Hs) as Hst.
    rewrite (Hp _ eq_refl), (Hq _ eq_refl), Hst. unfold stateSet.
    split; [|split].
    + intros ->. split; reflexivity.
    + intros -> Hm. cbn.
      rewrite (validateKindEntry_absent _ _ _ _ _ _ _ _ Hm). split; reflexivity.
    + intros -> sm Hsm. cbn [mbind result_bind bind].
      rewrite (validateKindEntry_predicate asString xRefTable dict dictName "StateModel"
                 true V15 (fun s => memberOf s stateModelSet) sm Hsm).
      unfold stateModelSet. destruct (memberOf sm ["Marked"; "Review"]); split; reflexivity.
Qed.

Lemma text_state_requires_stateModel_witness :
  Pdfcpu.validateAnnotationDictText (emptyTable V15 ValidationStrict) textWithState "Text"
  = Err (mkError MissingRequiredField "Text" "StateModel") /\
  Validate.validateAnnotationDictText (emptyTable V15 ValidationStrict) textWithState
    "Text" V10
  = Err (mkError MissingRequiredField "Text" "StateModel").
Proof.
  apply (proj1 (proj2 (proj2 (text_state_requires_stateModel
           (emptyTable V15 ValidationStrict) textWithState "Text" V10 None None
           eq_refl eq_refl eq_refl) "Unmarked" eq_refl)));
    reflexivity.
Defined.

(** The same through the whole validator, and the annotation with
    neither entry. *)
Lemma text_state_scenarios :
  Pdfcpu.validateAnnotationDict acceptAll 0 (emptyTable V15 ValidationStrict) textWithState
  = Err (mkError MissingRequiredField "Text" "StateModel") /\
  Validate.validateAnnotationDict acceptAll 0 (emptyTable V15 ValidationStrict) textWithState
  = Err (mkError MissingRequiredField "Text" "StateModel") /\
  Pdfcpu.validateAnnotationDict acceptAll 0 (emptyTable V15 ValidationStrict)
    (annot "Text" []) = Ok false /\
  Validate.validateAnnotationDict acceptAll 0 (emptyTable V15 ValidationStrict)
    (annot "Text" []) = Ok false.
Proof. repeat split; vm_compute; reflexivity. Qed.

(** ** Fuel *)

Lemma withMoreFuel_refl {A : Type} (r : Result A) : withMoreFuel r r.
Proof. right. reflexivity. Qed.

Lemma withMoreFuel_bind {A B : Type} (r r' : Result A) (k k' : A -> Result B) :
  withMoreFuel r r' ->
  (forall a, withMoreFuel (k a) (k' a)) ->
  withMoreFuel (bind r k) (bind r' k').
Proof.
  intros [-> | ->] Hk; [left; reflexivity|].
  destruct r'; cbn; [apply Hk|right; reflexivity..].
Qed.

Ltac more_fuel Hrec :=
  repeat first
    [ apply withMoreFuel_refl
    | apply Hrec
    | apply withMoreFuel_bind; [|intros ?]
    | match goal with
      | |- withMoreFuel (match ?x with _ => _ end) _ => destruct x
      end ].

Section MoreFuel.
Variable dg : Delegates.
Variables rec rec' : XRefTable -> Dict -> Result bool.
Hypothesis Hrec : forall x d, withMoreFuel (rec x d) (rec' x d).

Lemma pdfcpu_body_withMoreFuel xRefTable (dict : Dict) :
  withMoreFuel (Pdfcpu.validateAnnotationDictBody dg rec xRefTable dict)
               (Pdfcpu.validateAnnotationDictBody dg rec' xRefTable dict).
Proof.
  unfold Pdfcpu.validateAnnotationDictBody, Pdfcpu.validateAnnotationDictConcrete,
    Pdfcpu.validateMarkupAnnotation, Shared.validateAnnotationDictSpecial,
    Shared.validateAAPLAKExtrasDictEntry, Shared.validatePopupEntry,
    Shared.validateIRTEntry, mbind, result_bind.
  cbv zeta. more_fuel Hrec.
Qed.

Lemma validate_body_withMoreFuel xRefTable (dict : Dict) :
  withMoreFuel (Validate.validateAnnotationDictBody dg rec xRefTable dict)
               (Validate.validateAnnotationDictBody dg rec' xRefTable dict).
Proof.
  unfold Validate.validateAnnotationDictBody, Validate.validateAnnotationDictConcrete,
    Validate.validateMarkupAnnotation, Shared.validateAnnotationDictSpecial,
    Shared.validateAAPLAKExtrasDictEntry, Shared.validatePopupEntry,
    Shared.validateIRTEntry, mbind, result_bind.
  cbv zeta. more_fuel Hrec.
Qed.

End MoreFuel.

Lemma validateAnnotationDict_withMoreFuel dg fuel xRefTable (dict : Dict) :
  withMoreFuel (Pdfcpu.validateAnnotationDict dg fuel xRefTable dict)
               (Pdfcpu.validateAnnotationDict dg (S fuel) xRefTable dict) /\
  withMoreFuel (Validate.validateAnnotationDict dg fuel xRefTable dict)
               (Validate.validateAnnotationDict dg (S fuel) xRefTable dict).
Proof.
  revert xRefTable dict. induction fuel as [|fuel IH]; intros xRefTable dict.
  - split.
    + apply pdfcpu_body_withMoreFuel. intros x d. left. reflexivity.
    + apply validate_body_withMoreFuel. intros x d. left. reflexivity.
  - split.
    + rewrite (pdfcpu_validateAnnotationDict_unfold dg (S (S fuel))),
        (pdfcpu_validateAnnotationDict_unfold dg (S fuel)).
      apply pdfcpu_body_withMoreFuel. intros x d. apply IH.
    + rewrite (validate_validateAnnotationDict_unfold dg (S (S fuel))),
        (validate_validateAnnotationDict_unfold dg (S fuel)).
      apply validate_body_withMoreFuel. intros x d. apply IH.
Qed.

(** A result reached with some fuel is the result with any larger amount:
    fuel only bounds the depth of the recursion. *)
Lemma validateAnnotationDict_fuel_monotone dg fuel fuel' xRefTable (dict : Dict) :
  fuel <= fuel' ->
  withMoreFuel (Pdfcpu.validateAnnotationDict dg fuel xRefTable dict)
               (Pdfcpu.validateAnnotationDict dg fuel' xRefTable dict) /\
  withMoreFuel (Validate.validateAnnotationDict dg fuel xRefTable dict)
               (Validate.validateAnnotationDict dg fuel' xRefTable dict).
Proof.
  induction 1 as [|fuel' Hle [IH1 IH2]].
  - split; apply withMoreFuel_refl.
  - destruct (validateAnnotationDict_withMoreFuel dg fuel' xRefTable dict) as [H1 H2].
    split.
    + destruct IH1 as [-> | ->]; [left; reflexivity|exact H1].
    + destruct IH2 as [-> | ->]; [left; reflexivity|exact H2].
Qed.

(** ** Scenarios of the specification *)

(** Highlight in a document of version 1.3: accepted with eight
    QuadPoints, a constraint violation with six. *)
Lemma scenario_highlight :
  Pdfcpu.validateAnnotationDict acceptAll 0 (emptyTable V13 ValidationStrict)
    (annot "Highlight" [("QuadPoints", numbers 8)]) = Ok false /\
  Validate.validateAnnotationDict acceptAll 0 (emptyTable V13 ValidationStrict)
    (annot "Highlight" [("QuadPoints", numbers 8)]) = Ok false /\
  Pdfcpu.validateAnnotationDict acceptAll 0 (emptyTable V13 ValidationStrict)
    (annot "Highlight" [("QuadPoints", numbers 6)])
  = Err (mkError ConstraintViolation "Highlight" "QuadPoints") /\
  Validate.validateAnnotationDict acceptAll 0 (emptyTable V13 ValidationStrict)
    (annot "Highlight" [("QuadPoints", numbers 6)])
  = Err (mkError ConstraintViolation "Highlight" "QuadPoints").
Proof. repeat split; vm_compute; reflexivity. Qed.

(** An unknown subtype. *)
Lemma scenario_bogus :
  Pdfcpu.validateAnnotationDict acceptAll 0 (emptyTable V17 ValidationStrict)
    (annot "Bogus" []) = Err (unknownSubtype "Bogus") /\
  Validate.validateAnnotationDict acceptAll 0 (emptyTable V17 ValidationStrict)
    (annot "Bogus" []) = Err (unknownSubtype "Bogus").
Proof. split; vm_compute; reflexivity. Qed.

Lemma scenario_link_border_style :
  Pdfcpu.validateAnnotationDict acceptAll 0 (emptyTable V13 ValidationRelaxed)
    linkWithBorderStyle = Ok false /\
  Pdfcpu.validateAnnotationDict acceptAll 0 (emptyTable V13 ValidationStrict)
    linkWithBorderStyle = Err (mkError UnsupportedInVersion "Link" "BS") /\
  Validate.validateAnnotationDict acceptAll 0 (emptyTable V13 ValidationRelaxed)
    linkWithBorderStyle = Err (mkError UnsupportedInVersion "Link" "BS") /\
  Validate.validateAnnotationDict acceptAll 0 (emptyTable V14 ValidationRelaxed)
    linkWithBorderStyle = Ok false /\
  Validate.validateAnnotationDict acceptAll 0 (emptyTable V15 ValidationStrict)
    linkWithBorderStyle = Err (mkError UnsupportedInVersion "Link" "BS") /\
  Validate.validateAnnotationDict acceptAll 0 (emptyTable V16 ValidationStrict)
    linkWithBorderStyle = Ok false.
Proof. repeat split; vm_compute; reflexivity. Qed.

(** An Annots array given by references, TrapNet first. *)
Lemma scenario_annots_by_reference :
  Pdfcpu.validatePageAnnotations acceptAll 0
    (mkXRefTable V13 ValidationStrict
       (list_to_map [(1%N, PDFDict trapNetAnnot); (2%N, PDFDict linkAnnot)]))
    (pageDict [PDFIndirectRef 1 0; PDFIndirectRef 2 0]) = Err trapNetNotLast /\
  Pdfcpu.validatePageAnnotations acceptAll 0
    (mkXRefTable V13 ValidationStrict
       (list_to_map [(1%N, PDFDict trapNetAnnot); (2%N, PDFDict linkAnnot)]))
    (pageDict [PDFIndirectRef 2 0; PDFIndirectRef 1 0]) = Ok tt /\
  Pdfcpu.validatePageAnnotations acceptAll 0
    (mkXRefTable V13 ValidationStrict
       (list_to_map [(1%N, PDFDict trapNetAnnot); (2%N, PDFDict linkAnnot)]))
    (pageDict [PDFIndirectRef 1 0; PDFInteger 7]) = Err trapNetNotLast.
Proof. repeat split; vm_compute; reflexivity. Qed.

Lemma scenario_page_tree :
  Pdfcpu.validatePagesAnnotations acceptAll 0 onePageTree
    (list_to_map [("Type", PDFName "Pages"); ("Count", PDFInteger 1);
                  ("Kids", PDFArray [PDFIndirectRef 2 0])]) = Ok tt /\
  Validate.validatePagesAnnotations acceptAll 0 onePageTree
    (list_to_map [("Type", PDFName "Pages"); ("Count", PDFInteger 1);
                  ("Kids", PDFArray [PDFIndirectRef 1 0])]) = OutOfFuel.
Proof. split; vm_compute; reflexivity. Qed.

(** * Further properties *)

(** ** A later version, a more relaxed mode *)

Lemma okImplies_refl {A : Type} (r : Result A) : okImplies r r.
Proof. intros a H. exact H. Qed.

Lemma okImplies_bind {A B : Type} (r r' : Result A) (k k' : A -> Result B) :
  okImplies r r' ->
  (forall a, okImplies (k a) (k' a)) ->
  okImplies (bind r k) (bind r' k').
Proof.
  intros H Hk b Hb. destruct r as [a| | |]; cbn in Hb; try discriminate.
  rewrite (H a eq_refl). cbn. apply Hk, Hb.
Qed.

Lemma versionLt_raise (v v' lo hi : PDFVersion) :
  versionLe v v' = true -> versionLe lo hi = true ->
  versionLt v hi = false -> versionLt v' lo = false.
Proof. destruct v, v', lo, hi; cbn; congruence. Qed.

(** An accessor accepts in the later, more relaxed context what it accepts
    in the earlier one: the floor can only have come down, the document
    version can only have gone up. *)
Lemma validateKindEntry_okImplies {A : Type} (cast cast' : PDFObject -> option A)
    (x x' : XRefTable) (dict : Dict) dictName entryName required lo hi
    (p p' : option (A -> bool)) :
  Table x = Table x' ->
  versionLe (Version x) (Version x') = true ->
  versionLe lo hi = true ->
  (forall o, cast o = cast' o) ->
  match p, p' with
  | Some f, Some f' => forall a, f a = true -> f' a = true
  | None, None => True
  | _, _ => False
  end ->
  okImplies (validateKindEntry cast x dict dictName entryName required hi p)
            (validateKindEntry cast' x' dict dictName entryName required lo p').
Proof.
  intros Ht Hv Hf Hc Hp r.
  unfold validateKindEntry, Dereference, mbind, result_bind, bind. rewrite <- Ht.
  destruct (Find dict entryName) as [obj|]; [|trivial].
  set (o := match obj with
            | PDFIndirectRef n _ =>
                match Table x !! n with
                | Some o => Ok o
                | None => Err (mkError CrossReferenceError "Dereference" "dangling reference")
                end
            | _ => Ok obj
            end).
  destruct o as [o| | |]; trivial.
  pose proof (versionLt_raise _ _ _ _ Hv Hf) as Hlt.
  destruct (versionLt (Version x) hi) eqn:Hhi.
  - destruct o; trivial; discriminate.
  - rewrite (Hlt eq_refl), <- Hc.
    destruct o; trivial; (destruct (cast _) as [c|]; [|discriminate]);
      destruct p as [q|], p' as [q'|]; try contradiction; trivial;
      (destruct (q c) eqn:Hqc; [|discriminate]); rewrite (Hp c Hqc); trivial.
Qed.

Lemma validateIndRefEntry_okImplies (x x' : XRefTable) (dict : Dict)
    dictName entryName required lo hi :
  versionLe (Version x) (Version x') = true ->
  versionLe lo hi = true ->
  okImplies (validateIndRefEntry x dict dictName entryName required hi)
            (validateIndRefEntry x' dict dictName entryName required lo).
Proof.
  intros Hv Hf r. unfold validateIndRefEntry.
  destruct (Find dict entryName) as [obj|]; [|trivial].
  pose proof (versionLt_raise _ _ _ _ Hv Hf) as Hlt.
  destruct (versionLt (Version x) hi); [discriminate|].
  rewrite (Hlt eq_refl). trivial.
Qed.

Lemma ValidateVersion_okImplies (x x' : XRefTable) element sinceVersion :
  versionLe (Version x) (Version x') = true ->
  okImplies (ValidateVersion x element sinceVersion)
            (ValidateVersion x' element sinceVersion).
Proof.
  intros Hv r. unfold ValidateVersion.
  destruct (versionLt (Version x) sinceVersion) eqn:E; [discriminate|].
  rewrite (versionLt_raise _ _ sinceVersion sinceVersion Hv); trivial.
  destruct sinceVersion; reflexivity.
Qed.

Lemma versionCheck_okImplies (x x' : XRefTable) fn dictName sinceVersion :
  versionLe (Version x) (Version x') = true ->
  okImplies (Validate.versionCheck x fn dictName sinceVersion)
            (Validate.versionCheck x' fn dictName sinceVersion).
Proof.
  intros Hv r. unfold Validate.versionCheck.
  destruct (versionLt (Version x) sinceVersion) eqn:E; [discriminate|].
  rewrite (versionLt_raise _ _ sinceVersion sinceVersion Hv); trivial.
  destruct sinceVersion; reflexivity.
Qed.

Lemma validateIntent_raise (x x' : XRefTable) (s : string) :
  versionLe (Version x) (Version x') = true ->
  Shared.validateIntent x s = true -> Shared.validateIntent x' s = true.
Proof.
  unfold Shared.validateIntent.
  destruct (Version x), (Version x'); cbn; try congruence.
  intros _ H. rewrite H. reflexivity.
Qed.

Lemma okImplies_isOk {A : Type} (r r' : Result A) :
  okImplies r r' -> isOk r = true -> isOk r' = true.
Proof. intros H. destruct r; try discriminate. rewrite (H a eq_refl). trivial. Qed.

Lemma lookupDescriptor_pdfcpu_In dg s k d :
  Pdfcpu.lookupDescriptor s (Pdfcpu.annotationTable dg) = Some (k, d) ->
  k = s /\ In (k, d) (Pdfcpu.annotationTable dg).
Proof.
  generalize (Pdfcpu.annotationTable dg). intros l.
  induction l as [|[k' d'] l IH]; cbn; [discriminate|].
  destruct (String.eqb_spec s k') as [->|].
  - intros [= <- <-]. auto.
  - intros H. destruct (IH H). auto.
Qed.

Lemma lookupDescriptor_validate_In dg s k d :
  Validate.lookupDescriptor s (Validate.annotationTable dg) = Some (k, d) ->
  k = s /\ In (k, d) (Validate.annotationTable dg).
Proof.
  generalize (Validate.annotationTable dg). intros l.
  induction l as [|[k' d'] l IH]; cbn; [discriminate|].
  destruct (String.eqb_spec s k') as [->|].
  - intros [= <- <-]. auto.
  - intros H. destruct (IH H). auto.
Qed.

Ltac accessors :=
  unfold validateBooleanEntry, validateNameEntry, validateIntegerEntry,
    validateNumberEntry, validateStringEntry, validateDictEntry,
    validateStreamDictEntry, validateArrayEntry, validateNumberArrayEntry,
    validateIntegerArrayEntry, validateNameArrayEntry, validateArrayArrayEntry,
    validateRectangleEntry, validateStringOrStreamEntry, validateBooleanOrStreamEntry,
    validateStreamDictOrDictEntry, validateEntry, validateDateEntry, discard,
    mbind, result_bind;
  cbv zeta.

Ltac shared :=
  unfold Shared.validateAnnotationDictGeneral, Shared.validateOptionalContent,
    Shared.validateEntryP, Shared.validateAppearDictEntry,
    Shared.validateBorderEffectDictEntry, Shared.validateBorderStyleDict,
    Shared.validateAppearanceCharacteristicsDictEntry, Shared.validateIconFitDictEntry,
    Shared.validateURIActionDictEntry, Shared.validateEntryMeasure,
    Shared.validateEntryIT, Shared.validateMovieDict, Shared.validateEntryIC,
    Shared.validateExDataDict, Shared.validateAnnotationDictSpecial,
    Shared.validateAAPLAKExtrasDictEntry, Shared.validatePopupEntry,
    Shared.validateIRTEntry.

Section Permissive.
Variable dg : Delegates.
Variables (v v' : PDFVersion) (m m' : ValidationMode) (t : gmap N PDFObject).
Hypothesis Hv : versionLe v v' = true.
Hypothesis Hm : m = m' \/ m' = ValidationRelaxed.
Hypothesis Hdg : delegatesAgree dg (mkXRefTable v m t) (mkXRefTable v' m' t).

Local Abbreviation x := (mkXRefTable v m t).
Local Abbreviation x' := (mkXRefTable v' m' t).

Lemma pdfcpu_floor_le (e : Pdfcpu.RelaxedEntry) :
  versionLe (Pdfcpu.sinceVersionIn m' e) (Pdfcpu.sinceVersionIn m e) = true.
Proof. destruct Hm as [<- | ->]; destruct m, e; reflexivity. Qed.

Lemma validate_floor_le (e : Validate.RelaxedEntry) :
  versionLe (Validate.sinceVersionIn m' e) (Validate.sinceVersionIn m e) = true.
Proof. destruct Hm as [<- | ->]; destruct m, e; reflexivity. Qed.

Lemma floor_refl (s : PDFVersion) : versionLe s s = true.
Proof. destruct s; reflexivity. Qed.

Ltac floor :=
  first [ reflexivity | apply floor_refl | apply pdfcpu_floor_le | apply validate_floor_le ].

Lemma validateFixedPrintDict_raise (dict : Dict) :
  Shared.validateFixedPrintDict x dict = true ->
  Shared.validateFixedPrintDict x' dict = true.
Proof.
  unfold Shared.validateFixedPrintDict. apply okImplies_isOk.
  unfold validateNameEntry, validateIntegerArrayEntry, validateNumberEntry,
    mbind, result_bind.
  repeat first
    [ apply okImplies_refl
    | apply validateKindEntry_okImplies;
        [ reflexivity | exact Hv | reflexivity | intros ?; reflexivity
        | first [ exact I | intros ? H; exact H ] ]
    | apply okImplies_bind; [|intros ?] ].
Qed.

Lemma validateFontDictArray_same_objects (a : list PDFObject) :
  Shared.validateFontDictArray x a = Shared.validateFontDictArray x' a.
Proof.
  unfold Shared.validateFontDictArray. generalize false.
  induction a as [|o a IH]; intros b; [reflexivity|].
  cbn [Shared.fontDictArrayLoop].
  change (DereferenceDict x' o) with (DereferenceDict x o).
  rewrite !IH. reflexivity.
Qed.

Ltac predicate :=
  first
    [ exact I
    | intros ?; rewrite validateFontDictArray_same_objects; trivial
    | intros ?; apply (validateIntent_raise x x'); exact Hv
    | intros ?; apply validateFixedPrintDict_raise
    | intros ? H; exact H ].

Ltac delegate :=
  let H := fresh in
  pose proof Hdg as H; unfold delegatesAgree in H;
  repeat match type of H with
         | _ /\ _ => let H1 := fresh in destruct H as [H1 H]; try (apply H1)
         end; apply H.

Ltac leaf :=
  first
    [ apply okImplies_refl
    | apply validateKindEntry_okImplies;
        [ reflexivity | exact Hv | floor | intros ?; reflexivity | predicate ]
    | apply validateIndRefEntry_okImplies; [ exact Hv | floor ]
    | apply ValidateVersion_okImplies; exact Hv
    | apply versionCheck_okImplies; exact Hv
    | solve [delegate] ].

Ltac structure known :=
  repeat first
    [ leaf
    | known
    | apply okImplies_bind; [|intros ?]
    | match goal with
      | |- okImplies (match ?c with _ => _ end) _ => destruct c
      end ].

Ltac permissive := accessors; structure fail.


Lemma validateAnnotationDictGeneral_okImplies (dict : Dict) dictName :
  okImplies (Shared.validateAnnotationDictGeneral dg x dict dictName)
            (Shared.validateAnnotationDictGeneral dg x' dict dictName).
Proof. shared. permissive. Qed.

Section Recursion.
Variables rec rec' : XRefTable -> Dict -> Result bool.
Hypothesis Hrec : forall d, okImplies (rec x d) (rec' x' d).

Ltac recursion := apply Hrec.

Lemma pdfcpu_validateMarkupAnnotation_okImplies (dict : Dict) :
  okImplies (Pdfcpu.validateMarkupAnnotation dg rec x dict)
            (Pdfcpu.validateMarkupAnnotation dg rec' x' dict).
Proof.
  unfold Pdfcpu.validateMarkupAnnotation. shared. accessors. structure recursion.
Qed.

Lemma validate_validateMarkupAnnotation_okImplies (dict : Dict) :
  okImplies (Validate.validateMarkupAnnotation dg rec x dict)
            (Validate.validateMarkupAnnotation dg rec' x' dict).
Proof.
  unfold Validate.validateMarkupAnnotation. shared. accessors. structure recursion.
Qed.

Lemma validateAnnotationDictSpecial_okImplies (dict : Dict) dictName :
  okImplies (Shared.validateAnnotationDictSpecial rec x dict dictName)
            (Shared.validateAnnotationDictSpecial rec' x' dict dictName).
Proof. shared. accessors. structure recursion. Qed.

Lemma pdfcpu_validators_okImplies k d (dict : Dict) :
  In (k, d) (Pdfcpu.annotationTable dg) ->
  okImplies (Pdfcpu.validate d x dict k) (Pdfcpu.validate d x' dict k).
Proof.
  intros Hin. cbn in Hin.
  repeat (destruct Hin as [Hin|Hin]; [injection Hin as <- <-|]); [..|contradiction];
    cbn [Pdfcpu.validate];
    unfold Pdfcpu.validateAnnotationDictText, Pdfcpu.validateAnnotationDictLink,
      Pdfcpu.validateActionOrDestination,
      Pdfcpu.validateAnnotationDictFreeText, Pdfcpu.validateAnnotationDictFreeTextPart1,
      Pdfcpu.validateAnnotationDictFreeTextPart2, Pdfcpu.validateAnnotationDictLine,
      Pdfcpu.validateAnnotationDictCircleOrSquare, Pdfcpu.validateAnnotationDictPolyLine,
      Pdfcpu.validateTextMarkupAnnotation, Pdfcpu.validateAnnotationDictStamp,
      Pdfcpu.validateAnnotationDictCaret, Pdfcpu.validateAnnotationDictInk,
      Pdfcpu.validateAnnotationDictPopup, Pdfcpu.validateAnnotationDictFileAttachment,
      Pdfcpu.validateAnnotationDictSound, Pdfcpu.validateAnnotationDictMovie,
      Pdfcpu.validateAnnotationDictWidget, Pdfcpu.validateAnnotationDictScreen,
      Pdfcpu.validateAnnotationDictPrinterMark, Pdfcpu.validateAnnotationDictTrapNet,
      Pdfcpu.validateAnnotationDictWatermark, Pdfcpu.validateAnnotationDict3D,
      Pdfcpu.validateAnnotationDictRedact;
    shared; permissive.
Qed.

Lemma validate_validators_okImplies k d (dict : Dict) :
  In (k, d) (Validate.annotationTable dg) ->
  okImplies (Validate.validate d x dict k (Validate.sinceVersion d))
            (Validate.validate d x' dict k (Validate.sinceVersion d)).
Proof.
  intros Hin. cbn in Hin.
  repeat (destruct Hin as [Hin|Hin]; [injection Hin as <- <-|]); [..|contradiction];
    cbn [Validate.validate Validate.sinceVersion];
    unfold Validate.validateAnnotationDictText, Validate.validateAnnotationDictLink,
      Validate.validateActionOrDestination,
      Validate.validateAnnotationDictFreeText, Validate.validateAnnotationDictFreeTextPart1,
      Validate.validateAnnotationDictFreeTextPart2, Validate.validateAnnotationDictLine,
      Validate.validateAnnotationDictCircleOrSquare, Validate.validateAnnotationDictPolyLine,
      Validate.validateTextMarkupAnnotation, Validate.validateAnnotationDictStamp,
      Validate.validateAnnotationDictCaret, Validate.validateAnnotationDictInk,
      Validate.validateAnnotationDictPopup, Validate.validateAnnotationDictFileAttachment,
      Validate.validateAnnotationDictSound, Validate.validateAnnotationDictMovie,
      Validate.validateAnnotationDictWidget, Validate.validateAnnotationDictScreen,
      Validate.validateAnnotationDictPrinterMark, Validate.validateAnnotationDictTrapNet,
      Validate.validateAnnotationDictWatermark, Validate.validateAnnotationDict3D,
      Validate.validateAnnotationDictRedact;
    shared; permissive.
Qed.

Lemma pdfcpu_body_okImplies (dict : Dict) :
  okImplies (Pdfcpu.validateAnnotationDictBody dg rec x dict)
            (Pdfcpu.validateAnnotationDictBody dg rec' x' dict).
Proof.
  unfold Pdfcpu.validateAnnotationDictBody, Pdfcpu.validateAnnotationDictConcrete,
    mbind, result_bind.
  apply okImplies_bind; [apply validateAnnotationDictGeneral_okImplies|].
  intros [subtype|]; [|apply okImplies_refl].
  apply okImplies_bind; [|intros _; apply okImplies_bind;
                            [apply validateAnnotationDictSpecial_okImplies
                            |intros _; apply okImplies_refl]].
  destruct (Pdfcpu.lookupDescriptor subtype (Pdfcpu.annotationTable dg))
    as [[k d]|] eqn:E; [|apply okImplies_refl].
  apply lookupDescriptor_pdfcpu_In in E as [-> Hin].
  apply okImplies_bind; [apply ValidateVersion_okImplies; exact Hv|intros _].
  apply okImplies_bind; [|intros _; apply pdfcpu_validators_okImplies; exact Hin].
  destruct (Pdfcpu.markup d);
    [apply pdfcpu_validateMarkupAnnotation_okImplies|apply okImplies_refl].
Qed.

Lemma validate_body_okImplies (dict : Dict) :
  okImplies (Validate.validateAnnotationDictBody dg rec x dict)
            (Validate.validateAnnotationDictBody dg rec' x' dict).
Proof.
  unfold Validate.validateAnnotationDictBody, Validate.validateAnnotationDictConcrete,
    mbind, result_bind.
  apply okImplies_bind; [apply validateAnnotationDictGeneral_okImplies|].
  intros [subtype|]; [|apply okImplies_refl].
  apply okImplies_bind; [|intros _; apply okImplies_bind;
                            [apply validateAnnotationDictSpecial_okImplies
                            |intros _; apply okImplies_refl]].
  destruct (Validate.lookupDescriptor subtype (Validate.annotationTable dg))
    as [[k d]|] eqn:E; [|apply okImplies_refl].
  apply lookupDescriptor_validate_In in E as [-> Hin].
  apply okImplies_bind; [|intros _; apply validate_validators_okImplies; exact Hin].
  destruct (Validate.markup d);
    [apply validate_validateMarkupAnnotation_okImplies|apply okImplies_refl].
Qed.

End Recursion.

Lemma validateAnnotationDict_okImplies fuel (dict : Dict) :
  okImplies (Pdfcpu.validateAnnotationDict dg fuel x dict)
            (Pdfcpu.validateAnnotationDict dg fuel x' dict) /\
  okImplies (Validate.validateAnnotationDict dg fuel x dict)
            (Validate.validateAnnotationDict dg fuel x' dict).
Proof.
  revert dict. induction fuel as [|fuel IH]; intros dict;
    rewrite !pdfcpu_validateAnnotationDict_unfold, !validate_validateAnnotationDict_unfold;
    split;
    first [apply pdfcpu_body_okImplies | apply validate_body_okImplies];
    intros d; first [apply okImplies_refl | apply IH].
Qed.

Section Pages.
Variables vad vad' : XRefTable -> Dict -> Result bool.
Hypothesis Hvad : forall d, okImplies (vad x d) (vad' x' d).

Lemma pageAnnotationsLoop_okImplies (arr : list PDFObject) (hasTrapNet : bool) :
  okImplies (Shared.pageAnnotationsLoop vad x hasTrapNet arr)
            (Shared.pageAnnotationsLoop vad' x' hasTrapNet arr).
Proof.
  revert hasTrapNet. induction arr as [|o arr IH]; intros hasTrapNet;
    [apply okImplies_refl|].
  cbn [Shared.pageAnnotationsLoop]. destruct hasTrapNet; [apply okImplies_refl|].
  unfold mbind, result_bind.
  apply okImplies_bind; [apply okImplies_refl|intros annotsDict].
  apply okImplies_bind; [apply Hvad|intros b; apply IH].
Qed.

Lemma validatePageAnnotations_okImplies (dict : Dict) :
  okImplies (Shared.validatePageAnnotations vad x dict)
            (Shared.validatePageAnnotations vad' x' dict).
Proof.
  unfold Shared.validatePageAnnotations, validateArrayEntry, mbind, result_bind.
  apply okImplies_bind;
    [apply validateKindEntry_okImplies; auto; exact I|].
  intros [arr|]; [apply pageAnnotationsLoop_okImplies|apply okImplies_refl].
Qed.

Lemma pagesKidsLoop_okImplies (recurse recurse' : Dict -> Result unit)
    (kidsArray : list PDFObject) :
  (forall d, okImplies (recurse d) (recurse' d)) ->
  okImplies (Shared.pagesKidsLoop vad recurse x kidsArray)
            (Shared.pagesKidsLoop vad' recurse' x' kidsArray).
Proof.
  intros Hr. induction kidsArray as [|o kids IH]; [apply okImplies_refl|].
  cbn [Shared.pagesKidsLoop]. unfold mbind, result_bind.
  destruct o; try exact IH;
    (apply okImplies_bind; [apply okImplies_refl|intros [node|]; [|apply okImplies_refl]];
     destruct (TypeOf node) as [dictType|]; [|apply okImplies_refl];
     destruct (String.eqb dictType "Pages");
       [apply okImplies_bind; [apply Hr|intros _; exact IH]|];
     destruct (String.eqb dictType "Page");
       [apply okImplies_bind; [apply validatePageAnnotations_okImplies|intros _; exact IH]
       |apply okImplies_refl]).
Qed.

Lemma validatePagesAnnotations_okImplies fuel (dict : Dict) :
  okImplies (Shared.validatePagesAnnotations vad fuel x dict)
            (Shared.validatePagesAnnotations vad' fuel x' dict).
Proof.
  revert dict. induction fuel as [|fuel IH]; intros dict;
    rewrite !validatePagesAnnotations_unfold;
    (destruct (IntEntry dict "Count"); [|apply okImplies_refl]);
    (destruct (PDFArrayEntry dict "Kids"); [|apply okImplies_refl]);
    apply pagesKidsLoop_okImplies; intros d; [apply okImplies_refl|apply IH].
Qed.

End Pages.
End Permissive.

(** ** What an accepted entry looks like *)

Lemma validateKindEntry_Ok_inv {A : Type} (cast : PDFObject -> option A)
    xRefTable (dict : Dict) dictName entryName required sinceVersion validate r :
  validateKindEntry cast xRefTable dict dictName entryName required sinceVersion validate
  = Ok r ->
  match r with
  | Some a =>
      exists o, resolve xRefTable dict entryName = Some o /\ o <> PDFNull /\
                cast o = Some a /\
                versionLt (Version xRefTable) sinceVersion = false /\
                match validate with Some p => p a = true | None => True end
  | None =>
      required = false /\
      (dict !! entryName = None \/ resolve xRefTable dict entryName = Some PDFNull)
  end.
Proof.
  unfold validateKindEntry, resolve, Find, mbind, result_bind, bind.
  destruct (dict !! entryName) as [obj|].
  2:{ destruct required; [discriminate|]. intros [= <-]. auto. }
  destruct (Dereference xRefTable obj) as [o| | |]; try discriminate.
  assert (Hnull : o = PDFNull ->
            (if required then Err (mkError MissingRequiredField dictName entryName)
             else Ok None) = Ok r ->
            match r with
            | Some a => exists o0, Some o = Some o0 /\ o0 <> PDFNull /\ cast o0 = Some a /\
                  versionLt (Version xRefTable) sinceVersion = false /\
                  match validate with Some p => p a = true | None => True end
            | None => required = false /\ (Some obj = None \/ Some o = Some PDFNull)
            end).
  { intros ->. destruct required; [discriminate|]. intros [= <-]. auto. }
  assert (Hpresent : o <> PDFNull ->
            (if versionLt (Version xRefTable) sinceVersion
             then Err (mkError UnsupportedInVersion dictName entryName)
             else match cast o with
                  | None => Err (mkError UnexpectedType dictName entryName)
                  | Some a =>
                      match validate with
                      | Some p => if p a then Ok (Some a)
                                  else Err (mkError ConstraintViolation dictName entryName)
                      | None => Ok (Some a)
                      end
                  end) = Ok r ->
            match r with
            | Some a => exists o0, Some o = Some o0 /\ o0 <> PDFNull /\ cast o0 = Some a /\
                  versionLt (Version xRefTable) sinceVersion = false /\
                  match validate with Some p => p a = true | None => True end
            | None => required = false /\ (Some obj = None \/ Some o = Some PDFNull)
            end).
  { intros Hn. destruct (versionLt (Version xRefTable) sinceVersion); [discriminate|].
    destruct (cast o) as [c|] eqn:Hc; [|discriminate].
    destruct validate as [p|].
    - destruct (p c) eqn:Hp; [|discriminate]. intros [= <-]. eauto 10.
    - intros [= <-]. eauto 10. }
  destruct o; first [exact (Hnull eq_refl) | apply Hpresent; discriminate].
Qed.

(** The entry behind an accepted, present value. *)
Lemma validateKindEntry_Ok_Some {A : Type} (cast : PDFObject -> option A)
    xRefTable (dict : Dict) dictName entryName required sinceVersion validate a :
  validateKindEntry cast xRefTable dict dictName entryName required sinceVersion validate
  = Ok (Some a) ->
  exists o, resolve xRefTable dict entryName = Some o /\ o <> PDFNull /\
            cast o = Some a /\
            versionLt (Version xRefTable) sinceVersion = false /\
            match validate with Some p => p a = true | None => True end.
Proof. apply (validateKindEntry_Ok_inv cast). Qed.

(** An accepted entry that was looked at is of the kind, above the floor
    and passes the predicate. *)
Lemma validateKindEntry_Ok_resolved {A : Type} (cast : PDFObject -> option A)
    xRefTable (dict : Dict) dictName entryName required sinceVersion validate r o :
  validateKindEntry cast xRefTable dict dictName entryName required sinceVersion validate
  = Ok r ->
  resolve xRefTable dict entryName = Some o -> o <> PDFNull ->
  exists a, r = Some a /\ cast o = Some a /\
            versionLt (Version xRefTable) sinceVersion = false /\
            match validate with Some p => p a = true | None => True end.
Proof.
  intros H Ho Hn. apply validateKindEntry_Ok_inv in H. destruct r as [a|].
  - destruct H as (o' & Ho' & _ & Hc & Hv & Hp). rewrite Ho in Ho'.
    injection Ho' as <-. eauto.
  - destruct H as (_ & [H | H]).
    + unfold resolve in Ho. rewrite H in Ho. discriminate.
    + rewrite Ho in H. congruence.
Qed.

Lemma validateIndRefEntry_Ok_inv xRefTable (dict : Dict) dictName entryName
    required sinceVersion r :
  validateIndRefEntry xRefTable dict dictName entryName required sinceVersion = Ok r ->
  match r with
  | Some obj => dict !! entryName = Some obj /\
                exists n g, obj = PDFIndirectRef n g
  | None => dict !! entryName = None
  end.
Proof.
  unfold validateIndRefEntry, Find. destruct (dict !! entryName) as [obj|].
  - destruct (versionLt _ _); [discriminate|].
    destruct obj; try discriminate. intros [= <-]. eauto.
  - destruct required; [discriminate|]. intros [= <-]. reflexivity.
Qed.

Ltac binds H :=
  repeat (apply bind_eq_Ok in H;
          let a := fresh "a" in
          let Ha := fresh "Ha" in
          destruct H as (a & Ha & H)).

Lemma asArrayOf_Some {A : Type} xRefTable (cast : PDFObject -> option A) o a :
  asArrayOf xRefTable cast o = Some a ->
  o = PDFArray a /\ forallb (resolvesTo xRefTable cast) a = true.
Proof.
  unfold asArrayOf. destruct o; try discriminate.
  destruct (forallb _ _) eqn:E; [|discriminate]. intros [= <-]. auto.
Qed.

Lemma asRectangle_Some xRefTable o a :
  asRectangle xRefTable o = Some a ->
  o = PDFArray a /\ length a = 4 /\ forallb (resolvesTo xRefTable asNumber) a = true.
Proof.
  unfold asRectangle, asNumberArray.
  destruct (asArrayOf xRefTable asNumber o) as [a'|] eqn:E; [|discriminate].
  destruct (Nat.eqb_spec (length a') 4); [|discriminate].
  intros [= <-]. apply asArrayOf_Some in E as [-> E]. auto.
Qed.

(** ** What acceptance guarantees *)

Lemma general_Ok_subtype dg xRefTable (dict : Dict) dictName r :
  Shared.validateAnnotationDictGeneral dg xRefTable dict dictName = Ok r ->
  exists s, r = Some s /\ resolve xRefTable dict "Subtype" = Some (PDFName s).
Proof.
  unfold Shared.validateAnnotationDictGeneral. intros H. binds H.
  injection H as <-.
  match goal with
  | H : validateNameEntry _ _ _ "Subtype" _ _ _ = Ok _ |- _ => rename H into Hsub
  end.
  destruct (validateKindEntry_required _ _ _ _ _ _ _ _ Hsub) as [s ->].
  apply validateKindEntry_Ok_Some in Hsub as (o & Ho & _ & Hc & _).
  exists s. split; [reflexivity|].
  destruct o; try discriminate. injection Hc as ->. exact Ho.
Qed.

Lemma validate_validators_version dg xRefTable (dict : Dict) k d :
  In (k, d) (Validate.annotationTable dg) ->
  Validate.validate d xRefTable dict k (Validate.sinceVersion d) = Ok tt ->
  versionLt (Version xRefTable) (Validate.sinceVersion d) = false.
Proof.
  intros Hin. cbn in Hin.
  repeat (destruct Hin as [Hin|Hin]; [injection Hin as <- <-|]); [..|contradiction];
    cbn [Validate.validate Validate.sinceVersion]; intros H;
    match type of H with
    | ?f _ _ _ _ _ = _ => unfold f in H
    | ?f _ _ _ _ = _ => unfold f in H
    end;
    apply bind_eq_Ok in H as (? & H & _); unfold Validate.versionCheck in H;
    (destruct (versionLt _ _); [discriminate|reflexivity]).
Qed.

Lemma pdfcpu_body_Ok_inv dg rec xRefTable (dict : Dict) b :
  Pdfcpu.validateAnnotationDictBody dg rec xRefTable dict = Ok b ->
  exists s d,
    Shared.validateAnnotationDictGeneral dg xRefTable dict "annotDict" = Ok (Some s) /\
    In (s, d) (Pdfcpu.annotationTable dg) /\
    versionLt (Version xRefTable) (Pdfcpu.sinceVersion d) = false /\
    (if Pdfcpu.markup d then Pdfcpu.validateMarkupAnnotation dg rec xRefTable dict
     else Ok tt) = Ok tt /\
    Pdfcpu.validate d xRefTable dict s = Ok tt /\
    Shared.validateAnnotationDictSpecial rec xRefTable dict "annotDict" = Ok tt /\
    b = String.eqb s "TrapNet" /\
    Pdfcpu.lookupDescriptor s (Pdfcpu.annotationTable dg) = Some (s, d).
Proof.
  unfold Pdfcpu.validateAnnotationDictBody. intros H.
  apply bind_eq_Ok in H as (r & Hg & H).
  destruct (general_Ok_subtype _ _ _ _ _ Hg) as (s & -> & _).
  apply bind_eq_Ok in H as ([] & Hc & H). apply bind_eq_Ok in H as ([] & Hs & H).
  injection H as <-.
  unfold Pdfcpu.validateAnnotationDictConcrete in Hc.
  destruct (Pdfcpu.lookupDescriptor s (Pdfcpu.annotationTable dg)) as [[k d]|] eqn:E;
    [|discriminate].
  destruct (lookupDescriptor_pdfcpu_In _ _ _ _ E) as [-> Hin].
  apply bind_eq_Ok in Hc as ([] & Hvv & Hc). apply bind_eq_Ok in Hc as ([] & Hm & Hc).
  unfold ValidateVersion in Hvv.
  destruct (versionLt (Version xRefTable) (Pdfcpu.sinceVersion d)) eqn:Hlt;
    [discriminate|].
  exists s, d. auto 12.
Qed.

Lemma validate_body_Ok_inv dg rec xRefTable (dict : Dict) b :
  Validate.validateAnnotationDictBody dg rec xRefTable dict = Ok b ->
  exists s d,
    Shared.validateAnnotationDictGeneral dg xRefTable dict "annotDict" = Ok (Some s) /\
    In (s, d) (Validate.annotationTable dg) /\
    versionLt (Version xRefTable) (Validate.sinceVersion d) = false /\
    (if Validate.markup d then Validate.validateMarkupAnnotation dg rec xRefTable dict
     else Ok tt) = Ok tt /\
    Validate.validate d xRefTable dict s (Validate.sinceVersion d) = Ok tt /\
    Shared.validateAnnotationDictSpecial rec xRefTable dict "annotDict" = Ok tt /\
    b = String.eqb s "TrapNet" /\
    Validate.lookupDescriptor s (Validate.annotationTable dg) = Some (s, d).
Proof.
  unfold Validate.validateAnnotationDictBody. intros H.
  apply bind_eq_Ok in H as (r & Hg & H).
  destruct (general_Ok_subtype _ _ _ _ _ Hg) as (s & -> & _).
  apply bind_eq_Ok in H as ([] & Hc & H). apply bind_eq_Ok in H as ([] & Hs & H).
  injection H as <-.
  unfold Validate.validateAnnotationDictConcrete in Hc.
  destruct (Validate.lookupDescriptor s (Validate.annotationTable dg)) as [[k d]|] eqn:E;
    [|discriminate].
  destruct (lookupDescriptor_validate_In _ _ _ _ E) as [-> Hin].
  apply bind_eq_Ok in Hc as ([] & Hm & Hc).
  exists s, d. pose proof (validate_validators_version _ _ _ _ _ Hin Hc). auto 12.
Qed.

(** X1: whenever [validateAnnotationDict] accepts a dictionary, its
    "Subtype" entry resolves to one of the names of the dispatch table, the
    document has reached the minimum version of that subtype, and the flag
    returned tells whether the name is "TrapNet".  Both revisions, whatever
    the other entries, the delegates and the fuel. *)
Theorem accepted_annotation_has_supported_subtype
    (dg : Delegates) (fuel : nat) (xRefTable : XRefTable) (dict : Dict) (b : bool) :
  Pdfcpu.validateAnnotationDict dg fuel xRefTable dict = Ok b \/
  Validate.validateAnnotationDict dg fuel xRefTable dict = Ok b ->
  exists s vmin,
    resolve xRefTable dict "Subtype" = Some (PDFName s) /\
    In (s, vmin) subtypeFloors /\
    versionLe vmin (Version xRefTable) = true /\
    b = String.eqb s "TrapNet".
Proof.
  intros [H | H].
  - rewrite pdfcpu_validateAnnotationDict_unfold in H.
    apply pdfcpu_body_Ok_inv in H as (s & d & Hg & Hin & Hv & _ & _ & _ & -> & _).
    apply general_Ok_subtype in Hg as (s' & [= <-] & Hs).
    exists s, (Pdfcpu.sinceVersion d). repeat split; trivial.
    + eapply pdfcpu_in_subtypeFloors, Hin.
    + rewrite versionLt_le in Hv. destruct (versionLe _ _); [reflexivity|discriminate].
  - rewrite validate_validateAnnotationDict_unfold in H.
    apply validate_body_Ok_inv in H as (s & d & Hg & Hin & Hv & _ & _ & _ & -> & _).
    apply general_Ok_subtype in Hg as (s' & [= <-] & Hs).
    exists s, (Validate.sinceVersion d). repeat split; trivial.
    + eapply validate_in_subtypeFloors, Hin.
    + rewrite versionLt_le in Hv. destruct (versionLe _ _); [reflexivity|discriminate].
Qed.

Lemma accepted_annotation_has_supported_subtype_witness :
  exists s vmin,
    resolve (emptyTable V13 ValidationStrict) trapNetAnnot "Subtype" = Some (PDFName s) /\
    In (s, vmin) subtypeFloors /\
    versionLe vmin V13 = true /\
    true = String.eqb s "TrapNet".
Proof.
  apply (accepted_annotation_has_supported_subtype acceptAll 0
           (emptyTable V13 ValidationStrict) trapNetAnnot true).
  left. reflexivity.
Defined.

Lemma PDFNull_or_not (o : PDFObject) : o = PDFNull \/ o <> PDFNull.
Proof. destruct o; auto; right; discriminate. Qed.

Lemma asName_Some o s : asName o = Some s -> o = PDFName s.
Proof. destruct o; try discriminate. intros [= ->]. reflexivity. Qed.

Lemma DereferenceDict_Ok_Some xRefTable n g d :
  DereferenceDict xRefTable (PDFIndirectRef n g) = Ok (Some d) ->
  Table xRefTable !! n = Some (PDFDict d).
Proof.
  unfold DereferenceDict, Dereference, mbind, result_bind, bind.
  destruct (Table xRefTable !! n) as [o|]; [|discriminate].
  destruct o; try discriminate. intros [= ->]. reflexivity.
Qed.

Lemma validateEntryP_Ok xRefTable (dict : Dict) dictName required sinceVersion obj :
  Shared.validateEntryP xRefTable dict dictName required sinceVersion = Ok tt ->
  dict !! "P" = Some obj ->
  exists n g page,
    obj = PDFIndirectRef n g /\
    Table xRefTable !! n = Some (PDFDict page) /\
    resolve xRefTable page "Type" = Some (PDFName "Page").
Proof.
  unfold Shared.validateEntryP. intros H Hobj.
  apply bind_eq_Ok in H as (r & Hr & H).
  apply validateIndRefEntry_Ok_inv in Hr. destruct r as [indRef|]; [|congruence].
  destruct Hr as (Hr & n & g & ->). rewrite Hobj in Hr. injection Hr as ->.
  apply bind_eq_Ok in H as (d & Hd & H). destruct d as [page|]; [|discriminate].
  apply DereferenceDict_Ok_Some in Hd.
  unfold discard in H. apply bind_eq_Ok in H as (t & Ht & _).
  destruct (validateKindEntry_required _ _ _ _ _ _ _ _ Ht) as [s ->].
  apply validateKindEntry_Ok_Some in Ht as (o & Ho & _ & Hc & _ & Hp).
  apply asName_Some in Hc as ->. apply String.eqb_eq in Hp as ->.
  eauto 10.
Qed.

Lemma general_Ok_entries dg xRefTable (dict : Dict) dictName r :
  Shared.validateAnnotationDictGeneral dg xRefTable dict dictName = Ok r ->
  (exists a, resolve xRefTable dict "Rect" = Some (PDFArray a) /\ length a = 4 /\
             Forall (fun e => resolvesTo xRefTable asNumber e = true) a) /\
  (forall o, resolve xRefTable dict "Type" = Some o ->
             o = PDFNull \/ o = PDFName "Annot") /\
  (forall o, resolve xRefTable dict "Border" = Some o ->
             o = PDFNull \/
             exists a, o = PDFArray a /\ (length a = 3 \/ length a = 4)) /\
  (forall obj, dict !! "P" = Some obj ->
     exists n g page,
       obj = PDFIndirectRef n g /\
       Table xRefTable !! n = Some (PDFDict page) /\
       resolve xRefTable page "Type" = Some (PDFName "Page")).
Proof.
  unfold Shared.validateAnnotationDictGeneral. intros H. binds H. clear H.
  match goal with
  | H : validateRectangleEntry _ _ _ "Rect" _ _ _ = Ok _ |- _ => rename H into HRect
  end.
  match goal with
  | H : validateNameEntry _ _ _ "Type" _ _ _ = Ok _ |- _ => rename H into HType
  end.
  match goal with
  | H : validateNumberArrayEntry _ _ _ "Border" _ _ _ = Ok _ |- _ => rename H into HBorder
  end.
  match goal with
  | H : Shared.validateEntryP _ _ _ _ _ = Ok ?u |- _ => destruct u; rename H into HP
  end.
  repeat split.
  - destruct (validateKindEntry_required _ _ _ _ _ _ _ _ HRect) as [rect ->].
    apply validateKindEntry_Ok_Some in HRect as (o & Ho & _ & Hc & _).
    apply asRectangle_Some in Hc as (-> & Hlen & Hnum).
    exists rect. repeat split; trivial.
    apply List.Forall_forall. intros e He. exact (proj1 (forallb_forall _ _) Hnum e He).
  - intros o Ho. destruct (PDFNull_or_not o) as [|Hn]; [left; assumption|right].
    destruct (validateKindEntry_Ok_resolved _ _ _ _ _ _ _ _ _ _ HType Ho Hn)
      as (s & _ & Hc & _ & Hp).
    apply asName_Some in Hc as ->. apply String.eqb_eq in Hp as ->. reflexivity.
  - intros o Ho. destruct (PDFNull_or_not o) as [|Hn]; [left; assumption|right].
    destruct (validateKindEntry_Ok_resolved _ _ _ _ _ _ _ _ _ _ HBorder Ho Hn)
      as (border & _ & Hc & _ & Hp).
    apply asArrayOf_Some in Hc as [-> _]. exists border. split; [reflexivity|].
    unfold Shared.validateBorderArrayLength in Hp.
    apply orb_true_iff in Hp as [Hp | Hp]; apply Nat.eqb_eq in Hp; auto.
  - intros obj Hobj. exact (validateEntryP_Ok _ _ _ _ _ _ HP Hobj).
Qed.

(** X2: whenever [validateAnnotationDict] accepts a dictionary, its "Rect"
    entry resolves to an array of four numbers; a "Type" entry, if there is
    one, resolves to null or to the name "Annot"; a "Border" entry resolves
    to null or to an array of three or four elements; and a "P" entry is an
    indirect reference to a dictionary whose "Type" is "Page".  Both
    revisions. *)
Theorem accepted_annotation_general_entries
    (dg : Delegates) (fuel : nat) (xRefTable : XRefTable) (dict : Dict) (b : bool) :
  Pdfcpu.validateAnnotationDict dg fuel xRefTable dict = Ok b \/
  Validate.validateAnnotationDict dg fuel xRefTable dict = Ok b ->
  (exists a, resolve xRefTable dict "Rect" = Some (PDFArray a) /\ length a = 4 /\
             Forall (fun e => resolvesTo xRefTable asNumber e = true) a) /\
  (forall o, resolve xRefTable dict "Type" = Some o ->
             o = PDFNull \/ o = PDFName "Annot") /\
  (forall o, resolve xRefTable dict "Border" = Some o ->
             o = PDFNull \/
             exists a, o = PDFArray a /\ (length a = 3 \/ length a = 4)) /\
  (forall obj, dict !! "P" = Some obj ->
     exists n g page,
       obj = PDFIndirectRef n g /\
       Table xRefTable !! n = Some (PDFDict page) /\
       resolve xRefTable page "Type" = Some (PDFName "Page")).
Proof.
  intros [H | H].
  - rewrite pdfcpu_validateAnnotationDict_unfold in H.
    apply pdfcpu_body_Ok_inv in H as (s & d & Hg & _).
    exact (general_Ok_entries _ _ _ _ _ Hg).
  - rewrite validate_validateAnnotationDict_unfold in H.
    apply validate_body_Ok_inv in H as (s & d & Hg & _).
    exact (general_Ok_entries _ _ _ _ _ Hg).
Qed.

Lemma accepted_annotation_general_entries_witness :
  exists a, resolve (emptyTable V13 ValidationStrict) linkAnnot "Rect" = Some (PDFArray a) /\
            length a = 4 /\
            Forall (fun e => resolvesTo (emptyTable V13 ValidationStrict) asNumber e = true) a.
Proof.
  apply (accepted_annotation_general_entries acceptAll 0
           (emptyTable V13 ValidationStrict) linkAnnot false).
  left. reflexivity.
Defined.

Lemma acceptAll_delegatesAgree (x x' : XRefTable) : delegatesAgree acceptAll x x'.
Proof. repeat split; intros; apply okImplies_refl. Qed.

Lemma everything_okImplies dg fuel (x x' : XRefTable) (dict : Dict) :
  atLeastAsPermissive x x' ->
  delegatesAgree dg x x' ->
  okImplies (Pdfcpu.validateAnnotationDict dg fuel x dict)
            (Pdfcpu.validateAnnotationDict dg fuel x' dict) /\
  okImplies (Validate.validateAnnotationDict dg fuel x dict)
            (Validate.validateAnnotationDict dg fuel x' dict) /\
  okImplies (Pdfcpu.validatePageAnnotations dg fuel x dict)
            (Pdfcpu.validatePageAnnotations dg fuel x' dict) /\
  okImplies (Validate.validatePageAnnotations dg fuel x dict)
            (Validate.validatePageAnnotations dg fuel x' dict) /\
  okImplies (Pdfcpu.validatePagesAnnotations dg fuel x dict)
            (Pdfcpu.validatePagesAnnotations dg fuel x' dict) /\
  okImplies (Validate.validatePagesAnnotations dg fuel x dict)
            (Validate.validatePagesAnnotations dg fuel x' dict).
Proof.
  destruct x as [v m t], x' as [v' m' t']. intros (Ht & Hv & Hm) Hdg.
  cbn in Ht, Hv, Hm. subst t'.
  pose proof (fun d => proj1 (validateAnnotationDict_okImplies dg v v' _ _ t Hv Hm Hdg fuel d))
    as H1.
  pose proof (fun d => proj2 (validateAnnotationDict_okImplies dg v v' _ _ t Hv Hm Hdg fuel d))
    as H2.
  repeat split.
  - apply H1.
  - apply H2.
  - apply (validatePageAnnotations_okImplies v v' _ _ t Hv _ _ H1).
  - apply (validatePageAnnotations_okImplies v v' _ _ t Hv _ _ H2).
  - apply (validatePagesAnnotations_okImplies v v' _ _ t Hv _ _ H1).
  - apply (validatePagesAnnotations_okImplies v v' _ _ t Hv _ _ H2).
Qed.

(** X3: relaxed validation accepts whatever strict validation accepts.
    For the same document, an annotation dictionary, a page and a page
    tree that validate in strict mode validate in relaxed mode, with the
    same result, in both revisions, provided the delegated validators do
    not turn an acceptance into a rejection either. *)
Theorem relaxed_mode_accepts_what_strict_mode_accepts
    (dg : Delegates) (fuel : nat) (xRefTable : XRefTable) (dict : Dict) :
  delegatesAgree dg (inMode ValidationStrict xRefTable)
                    (inMode ValidationRelaxed xRefTable) ->
  (forall b,
     Pdfcpu.validateAnnotationDict dg fuel (inMode ValidationStrict xRefTable) dict = Ok b ->
     Pdfcpu.validateAnnotationDict dg fuel (inMode ValidationRelaxed xRefTable) dict = Ok b) /\
  (forall b,
     Validate.validateAnnotationDict dg fuel (inMode ValidationStrict xRefTable) dict = Ok b ->
     Validate.validateAnnotationDict dg fuel (inMode ValidationRelaxed xRefTable) dict = Ok b) /\
  (Pdfcpu.validatePageAnnotations dg fuel (inMode ValidationStrict xRefTable) dict = Ok tt ->
   Pdfcpu.validatePageAnnotations dg fuel (inMode ValidationRelaxed xRefTable) dict = Ok tt) /\
  (Validate.validatePageAnnotations dg fuel (inMode ValidationStrict xRefTable) dict = Ok tt ->
   Validate.validatePageAnnotations dg fuel (inMode ValidationRelaxed xRefTable) dict = Ok tt) /\
  (Pdfcpu.validatePagesAnnotations dg fuel (inMode ValidationStrict xRefTable) dict = Ok tt ->
   Pdfcpu.validatePagesAnnotations dg fuel (inMode ValidationRelaxed xRefTable) dict = Ok tt) /\
  (Validate.validatePagesAnnotations dg fuel (inMode ValidationStrict xRefTable) dict = Ok tt ->
   Validate.validatePagesAnnotations dg fuel (inMode ValidationRelaxed xRefTable) dict = Ok tt).
Proof.
  intros Hdg.
  assert (Hp : atLeastAsPermissive (inMode ValidationStrict xRefTable)
                                   (inMode ValidationRelaxed xRefTable)).
  { repeat split; cbn; [destruct (Version xRefTable); reflexivity|right; reflexivity]. }
  destruct (everything_okImplies dg fuel _ _ dict Hp Hdg) as (H1 & H2 & H3 & H4 & H5 & H6).
  repeat split; intros; first [apply H1 | apply H2 | apply H3 | apply H4 | apply H5 | apply H6];
    assumption.
Qed.

Lemma relaxed_mode_accepts_what_strict_mode_accepts_witness :
  Pdfcpu.validateAnnotationDict acceptAll 0
    (inMode ValidationRelaxed (emptyTable V16 ValidationStrict)) linkWithBorderStyle
  = Ok false.
Proof.
  apply (relaxed_mode_accepts_what_strict_mode_accepts acceptAll 0
           (emptyTable V16 ValidationStrict) linkWithBorderStyle
           (acceptAll_delegatesAgree _ _)).
  reflexivity.
Defined.



(** ** Arrays of annotations *)

Lemma resolve_Some xRefTable (dict : Dict) key o :
  resolve xRefTable dict key = Some o ->
  exists obj, dict !! key = Some obj /\ Dereference xRefTable obj = Ok o.
Proof.
  unfold resolve. destruct (dict !! key) as [obj|]; [|discriminate].
  destruct (Dereference xRefTable obj) as [o'| | |] eqn:E; try discriminate.
  intros [= ->]. eauto.
Qed.

Lemma validateArrayEntry_resolved xRefTable (dict : Dict) dictName entryName required arr :
  resolve xRefTable dict entryName = Some (PDFArray arr) ->
  validateArrayEntry xRefTable dict dictName entryName required V10 None = Ok (Some arr).
Proof.
  intros H. apply resolve_Some in H as (obj & Hobj & Hd).
  unfold validateArrayEntry.
  rewrite (validateKindEntry_present _ _ _ _ _ _ _ _ _ _ Hobj Hd);
    [reflexivity|discriminate|apply versionLt_V10].
Qed.

Section AnnotsInOrder.
Variable vad : XRefTable -> Dict -> Result bool.
Variable xRefTable : XRefTable.

Lemma pageAnnotationsLoop_Ok_inv (v : PDFObject) (rest : list PDFObject) :
  Shared.pageAnnotationsLoop vad xRefTable false (v :: rest) = Ok tt ->
  exists b, validatesAs vad xRefTable b v /\
            Shared.pageAnnotationsLoop vad xRefTable b rest = Ok tt.
Proof.
  cbn [Shared.pageAnnotationsLoop]. intros H.
  apply bind_eq_Ok in H as (d & Hd & H). apply bind_eq_Ok in H as (b & Hb & H).
  exists b. split; [exists d; auto|exact H].
Qed.

Lemma pageAnnotationsLoop_accepts (arr : list PDFObject) :
  Shared.pageAnnotationsLoop vad xRefTable false arr = Ok tt <->
  annotsInOrder vad xRefTable arr.
Proof.
  split.
  - induction arr as [|v rest IH]; [left; reflexivity|].
    intros H. apply pageAnnotationsLoop_Ok_inv in H as (b & Hv & H). right.
    destruct b.
    + destruct rest as [|w rest]; [|discriminate H].
      exists [], v, true. auto.
    + destruct (IH H) as [-> | (pre & last & b & -> & Hpre & Hlast)].
      * exists [], v, false. auto.
      * exists (v :: pre), last, b. auto.
  - intros [-> | (pre & last & b & -> & Hpre & Hlast)]; [reflexivity|].
    exact (pageAnnotationsLoop_trapNet_last vad xRefTable pre last b Hpre Hlast).
Qed.

Lemma pageAnnotationsLoop_corrupted (pre rest : list PDFObject) (v : PDFObject) :
  Forall (validatesAs vad xRefTable false) pre ->
  (neitherReferenceNorDict v = true ->
   Shared.pageAnnotationsLoop vad xRefTable false (pre ++ v :: rest)
   = Err corruptedArrayOfIndRefs) /\
  (forall n g, v = PDFIndirectRef n g ->
     (forall d, Table xRefTable !! n <> Some (PDFDict d)) ->
     Shared.pageAnnotationsLoop vad xRefTable false (pre ++ v :: rest)
     = Err corruptedAnnotationDict).
Proof.
  intros Hpre. rewrite (pageAnnotationsLoop_prefix _ _ _ _ Hpre). split.
  - destruct v; try discriminate; reflexivity.
  - intros n g -> Hn. cbn [Shared.pageAnnotationsLoop Shared.annotsDictOf].
    unfold DereferenceDict, Dereference, mbind, result_bind, bind.
    destruct (Table xRefTable !! n) as [o|]; [|reflexivity].
    destruct o; try reflexivity. destruct (Hn d eq_refl).
Qed.

End AnnotsInOrder.

(** X5: a page whose "Annots" entry resolves to an array is accepted
    exactly when the array is empty, or every element validates as an
    annotation and none but the last one is a TrapNet annotation.  Both
    revisions, any fuel. *)
Theorem page_accepted_iff_annotations_in_order
    (dg : Delegates) (fuel : nat) (xRefTable : XRefTable) (dict : Dict)
    (arr : list PDFObject) :
  resolve xRefTable dict "Annots" = Some (PDFArray arr) ->
  (Pdfcpu.validatePageAnnotations dg fuel xRefTable dict = Ok tt <->
   annotsInOrder (Pdfcpu.validateAnnotationDict dg fuel) xRefTable arr) /\
  (Validate.validatePageAnnotations dg fuel xRefTable dict = Ok tt <->
   annotsInOrder (Validate.validateAnnotationDict dg fuel) xRefTable arr).
Proof.
  intros H.
  pose proof (validateArrayEntry_resolved xRefTable dict "pageDict" "Annots" OPTIONAL arr H)
    as Harr.
  unfold Pdfcpu.validatePageAnnotations, Validate.validatePageAnnotations.
  rewrite !(validatePageAnnotations_array _ _ _ _ Harr).
  split; apply pageAnnotationsLoop_accepts.
Qed.

Lemma page_accepted_iff_annotations_in_order_witness :
  (Pdfcpu.validatePageAnnotations acceptAll 0 (emptyTable V13 ValidationStrict)
     (pageDict [PDFDict linkAnnot; PDFDict trapNetAnnot]) = Ok tt <->
   annotsInOrder (Pdfcpu.validateAnnotationDict acceptAll 0)
     (emptyTable V13 ValidationStrict) [PDFDict linkAnnot; PDFDict trapNetAnnot]) /\
  (Validate.validatePageAnnotations acceptAll 0 (emptyTable V13 ValidationStrict)
     (pageDict [PDFDict linkAnnot; PDFDict trapNetAnnot]) = Ok tt <->
   annotsInOrder (Validate.validateAnnotationDict acceptAll 0)
     (emptyTable V13 ValidationStrict) [PDFDict linkAnnot; PDFDict trapNetAnnot]).
Proof.
  apply (page_accepted_iff_annotations_in_order acceptAll 0
           (emptyTable V13 ValidationStrict)
           (pageDict [PDFDict linkAnnot; PDFDict trapNetAnnot])).
  reflexivity.
Defined.

(** X6: the elements of an "Annots" array have to be annotation
    dictionaries, inline or by reference.  After elements that validate,
    an element that is neither a reference nor a dictionary (the null
    object included) is the error "corrupted array of indrefs", and a
    reference that does not resolve to a dictionary (dangling, null or of
    another type) is the error "corrupted annotation dict"; the rest of the
    array is not looked at.  Both revisions. *)
Theorem page_annotation_that_is_no_dictionary
    (dg : Delegates) (fuel : nat) (xRefTable : XRefTable) (dict : Dict)
    (pre rest : list PDFObject) (v : PDFObject) :
  resolve xRefTable dict "Annots" = Some (PDFArray (pre ++ v :: rest)) ->
  (Forall (validatesAs (Pdfcpu.validateAnnotationDict dg fuel) xRefTable false) pre ->
   (neitherReferenceNorDict v = true ->
    Pdfcpu.validatePageAnnotations dg fuel xRefTable dict = Err corruptedArrayOfIndRefs) /\
   (forall n g, v = PDFIndirectRef n g ->
      (forall d, Table xRefTable !! n <> Some (PDFDict d)) ->
      Pdfcpu.validatePageAnnotations dg fuel xRefTable dict = Err corruptedAnnotationDict)) /\
  (Forall (validatesAs (Validate.validateAnnotationDict dg fuel) xRefTable false) pre ->
   (neitherReferenceNorDict v = true ->
    Validate.validatePageAnnotations dg fuel xRefTable dict = Err corruptedArrayOfIndRefs) /\
   (forall n g, v = PDFIndirectRef n g ->
      (forall d, Table xRefTable !! n <> Some (PDFDict d)) ->
      Validate.validatePageAnnotations dg fuel xRefTable dict = Err corruptedAnnotationDict)).
Proof.
  intros H.
  pose proof (validateArrayEntry_resolved xRefTable dict "pageDict" "Annots" OPTIONAL _ H)
    as Harr.
  unfold Pdfcpu.validatePageAnnotations, Validate.validatePageAnnotations.
  rewrite !(validatePageAnnotations_array _ _ _ _ Harr).
  split; intros Hpre; apply pageAnnotationsLoop_corrupted; exact Hpre.
Qed.

Lemma page_annotation_that_is_no_dictionary_witness :
  Pdfcpu.validatePageAnnotations acceptAll 0 (emptyTable V13 ValidationStrict)
    (pageDict [PDFDict linkAnnot; PDFNull; PDFDict linkAnnot])
  = Err corruptedArrayOfIndRefs.
Proof.
  refine (proj1 (proj1 (page_annotation_that_is_no_dictionary acceptAll 0
             (emptyTable V13 ValidationStrict)
             (pageDict [PDFDict linkAnnot; PDFNull; PDFDict linkAnnot])
             [PDFDict linkAnnot] [PDFDict linkAnnot] PDFNull eq_refl) _) eq_refl).
  constructor; [|constructor]. exists linkAnnot. split; reflexivity.
Defined.

(** ** Page trees *)

Section Kids.
Variable vad : XRefTable -> Dict -> Result bool.
Variable recurse : Dict -> Result unit.
Variable xRefTable : XRefTable.

(** The kids are taken from left to right, each on its own. *)
Lemma pagesKidsLoop_app (kids rest : list PDFObject) :
  Shared.pagesKidsLoop vad recurse xRefTable (kids ++ rest)
  = (Shared.pagesKidsLoop vad recurse xRefTable kids;;
     Shared.pagesKidsLoop vad recurse xRefTable rest).
Proof.
  induction kids as [|v kids IH].
  - cbn. destruct (Shared.pagesKidsLoop vad recurse xRefTable rest) as [[]| | |];
      reflexivity.
  - rewrite <- app_comm_cons. cbn [Shared.pagesKidsLoop]. rewrite IH.
    unfold mbind, result_bind, bind.
    destruct v; try reflexivity;
      (destruct (DereferenceDict xRefTable _) as [[node|]| | |]; try reflexivity;
       destruct (TypeOf node) as [dictType|]; try reflexivity;
       destruct (String.eqb dictType "Pages");
         [destruct (recurse node); reflexivity|];
       destruct (String.eqb dictType "Page"); [|reflexivity];
       destruct (Shared.validatePageAnnotations vad xRefTable node); reflexivity).
Qed.

Lemma pagesKidsLoop_kid (v : PDFObject) (node : Dict) (dictType : string) :
  DereferenceDict xRefTable v = Ok (Some node) ->
  TypeOf node = Some dictType ->
  Shared.pagesKidsLoop vad recurse xRefTable [v]
  = if String.eqb dictType "Pages" then recurse node
    else if String.eqb dictType "Page"
         then Shared.validatePageAnnotations vad xRefTable node
         else Err (unexpectedPageNodeDictType dictType).
Proof.
  intros Hd Ht. cbn [Shared.pagesKidsLoop].
  assert (Hv : v <> PDFNull).
  { intros ->. discriminate Hd. }
  unfold mbind, result_bind, bind.
  destruct v; try congruence; rewrite Hd, Ht;
    (destruct (String.eqb dictType "Pages");
       [destruct (recurse node) as [[]| | |]; reflexivity|]);
    (destruct (String.eqb dictType "Page"); [|reflexivity]);
    destruct (Shared.validatePageAnnotations vad xRefTable node) as [[]| | |]; reflexivity.
Qed.

Lemma pagesKidsLoop_Ok_In (kids : list PDFObject) (v : PDFObject) (d : Dict)
    (dictType : string) :
  Shared.pagesKidsLoop vad recurse xRefTable kids = Ok tt ->
  In v kids ->
  DereferenceDict xRefTable v = Ok (Some d) ->
  TypeOf d = Some dictType ->
  (dictType = "Pages" -> recurse d = Ok tt) /\
  (dictType = "Page" -> Shared.validatePageAnnotations vad xRefTable d = Ok tt).
Proof.
  intros H Hin Hd Ht. apply in_split in Hin as (pre & post & ->).
  change (v :: post) with ([v] ++ post)%list in H.
  rewrite !pagesKidsLoop_app in H.
  apply bind_eq_Ok in H as ([] & _ & H). apply bind_eq_Ok in H as ([] & H & _).
  rewrite (pagesKidsLoop_kid v d dictType Hd Ht) in H.
  split; intros ->; exact H.
Qed.

End Kids.

Lemma validatePagesAnnotations_pageOf vad xRefTable (node page : Dict) :
  pageOf xRefTable node page ->
  forall fuel,
    Shared.validatePagesAnnotations vad fuel xRefTable node = Ok tt ->
    Shared.validatePageAnnotations vad xRefTable page = Ok tt.
Proof.
  induction 1 as [node kids v page Hk Hin Hd Ht
                 |node kids v child page Hk Hin Hd Ht _ IH];
    intros fuel H; rewrite validatePagesAnnotations_unfold, Hk in H;
    (destruct (IntEntry node "Count"); [|discriminate]).
  - exact (proj2 (pagesKidsLoop_Ok_In _ _ _ _ _ _ _ H Hin Hd Ht) eq_refl).
  - pose proof (proj1 (pagesKidsLoop_Ok_In _ _ _ _ _ _ _ H Hin Hd Ht) eq_refl) as Hc.
    destruct fuel as [|fuel]; [discriminate|]. exact (IH fuel Hc).
Qed.

(** X7: when [validatePagesAnnotations] accepts a page-tree node, every
    page below it, at any depth, has been accepted by
    [validatePageAnnotations].  Both revisions. *)
Theorem accepted_page_tree_has_accepted_pages
    (dg : Delegates) (fuel : nat) (xRefTable : XRefTable) (root page : Dict) :
  pageOf xRefTable root page ->
  (Pdfcpu.validatePagesAnnotations dg fuel xRefTable root = Ok tt ->
   Pdfcpu.validatePageAnnotations dg fuel xRefTable page = Ok tt) /\
  (Validate.validatePagesAnnotations dg fuel xRefTable root = Ok tt ->
   Validate.validatePageAnnotations dg fuel xRefTable page = Ok tt).
Proof.
  intros Hp. split; intros H; exact (validatePagesAnnotations_pageOf _ _ _ _ Hp _ H).
Qed.

Lemma accepted_page_tree_has_accepted_pages_witness :
  Validate.validatePageAnnotations acceptAll 1 onePageTree
    (pageDict [PDFDict linkAnnot; PDFDict trapNetAnnot]) = Ok tt.
Proof.
  refine (proj2 (accepted_page_tree_has_accepted_pages acceptAll 1 onePageTree
                   (pagesNode 1 [PDFIndirectRef 2 0])
                   (pageDict [PDFDict linkAnnot; PDFDict trapNetAnnot]) _) eq_refl).
  apply (pageOf_kid onePageTree _ [PDFIndirectRef 2 0] (PDFIndirectRef 2 0));
    [reflexivity|left; reflexivity|reflexivity|reflexivity].
Defined.

(** X8: the loop of [validatePagesAnnotations] takes the kids from left to
    right, each on its own: the loop over a concatenation is the loop over
    the first part followed by the loop over the second.  A null kid is
    passed over; a kid that is a reference to the null object, a kid
    without a "Type" name, and a kid whose type is neither "Pages" nor
    "Page" are errors.  Both revisions (the loop is the same). *)
Theorem page_tree_kids_one_by_one
    (vad : XRefTable -> Dict -> Result bool) (recurse : Dict -> Result unit)
    (xRefTable : XRefTable) :
  (forall kids rest,
     Shared.pagesKidsLoop vad recurse xRefTable (kids ++ rest)
     = (Shared.pagesKidsLoop vad recurse xRefTable kids;;
        Shared.pagesKidsLoop vad recurse xRefTable rest)) /\
  Shared.pagesKidsLoop vad recurse xRefTable [PDFNull] = Ok tt /\
  (forall v, v <> PDFNull -> DereferenceDict xRefTable v = Ok None ->
     Shared.pagesKidsLoop vad recurse xRefTable [v] = Err pageNodeDictIsNull) /\
  (forall v node, DereferenceDict xRefTable v = Ok (Some node) -> TypeOf node = None ->
     Shared.pagesKidsLoop vad recurse xRefTable [v] = Err missingPageNodeDictType) /\
  (forall v node dictType,
     DereferenceDict xRefTable v = Ok (Some node) -> TypeOf node = Some dictType ->
     dictType <> "Pages" -> dictType <> "Page" ->
     Shared.pagesKidsLoop vad recurse xRefTable [v]
     = Err (unexpectedPageNodeDictType dictType)).
Proof.
  split; [apply pagesKidsLoop_app|]. split; [reflexivity|]. repeat split.
  - intros v Hv Hd. cbn [Shared.pagesKidsLoop].
    destruct v; try congruence; rewrite Hd; reflexivity.
  - intros v node Hd Ht. cbn [Shared.pagesKidsLoop].
    destruct v; try discriminate Hd; rewrite Hd; cbn; rewrite Ht; reflexivity.
  - intros v node dictType Hd Ht Hn1 Hn2.
    rewrite (pagesKidsLoop_kid vad recurse xRefTable v node dictType Hd Ht).
    apply String.eqb_neq in Hn1, Hn2. rewrite Hn1, Hn2. reflexivity.
Qed.

Lemma page_tree_kids_one_by_one_witness :
  Shared.pagesKidsLoop (Pdfcpu.validateAnnotationDict acceptAll 0) (fun _ => OutOfFuel)
    onePageTree [PDFDict (annot "Link" [("Type", PDFName "Annot")])]
  = Err (unexpectedPageNodeDictType "Annot").
Proof.
  refine (proj2 (proj2 (proj2 (proj2 (page_tree_kids_one_by_one
            (Pdfcpu.validateAnnotationDict acceptAll 0) (fun _ => OutOfFuel) onePageTree))))
            (PDFDict (annot "Link" [("Type", PDFName "Annot")]))
            (annot "Link" [("Type", PDFName "Annot")]) "Annot" eq_refl eq_refl _ _);
    discriminate.
Defined.

(** X9: [validatePagesAnnotations] only asks for "Count" to be there; the
    number is not compared with anything.  Writing any other integer under
    "Count" leaves the result as it is.  Both revisions. *)
Theorem page_count_is_not_compared
    (dg : Delegates) (fuel : nat) (xRefTable : XRefTable) (dict : Dict)
    (count count' : Z) :
  IntEntry dict "Count" = Some count ->
  Pdfcpu.validatePagesAnnotations dg fuel xRefTable (<["Count" := PDFInteger count']> dict)
  = Pdfcpu.validatePagesAnnotations dg fuel xRefTable dict /\
  Validate.validatePagesAnnotations dg fuel xRefTable (<["Count" := PDFInteger count']> dict)
  = Validate.validatePagesAnnotations dg fuel xRefTable dict.
Proof.
  intros Hc.
  assert (H1 : IntEntry (<["Count" := PDFInteger count']> dict) "Count" = Some count').
  { unfold IntEntry. rewrite lookup_insert_eq. reflexivity. }
  assert (H2 : PDFArrayEntry (<["Count" := PDFInteger count']> dict) "Kids"
               = PDFArrayEntry dict "Kids").
  { unfold PDFArrayEntry. rewrite lookup_insert_ne by discriminate. reflexivity. }
  unfold Pdfcpu.validatePagesAnnotations, Validate.validatePagesAnnotations.
  rewrite !validatePagesAnnotations_unfold, H1, H2, Hc. split; reflexivity.
Qed.

Lemma page_count_is_not_compared_witness :
  Pdfcpu.validatePagesAnnotations acceptAll 1 onePageTree
    (<["Count" := PDFInteger (-7)]> (pagesNode 1 [PDFIndirectRef 2 0]))
  = Pdfcpu.validatePagesAnnotations acceptAll 1 onePageTree
      (pagesNode 1 [PDFIndirectRef 2 0]).
Proof.
  apply (page_count_is_not_compared acceptAll 1 onePageTree
           (pagesNode 1 [PDFIndirectRef 2 0]) 1 (-7)).
  reflexivity.
Defined.

(** ** Entries that are not examined *)

Lemma validateKindEntry_insert_ne {A : Type} (cast : PDFObject -> option A)
    xRefTable (dict : Dict) dictName entryName required sinceVersion validate k v :
  k <> entryName ->
  validateKindEntry cast xRefTable (<[k := v]> dict) dictName entryName required
    sinceVersion validate
  = validateKindEntry cast xRefTable dict dictName entryName required sinceVersion validate.
Proof. intros H. unfold validateKindEntry, Find. rewrite lookup_insert_ne by exact H. reflexivity. Qed.

Lemma validateIndRefEntry_insert_ne xRefTable (dict : Dict) dictName entryName
    required sinceVersion k v :
  k <> entryName ->
  validateIndRefEntry xRefTable (<[k := v]> dict) dictName entryName required sinceVersion
  = validateIndRefEntry xRefTable dict dictName entryName required sinceVersion.
Proof. intros H. unfold validateIndRefEntry, Find. rewrite lookup_insert_ne by exact H. reflexivity. Qed.

Lemma resolve_insert_ne xRefTable (dict : Dict) key k v :
  k <> key -> resolve xRefTable (<[k := v]> dict) key = resolve xRefTable dict key.
Proof. intros H. unfold resolve. rewrite lookup_insert_ne by exact H. reflexivity. Qed.

Ltac other_entries :=
  shared; accessors; unfold Find;
  rewrite ?validateKindEntry_insert_ne, ?validateIndRefEntry_insert_ne,
    ?lookup_insert_ne by discriminate.

Lemma pdfcpu_lookupDescriptor_table dg s d :
  Pdfcpu.lookupDescriptor s (Pdfcpu.annotationTable dg) = Some (s, d) ->
  forall rec xRefTable (dict : Dict),
    Pdfcpu.validateAnnotationDictConcrete dg rec xRefTable dict s
    = (ValidateVersion xRefTable s (Pdfcpu.sinceVersion d);;
       (if Pdfcpu.markup d then Pdfcpu.validateMarkupAnnotation dg rec xRefTable dict
        else Ok tt);;
       Pdfcpu.validate d xRefTable dict s).
Proof. intros H rec x dict. unfold Pdfcpu.validateAnnotationDictConcrete. rewrite H. reflexivity. Qed.

Lemma validate_lookupDescriptor_table dg s d :
  Validate.lookupDescriptor s (Validate.annotationTable dg) = Some (s, d) ->
  forall rec xRefTable (dict : Dict),
    Validate.validateAnnotationDictConcrete dg rec xRefTable dict s
    = ((if Validate.markup d then Validate.validateMarkupAnnotation dg rec xRefTable dict
        else Ok tt);;
       Validate.validate d xRefTable dict s (Validate.sinceVersion d)).
Proof. intros H rec x dict. unfold Validate.validateAnnotationDictConcrete. rewrite H. reflexivity. Qed.

(** The general entries under a key that is none of theirs. *)
Ltac general_unchanged Hs :=
  match goal with
  | |- context [Shared.validateAnnotationDictGeneral ?dg ?x (<[?k := ?v]> ?dict) ?n] =>
      let E := fresh "E" in
      assert (E : Shared.validateAnnotationDictGeneral dg x (<[k := v]> dict) n
                  = Shared.validateAnnotationDictGeneral dg x dict n)
        by (other_entries; reflexivity);
      rewrite E; clear E;
      let Hg := fresh "Hg" in
      destruct (Shared.validateAnnotationDictGeneral dg x dict n) as [[s|]| | |] eqn:Hg;
        try reflexivity;
      apply general_Ok_subtype in Hg as (? & [= <-] & Hg);
      rewrite Hs in Hg; injection Hg as <-;
      rewrite !bind_Ok; cbv beta iota
  end.

Lemma pdfcpu_popup_parent_null xRefTable (dict : Dict) dictName n g :
  dict !! "Parent" = Some (PDFIndirectRef n g) ->
  Table xRefTable !! n = Some PDFNull ->
  Pdfcpu.validateAnnotationDictPopup xRefTable dict dictName = Ok tt.
Proof.
  intros Hp Hn.
  unfold Pdfcpu.validateAnnotationDictPopup, validateIndRefEntry, Find, DereferenceDict,
    Dereference.
  rewrite Hp, versionLt_V10. cbn. rewrite Hn. reflexivity.
Qed.

Lemma validate_popup_parent_null xRefTable (dict : Dict) dictName sinceVersion n g :
  dict !! "Parent" = Some (PDFIndirectRef n g) ->
  Table xRefTable !! n = Some PDFNull ->
  Validate.validateAnnotationDictPopup xRefTable dict dictName sinceVersion
  = Validate.versionCheck xRefTable "validateAnnotationDictPopup" dictName sinceVersion.
Proof.
  intros Hp Hn.
  unfold Validate.validateAnnotationDictPopup, validateIndRefEntry, Find, DereferenceDict,
    Dereference.
  rewrite Hp, versionLt_V10.
  destruct (Validate.versionCheck _ _ _ _) as [[]| | |]; try reflexivity.
  cbn. rewrite Hn. reflexivity.
Qed.

Ltac unfold_bodies :=
  rewrite !pdfcpu_validateAnnotationDict_unfold, !validate_validateAnnotationDict_unfold;
  unfold Pdfcpu.validateAnnotationDictBody, Validate.validateAnnotationDictBody.

(** X10: the "Open" entry of a Popup annotation is not examined when its
    "Parent" entry refers to the null object: [validateAnnotationDictPopup]
    then returns at once, with the nil error of the lookup.  Whatever is
    written under "Open", the result of [validateAnnotationDict] is the
    same.  Both revisions. *)
Theorem popup_open_not_examined_when_parent_is_null
    (dg : Delegates) (fuel : nat) (xRefTable : XRefTable) (dict : Dict)
    (v : PDFObject) (n g : N) :
  resolve xRefTable dict "Subtype" = Some (PDFName "Popup") ->
  dict !! "Parent" = Some (PDFIndirectRef n g) ->
  Table xRefTable !! n = Some PDFNull ->
  Pdfcpu.validateAnnotationDict dg fuel xRefTable (<["Open" := v]> dict)
  = Pdfcpu.validateAnnotationDict dg fuel xRefTable dict /\
  Validate.validateAnnotationDict dg fuel xRefTable (<["Open" := v]> dict)
  = Validate.validateAnnotationDict dg fuel xRefTable dict.
Proof.
  intros Hs Hp Hn.
  assert (Hp' : <["Open" := v]> dict !! "Parent" = Some (PDFIndirectRef n g))
    by (rewrite lookup_insert_ne by discriminate; exact Hp).
  unfold_bodies. split; general_unchanged Hs.
  - rewrite !(pdfcpu_lookupDescriptor_table dg "Popup" _ eq_refl).
    cbn [Pdfcpu.validate Pdfcpu.markup Pdfcpu.sinceVersion].
    rewrite (pdfcpu_popup_parent_null _ _ _ _ _ Hp' Hn),
      (pdfcpu_popup_parent_null _ _ _ _ _ Hp Hn).
    other_entries. reflexivity.
  - rewrite !(validate_lookupDescriptor_table dg "Popup" _ eq_refl).
    cbn [Validate.validate Validate.markup Validate.sinceVersion].
    rewrite (validate_popup_parent_null _ _ _ _ _ _ Hp' Hn),
      (validate_popup_parent_null _ _ _ _ _ _ Hp Hn).
    other_entries. reflexivity.
Qed.

Lemma popup_open_not_examined_when_parent_is_null_witness :
  Pdfcpu.validateAnnotationDict acceptAll 0 (nullObjectTable V13 ValidationStrict 3)
    (<["Open" := PDFInteger 7]> (annot "Popup" [("Parent", PDFIndirectRef 3 0)]))
  = Pdfcpu.validateAnnotationDict acceptAll 0 (nullObjectTable V13 ValidationStrict 3)
      (annot "Popup" [("Parent", PDFIndirectRef 3 0)]).
Proof.
  apply (popup_open_not_examined_when_parent_is_null acceptAll 0
           (nullObjectTable V13 ValidationStrict 3)
           (annot "Popup" [("Parent", PDFIndirectRef 3 0)]) (PDFInteger 7) 3 0);
    reflexivity.
Defined.

(** X11: [validateAnnotationDictPolyLine] serves two subtypes and looks at
    the line endings "LE" for "PolyLine" only and at the border effect "BE"
    for "Polygon" only.  Whatever is written under "LE" in a Polygon
    annotation, or under "BE" in a PolyLine annotation, the result of
    [validateAnnotationDict] is the same.  Both revisions. *)
Theorem polygon_line_endings_and_polyline_border_effect_not_examined
    (dg : Delegates) (fuel : nat) (xRefTable : XRefTable) (dict : Dict) (v : PDFObject) :
  (resolve xRefTable dict "Subtype" = Some (PDFName "Polygon") ->
   Pdfcpu.validateAnnotationDict dg fuel xRefTable (<["LE" := v]> dict)
   = Pdfcpu.validateAnnotationDict dg fuel xRefTable dict /\
   Validate.validateAnnotationDict dg fuel xRefTable (<["LE" := v]> dict)
   = Validate.validateAnnotationDict dg fuel xRefTable dict) /\
  (resolve xRefTable dict "Subtype" = Some (PDFName "PolyLine") ->
   Pdfcpu.validateAnnotationDict dg fuel xRefTable (<["BE" := v]> dict)
   = Pdfcpu.validateAnnotationDict dg fuel xRefTable dict /\
   Validate.validateAnnotationDict dg fuel xRefTable (<["BE" := v]> dict)
   = Validate.validateAnnotationDict dg fuel xRefTable dict).
Proof.
  split; intros Hs; unfold_bodies; (split; general_unchanged Hs).
  - rewrite !(pdfcpu_lookupDescriptor_table dg "Polygon" _ eq_refl).
    cbn [Pdfcpu.validate Pdfcpu.markup Pdfcpu.sinceVersion].
    unfold Pdfcpu.validateMarkupAnnotation, Pdfcpu.validateAnnotationDictPolyLine.
    change (String.eqb "Polygon" "PolyLine") with false. cbv iota.
    other_entries. reflexivity.
  - rewrite !(validate_lookupDescriptor_table dg "Polygon" _ eq_refl).
    cbn [Validate.validate Validate.markup Validate.sinceVersion].
    unfold Validate.validateMarkupAnnotation, Validate.validateAnnotationDictPolyLine.
    change (String.eqb "Polygon" "PolyLine") with false. cbv iota.
    other_entries. reflexivity.
  - rewrite !(pdfcpu_lookupDescriptor_table dg "PolyLine" _ eq_refl).
    cbn [Pdfcpu.validate Pdfcpu.markup Pdfcpu.sinceVersion].
    unfold Pdfcpu.validateMarkupAnnotation, Pdfcpu.validateAnnotationDictPolyLine.
    change (String.eqb "PolyLine" "Polygon") with false. cbv iota.
    other_entries. reflexivity.
  - rewrite !(validate_lookupDescriptor_table dg "PolyLine" _ eq_refl).
    cbn [Validate.validate Validate.markup Validate.sinceVersion].
    unfold Validate.validateMarkupAnnotation, Validate.validateAnnotationDictPolyLine.
    change (String.eqb "PolyLine" "Polygon") with false. cbv iota.
    other_entries. reflexivity.
Qed.

Lemma polygon_line_endings_and_polyline_border_effect_not_examined_witness :
  Pdfcpu.validateAnnotationDict acceptAll 0 (emptyTable V15 ValidationStrict)
    (<["LE" := PDFInteger 7]> (minimalAnnot true "Polygon"))
  = Pdfcpu.validateAnnotationDict acceptAll 0 (emptyTable V15 ValidationStrict)
      (minimalAnnot true "Polygon") /\
  Validate.validateAnnotationDict acceptAll 0 (emptyTable V15 ValidationStrict)
    (<["LE" := PDFInteger 7]> (minimalAnnot true "Polygon"))
  = Validate.validateAnnotationDict acceptAll 0 (emptyTable V15 ValidationStrict)
      (minimalAnnot true "Polygon").
Proof.
  apply (proj1 (polygon_line_endings_and_polyline_border_effect_not_examined acceptAll 0
                  (emptyTable V15 ValidationStrict) (minimalAnnot true "Polygon")
                  (PDFInteger 7))).
  reflexivity.
Defined.

(** X12: [validateAnnotationDictWidget] calls [validateBorderStyleDict] on
    "BS" and drops what it returns: the test that follows reads the error
    of the call before.  Whatever is written under "BS" in a Widget
    annotation, the result of [validateAnnotationDict] is the same, provided
    the delegate for "AA" does not depend on "BS".  Both revisions. *)
Theorem widget_border_style_not_examined
    (dg : Delegates) (fuel : nat) (xRefTable : XRefTable) (dict : Dict) (v : PDFObject) :
  resolve xRefTable dict "Subtype" = Some (PDFName "Widget") ->
  validateAdditionalActions dg xRefTable (<["BS" := v]> dict) "Widget" "AA" OPTIONAL V12
    "fieldOrAnnot"
  = validateAdditionalActions dg xRefTable dict "Widget" "AA" OPTIONAL V12 "fieldOrAnnot" ->
  Pdfcpu.validateAnnotationDict dg fuel xRefTable (<["BS" := v]> dict)
  = Pdfcpu.validateAnnotationDict dg fuel xRefTable dict /\
  Validate.validateAnnotationDict dg fuel xRefTable (<["BS" := v]> dict)
  = Validate.validateAnnotationDict dg fuel xRefTable dict.
Proof.
  intros Hs Hdg. unfold_bodies. split; general_unchanged Hs.
  - rewrite !(pdfcpu_lookupDescriptor_table dg "Widget" _ eq_refl).
    cbn [Pdfcpu.validate Pdfcpu.markup Pdfcpu.sinceVersion].
    unfold Pdfcpu.validateAnnotationDictWidget. rewrite Hdg.
    other_entries. reflexivity.
  - rewrite !(validate_lookupDescriptor_table dg "Widget" _ eq_refl).
    cbn [Validate.validate Validate.markup Validate.sinceVersion].
    unfold Validate.validateAnnotationDictWidget. rewrite Hdg.
    other_entries. reflexivity.
Qed.

Lemma widget_border_style_not_examined_witness :
  Pdfcpu.validateAnnotationDict acceptAll 0 (emptyTable V12 ValidationStrict)
    (<["BS" := PDFInteger 7]> (minimalAnnot true "Widget"))
  = Pdfcpu.validateAnnotationDict acceptAll 0 (emptyTable V12 ValidationStrict)
      (minimalAnnot true "Widget") /\
  Validate.validateAnnotationDict acceptAll 0 (emptyTable V12 ValidationStrict)
    (<["BS" := PDFInteger 7]> (minimalAnnot true "Widget"))
  = Validate.validateAnnotationDict acceptAll 0 (emptyTable V12 ValidationStrict)
      (minimalAnnot true "Widget").
Proof.
  apply (widget_border_style_not_examined acceptAll 0 (emptyTable V12 ValidationStrict)
           (minimalAnnot true "Widget") (PDFInteger 7)); reflexivity.
Defined.

(** ** Where the recursion is *)

Lemma pdfcpu_isMarkup dg s k d :
  Pdfcpu.lookupDescriptor s (Pdfcpu.annotationTable dg) = Some (k, d) ->
  isMarkup s = Pdfcpu.markup d.
Proof.
  unfold isMarkup. cbn.
  repeat match goal with
         | |- context [String.eqb s ?k'] => destruct (String.eqb s k')
         end;
    first [discriminate | intros [= <- <-]; reflexivity].
Qed.

Lemma validate_isMarkup dg s k d :
  Validate.lookupDescriptor s (Validate.annotationTable dg) = Some (k, d) ->
  isMarkup s = Validate.markup d.
Proof.
  unfold isMarkup. cbn.
  repeat match goal with
         | |- context [String.eqb s ?k'] => destruct (String.eqb s k')
         end;
    first [discriminate | intros [= <- <-]; reflexivity].
Qed.

Section NoRecursion.
Variable dg : Delegates.
Variables rec rec' : XRefTable -> Dict -> Result bool.
Variable xRefTable : XRefTable.
Variable dict : Dict.

Lemma validatePopupEntry_absent dictName entryName sinceVersion :
  dict !! entryName = None ->
  Shared.validatePopupEntry rec xRefTable dict dictName entryName OPTIONAL sinceVersion
  = Ok tt.
Proof.
  intros H. unfold Shared.validatePopupEntry, validateDictEntry.
  rewrite (validateKindEntry_absent _ _ _ _ _ _ _ _ H). reflexivity.
Qed.

Lemma validateIRTEntry_absent dictName entryName sinceVersion :
  dict !! entryName = None ->
  Shared.validateIRTEntry rec xRefTable dict dictName entryName OPTIONAL sinceVersion
  = Ok tt.
Proof.
  intros H. unfold Shared.validateIRTEntry, validateDictEntry.
  rewrite (validateKindEntry_absent _ _ _ _ _ _ _ _ H). reflexivity.
Qed.

Lemma validateAnnotationDictSpecial_absent dictName :
  dict !! "AAPL:AKExtras" = None ->
  Shared.validateAnnotationDictSpecial rec xRefTable dict dictName = Ok tt.
Proof.
  intros H.
  unfold Shared.validateAnnotationDictSpecial, Shared.validateAAPLAKExtrasDictEntry,
    validateDictEntry.
  rewrite (validateKindEntry_absent _ _ _ _ _ _ _ _ H). reflexivity.
Qed.

End NoRecursion.

Lemma body_without_recursion dg rec rec' xRefTable (dict : Dict) :
  dict !! "AAPL:AKExtras" = None ->
  (dict !! "Popup" = None /\ dict !! "IRT" = None) \/
  (exists s, resolve xRefTable dict "Subtype" = Some (PDFName s) /\ isMarkup s = false) ->
  Pdfcpu.validateAnnotationDictBody dg rec xRefTable dict
  = Pdfcpu.validateAnnotationDictBody dg rec' xRefTable dict /\
  Validate.validateAnnotationDictBody dg rec xRefTable dict
  = Validate.validateAnnotationDictBody dg rec' xRefTable dict.
Proof.
  intros Hx Hm.
  unfold Pdfcpu.validateAnnotationDictBody, Validate.validateAnnotationDictBody.
  rewrite !validateAnnotationDictSpecial_absent by exact Hx.
  destruct (Shared.validateAnnotationDictGeneral dg xRefTable dict "annotDict")
    as [[s|]| | |] eqn:Hg; try (split; reflexivity).
  rewrite !bind_Ok. cbv beta iota.
  apply general_Ok_subtype in Hg as (s' & [= <-] & Hs).
  unfold Pdfcpu.validateAnnotationDictConcrete, Validate.validateAnnotationDictConcrete.
  split.
  - destruct (Pdfcpu.lookupDescriptor s (Pdfcpu.annotationTable dg)) as [[k d]|] eqn:E;
      [|reflexivity].
    apply pdfcpu_isMarkup in E. destruct (Pdfcpu.markup d); [|reflexivity].
    destruct Hm as [[Hp Hi] | (s' & Hs' & Hf)]; [|congruence].
    unfold Pdfcpu.validateMarkupAnnotation.
    rewrite !validatePopupEntry_absent, !validateIRTEntry_absent by assumption.
    reflexivity.
  - destruct (Validate.lookupDescriptor s (Validate.annotationTable dg)) as [[k d]|] eqn:E;
      [|reflexivity].
    apply validate_isMarkup in E. destruct (Validate.markup d); [|reflexivity].
    destruct Hm as [[Hp Hi] | (s' & Hs' & Hf)]; [|congruence].
    unfold Validate.validateMarkupAnnotation.
    rewrite !validatePopupEntry_absent, !validateIRTEntry_absent by assumption.
    reflexivity.
Qed.

(** X13: [validateAnnotationDict] calls itself only through the entries
    "Popup" and "IRT" of a markup annotation and through "AAPL:AKExtras".
    On a dictionary without "AAPL:AKExtras" that has neither "Popup" nor
    "IRT", or whose subtype is not a markup subtype, the body makes no
    recursive call: its result is the same whatever the recursive call would
    return, so validation returns without any fuel.  Both revisions. *)
Theorem annotation_without_popup_irt_extras_is_validated_without_recursion
    (dg : Delegates) (xRefTable : XRefTable) (dict : Dict) :
  dict !! "AAPL:AKExtras" = None ->
  (dict !! "Popup" = None /\ dict !! "IRT" = None) \/
  (exists s, resolve xRefTable dict "Subtype" = Some (PDFName s) /\ isMarkup s = false) ->
  (forall rec rec',
     Pdfcpu.validateAnnotationDictBody dg rec xRefTable dict
     = Pdfcpu.validateAnnotationDictBody dg rec' xRefTable dict /\
     Validate.validateAnnotationDictBody dg rec xRefTable dict
     = Validate.validateAnnotationDictBody dg rec' xRefTable dict) /\
  (forall fuel,
     Pdfcpu.validateAnnotationDict dg fuel xRefTable dict
     = Pdfcpu.validateAnnotationDict dg 0 xRefTable dict /\
     Validate.validateAnnotationDict dg fuel xRefTable dict
     = Validate.validateAnnotationDict dg 0 xRefTable dict).
Proof.
  intros Hx Hm. split.
  - intros rec rec'. exact (body_without_recursion dg rec rec' xRefTable dict Hx Hm).
  - intros fuel.
    rewrite !pdfcpu_validateAnnotationDict_unfold, !validate_validateAnnotationDict_unfold.
    split; apply (body_without_recursion dg _ _ xRefTable dict Hx Hm).
Qed.

Lemma annotation_without_popup_irt_extras_is_validated_without_recursion_witness :
  Pdfcpu.validateAnnotationDict acceptAll 5 (selfReplyTable V15 ValidationStrict)
    (annot "Link" [("IRT", PDFIndirectRef 1 0)])
  = Pdfcpu.validateAnnotationDict acceptAll 0 (selfReplyTable V15 ValidationStrict)
      (annot "Link" [("IRT", PDFIndirectRef 1 0)]) /\
  Validate.validateAnnotationDict acceptAll 5 (selfReplyTable V15 ValidationStrict)
    (annot "Link" [("IRT", PDFIndirectRef 1 0)])
  = Validate.validateAnnotationDict acceptAll 0 (selfReplyTable V15 ValidationStrict)
      (annot "Link" [("IRT", PDFIndirectRef 1 0)]).
Proof.
  refine (proj2 (annotation_without_popup_irt_extras_is_validated_without_recursion
                   acceptAll (selfReplyTable V15 ValidationStrict)
                   (annot "Link" [("IRT", PDFIndirectRef 1 0)]) eq_refl _) 5).
  right. exists "Link". split; reflexivity.
Defined.

(** ** Line annotations *)

Lemma accepted_subtype_validator dg fuel xRefTable (dict : Dict) b s :
  Pdfcpu.validateAnnotationDict dg fuel xRefTable dict = Ok b \/
  Validate.validateAnnotationDict dg fuel xRefTable dict = Ok b ->
  resolve xRefTable dict "Subtype" = Some (PDFName s) ->
  (exists d, Pdfcpu.lookupDescriptor s (Pdfcpu.annotationTable dg) = Some (s, d) /\
             Pdfcpu.validate d xRefTable dict s = Ok tt) \/
  (exists d, Validate.lookupDescriptor s (Validate.annotationTable dg) = Some (s, d) /\
             Validate.validate d xRefTable dict s (Validate.sinceVersion d) = Ok tt).
Proof.
  intros [H | H] Hs.
  - rewrite pdfcpu_validateAnnotationDict_unfold in H.
    apply pdfcpu_body_Ok_inv in H as (s' & d & Hg & _ & _ & _ & Hval & _ & _ & Hlk).
    apply general_Ok_subtype in Hg as (? & [= <-] & Hg). rewrite Hs in Hg.
    injection Hg as <-. left. eauto.
  - rewrite validate_validateAnnotationDict_unfold in H.
    apply validate_body_Ok_inv in H as (s' & d & Hg & _ & _ & _ & Hval & _ & _ & Hlk).
    apply general_Ok_subtype in Hg as (? & [= <-] & Hg). rewrite Hs in Hg.
    injection Hg as <-. right. eauto.
Qed.

Lemma line_entries xRefTable (dict : Dict) dictName l lle ll :
  validateNumberArrayEntry xRefTable dict dictName "L" REQUIRED V10
    (Some (fun a => Nat.eqb (length a) 4)) = Ok l ->
  validateNumberEntry xRefTable dict dictName "LLE" OPTIONAL V16
    (Some (fun f => negb (Qle_bool f 0%Q))) = Ok lle ->
  validateNumberEntry xRefTable dict dictName "LL"
    (match lle with Some _ => true | None => false end) V16 None = Ok ll ->
  (exists a, resolve xRefTable dict "L" = Some (PDFArray a) /\ length a = 4) /\
  (forall o, resolve xRefTable dict "LLE" = Some o -> o <> PDFNull ->
     versionLe V16 (Version xRefTable) = true /\
     (exists q, asNumber o = Some q /\ (0 < q)%Q) /\
     (exists o' q', resolve xRefTable dict "LL" = Some o' /\ asNumber o' = Some q')).
Proof.
  intros HL HLLE HLL. split.
  - destruct (validateKindEntry_required _ _ _ _ _ _ _ _ HL) as [arr ->].
    apply validateKindEntry_Ok_Some in HL as (o & Ho & _ & Hc & _ & Hp).
    apply asArrayOf_Some in Hc as [-> _]. apply Nat.eqb_eq in Hp. eauto.
  - intros o Ho Hn.
    destruct (validateKindEntry_Ok_resolved _ _ _ _ _ _ _ _ _ _ HLLE Ho Hn)
      as (q & -> & Hc & Hv & Hp).
    destruct (validateKindEntry_required _ _ _ _ _ _ _ _ HLL) as [q' ->].
    apply validateKindEntry_Ok_Some in HLL as (o' & Ho' & _ & Hc' & _).
    repeat split.
    + rewrite versionLt_le in Hv. destruct (versionLe _ _); [reflexivity|discriminate].
    + exists q. split; [exact Hc|]. apply Qnot_le_lt. intros Hle.
      apply Qle_bool_iff in Hle. rewrite Hle in Hp. discriminate.
    + eauto.
Qed.

(** X14: an accepted Line annotation has an "L" entry that resolves to an
    array of four elements, and when it has a leader line extension "LLE",
    the document is of version 1.6 or later, "LLE" is a number above zero
    and the leader line length "LL" is there and is a number: "LL" is
    required exactly when "LLE" is present.  Both revisions. *)
Theorem accepted_line_annotation
    (dg : Delegates) (fuel : nat) (xRefTable : XRefTable) (dict : Dict) (b : bool) :
  Pdfcpu.validateAnnotationDict dg fuel xRefTable dict = Ok b \/
  Validate.validateAnnotationDict dg fuel xRefTable dict = Ok b ->
  resolve xRefTable dict "Subtype" = Some (PDFName "Line") ->
  (exists a, resolve xRefTable dict "L" = Some (PDFArray a) /\ length a = 4) /\
  (forall o, resolve xRefTable dict "LLE" = Some o -> o <> PDFNull ->
     versionLe V16 (Version xRefTable) = true /\
     (exists q, asNumber o = Some q /\ (0 < q)%Q) /\
     (exists o' q', resolve xRefTable dict "LL" = Some o' /\ asNumber o' = Some q')).
Proof.
  intros H Hs.
  destruct (accepted_subtype_validator _ _ _ _ _ _ H Hs)
    as [(d & Hlk & Hval) | (d & Hlk & Hval)].
  - change (Pdfcpu.lookupDescriptor "Line" (Pdfcpu.annotationTable dg))
      with (Some ("Line", Pdfcpu.mkDescriptor (Pdfcpu.validateAnnotationDictLine dg) V13 true))
      in Hlk.
    injection Hlk as <-. cbn [Pdfcpu.validate] in Hval.
    unfold Pdfcpu.validateAnnotationDictLine in Hval. binds Hval.
    eapply line_entries; eassumption.
  - change (Validate.lookupDescriptor "Line" (Validate.annotationTable dg))
      with (Some ("Line",
                  Validate.mkDescriptor (Validate.validateAnnotationDictLine dg) V13 true))
      in Hlk.
    injection Hlk as <-. cbn [Validate.validate Validate.sinceVersion] in Hval.
    unfold Validate.validateAnnotationDictLine in Hval. binds Hval.
    eapply line_entries; eassumption.
Qed.

Lemma accepted_line_annotation_witness :
  (exists a, resolve (emptyTable V16 ValidationStrict) lineWithLeaders "L"
             = Some (PDFArray a) /\ length a = 4) /\
  (forall o, resolve (emptyTable V16 ValidationStrict) lineWithLeaders "LLE" = Some o ->
     o <> PDFNull ->
     versionLe V16 V16 = true /\
     (exists q, asNumber o = Some q /\ (0 < q)%Q) /\
     (exists o' q', resolve (emptyTable V16 ValidationStrict) lineWithLeaders "LL" = Some o' /\
                    asNumber o' = Some q')).
Proof.
  apply (accepted_line_annotation acceptAll 0 (emptyTable V16 ValidationStrict)
           lineWithLeaders false); [left|]; reflexivity.
Defined.

(** ** The annotations behind an accepted annotation *)

Lemma asDict_Some o d : asDict o = Some d -> o = PDFDict d.
Proof. destruct o; try discriminate. intros [= ->]. reflexivity. Qed.

Lemma validateDictEntry_resolved_dict xRefTable (dict : Dict) dictName entryName
    required sinceVersion r target :
  validateDictEntry xRefTable dict dictName entryName required sinceVersion None = Ok r ->
  resolve xRefTable dict entryName = Some (PDFDict target) ->
  r = Some target.
Proof.
  intros H Hr.
  destruct (validateKindEntry_Ok_resolved _ _ _ _ _ _ _ _ _ _ H Hr) as (d & -> & Hc & _);
    [discriminate|].
  injection Hc as ->. reflexivity.
Qed.

Section Targets.
Variable rec : XRefTable -> Dict -> Result bool.
Variable xRefTable : XRefTable.
Variable dict : Dict.

Lemma validateIRTEntry_Ok dictName entryName required sinceVersion target :
  Shared.validateIRTEntry rec xRefTable dict dictName entryName required sinceVersion
  = Ok tt ->
  resolve xRefTable dict entryName = Some (PDFDict target) ->
  exists b, rec xRefTable target = Ok b.
Proof.
  unfold Shared.validateIRTEntry. intros H Hr.
  apply bind_eq_Ok in H as (r & Hd & H).
  rewrite (validateDictEntry_resolved_dict _ _ _ _ _ _ _ _ Hd Hr) in H.
  apply bind_eq_Ok in H as (b & Hb & _). eauto.
Qed.

Lemma validatePopupEntry_Ok dictName entryName required sinceVersion target :
  Shared.validatePopupEntry rec xRefTable dict dictName entryName required sinceVersion
  = Ok tt ->
  resolve xRefTable dict entryName = Some (PDFDict target) ->
  resolve xRefTable target "Subtype" = Some (PDFName "Popup") /\
  exists b, rec xRefTable target = Ok b.
Proof.
  unfold Shared.validatePopupEntry. intros H Hr.
  apply bind_eq_Ok in H as (r & Hd & H).
  rewrite (validateDictEntry_resolved_dict _ _ _ _ _ _ _ _ Hd Hr) in H.
  apply bind_eq_Ok in H as (s & Hs & H). apply bind_eq_Ok in H as (b & Hb & _).
  destruct (validateKindEntry_required _ _ _ _ _ _ _ _ Hs) as [name ->].
  apply validateKindEntry_Ok_Some in Hs as (o & Ho & _ & Hc & _ & Hp).
  apply asName_Some in Hc as ->. apply String.eqb_eq in Hp as ->. eauto.
Qed.

Lemma validateAnnotationDictSpecial_Ok dictName extras target :
  Shared.validateAnnotationDictSpecial rec xRefTable dict dictName = Ok tt ->
  resolve xRefTable dict "AAPL:AKExtras" = Some (PDFDict extras) ->
  resolve xRefTable extras "AAPL:AKPDFAnnotationDictionary" = Some (PDFDict target) ->
  exists b, rec xRefTable target = Ok b.
Proof.
  unfold Shared.validateAnnotationDictSpecial, Shared.validateAAPLAKExtrasDictEntry.
  intros H Hr Ht.
  apply bind_eq_Ok in H as (r & Hd & H).
  rewrite (validateDictEntry_resolved_dict _ _ _ _ _ _ _ _ Hd Hr) in H.
  apply bind_eq_Ok in H as (s & _ & H). apply bind_eq_Ok in H as (ad & Had & H).
  rewrite (validateDictEntry_resolved_dict _ _ _ _ _ _ _ _ Had Ht) in H.
  apply bind_eq_Ok in H as (b & Hb & _). eauto.
Qed.

End Targets.

(** X15: acceptance is handed down.  When [validateAnnotationDict] accepts
    a dictionary, the annotation dictionary under "AAPL:AKExtras" has been
    accepted by a recursive call, and for a markup subtype so have the
    dictionaries that "IRT" and "Popup" resolve to, the latter being of
    subtype "Popup".  Both revisions. *)
Theorem accepted_annotation_has_accepted_targets
    (dg : Delegates) (fuel : nat) (xRefTable : XRefTable) (dict : Dict) (b : bool)
    (s : string) (target : Dict) :
  resolve xRefTable dict "Subtype" = Some (PDFName s) ->
  (Pdfcpu.validateAnnotationDict dg fuel xRefTable dict = Ok b ->
   (forall extras,
      resolve xRefTable dict "AAPL:AKExtras" = Some (PDFDict extras) ->
      resolve xRefTable extras "AAPL:AKPDFAnnotationDictionary" = Some (PDFDict target) ->
      exists fuel' b', fuel = S fuel' /\
        Pdfcpu.validateAnnotationDict dg fuel' xRefTable target = Ok b') /\
   (isMarkup s = true ->
    resolve xRefTable dict "IRT" = Some (PDFDict target) ->
    exists fuel' b', fuel = S fuel' /\
      Pdfcpu.validateAnnotationDict dg fuel' xRefTable target = Ok b') /\
   (isMarkup s = true ->
    resolve xRefTable dict "Popup" = Some (PDFDict target) ->
    resolve xRefTable target "Subtype" = Some (PDFName "Popup") /\
    exists fuel' b', fuel = S fuel' /\
      Pdfcpu.validateAnnotationDict dg fuel' xRefTable target = Ok b')) /\
  (Validate.validateAnnotationDict dg fuel xRefTable dict = Ok b ->
   (forall extras,
      resolve xRefTable dict "AAPL:AKExtras" = Some (PDFDict extras) ->
      resolve xRefTable extras "AAPL:AKPDFAnnotationDictionary" = Some (PDFDict target) ->
      exists fuel' b', fuel = S fuel' /\
        Validate.validateAnnotationDict dg fuel' xRefTable target = Ok b') /\
   (isMarkup s = true ->
    resolve xRefTable dict "IRT" = Some (PDFDict target) ->
    exists fuel' b', fuel = S fuel' /\
      Validate.validateAnnotationDict dg fuel' xRefTable target = Ok b') /\
   (isMarkup s = true ->
    resolve xRefTable dict "Popup" = Some (PDFDict target) ->
    resolve xRefTable target "Subtype" = Some (PDFName "Popup") /\
    exists fuel' b', fuel = S fuel' /\
      Validate.validateAnnotationDict dg fuel' xRefTable target = Ok b')).
Proof.
  intros Hs. split; intros H.
  - rewrite pdfcpu_validateAnnotationDict_unfold in H.
    apply pdfcpu_body_Ok_inv in H as (s' & d & Hg & _ & _ & Hm & _ & Hx & _ & Hlk).
    apply general_Ok_subtype in Hg as (? & [= <-] & Hg). rewrite Hs in Hg.
    injection Hg as <-. apply pdfcpu_isMarkup in Hlk. rewrite <- Hlk in Hm.
    split; [|split].
    + intros extras He Ht.
      destruct (validateAnnotationDictSpecial_Ok _ _ _ _ _ _ Hx He Ht) as (b' & Hb).
      destruct fuel as [|fuel']; [discriminate|]. eauto.
    + intros Hmk Hr. rewrite Hmk in Hm. unfold Pdfcpu.validateMarkupAnnotation in Hm.
      binds Hm.
      match goal with
      | H : Shared.validateIRTEntry _ _ _ _ _ _ _ = Ok ?u |- _ =>
          destruct u; destruct (validateIRTEntry_Ok _ _ _ _ _ _ _ _ H Hr) as (b' & Hb)
      end.
      destruct fuel as [|fuel']; [discriminate|]. eauto.
    + intros Hmk Hr. rewrite Hmk in Hm. unfold Pdfcpu.validateMarkupAnnotation in Hm.
      binds Hm.
      match goal with
      | H : Shared.validatePopupEntry _ _ _ _ _ _ _ = Ok ?u |- _ =>
          destruct u;
          destruct (validatePopupEntry_Ok _ _ _ _ _ _ _ _ H Hr) as (Hp & b' & Hb)
      end.
      destruct fuel as [|fuel']; [discriminate|]. eauto.
  - rewrite validate_validateAnnotationDict_unfold in H.
    apply validate_body_Ok_inv in H as (s' & d & Hg & _ & _ & Hm & _ & Hx & _ & Hlk).
    apply general_Ok_subtype in Hg as (? & [= <-] & Hg). rewrite Hs in Hg.
    injection Hg as <-. apply validate_isMarkup in Hlk. rewrite <- Hlk in Hm.
    split; [|split].
    + intros extras He Ht.
      destruct (validateAnnotationDictSpecial_Ok _ _ _ _ _ _ Hx He Ht) as (b' & Hb).
      destruct fuel as [|fuel']; [discriminate|]. eauto.
    + intros Hmk Hr. rewrite Hmk in Hm. unfold Validate.validateMarkupAnnotation in Hm.
      binds Hm.
      match goal with
      | H : Shared.validateIRTEntry _ _ _ _ _ _ _ = Ok ?u |- _ =>
          destruct u; destruct (validateIRTEntry_Ok _ _ _ _ _ _ _ _ H Hr) as (b' & Hb)
      end.
      destruct fuel as [|fuel']; [discriminate|]. eauto.
    + intros Hmk Hr. rewrite Hmk in Hm. unfold Validate.validateMarkupAnnotation in Hm.
      binds Hm.
      match goal with
      | H : Shared.validatePopupEntry _ _ _ _ _ _ _ = Ok ?u |- _ =>
          destruct u;
          destruct (validatePopupEntry_Ok _ _ _ _ _ _ _ _ H Hr) as (Hp & b' & Hb)
      end.
      destruct fuel as [|fuel']; [discriminate|]. eauto.
Qed.

Lemma accepted_annotation_has_accepted_targets_witness :
  resolve (cycleTable V13 ValidationStrict) cycleB "Subtype" = Some (PDFName "Popup") /\
  exists fuel' b', 1 = S fuel' /\
    Pdfcpu.validateAnnotationDict acceptAll fuel' (cycleTable V13 ValidationStrict) cycleB
    = Ok b'.
Proof.
  refine (proj2 (proj2 (proj1 (accepted_annotation_has_accepted_targets acceptAll 1
            (cycleTable V13 ValidationStrict) cycleA false "Text" cycleB eq_refl) eq_refl))
            eq_refl eq_refl).
Defined.

(** ** Text markup annotations *)

Lemma quadPoints_entry xRefTable (dict : Dict) dictName r :
  validateNumberArrayEntry xRefTable dict dictName "QuadPoints" REQUIRED V10
    (Some (fun a => Nat.eqb (length a) 8)) = Ok r ->
  exists a, resolve xRefTable dict "QuadPoints" = Some (PDFArray a) /\ length a = 8 /\
            Forall (fun e => resolvesTo xRefTable asNumber e = true) a.
Proof.
  intros H. destruct (validateKindEntry_required _ _ _ _ _ _ _ _ H) as [arr ->].
  apply validateKindEntry_Ok_Some in H as (o & Ho & _ & Hc & _ & Hp).
  apply asArrayOf_Some in Hc as [-> Hnum]. apply Nat.eqb_eq in Hp.
  exists arr. repeat split; trivial.
  apply List.Forall_forall. intros e He. exact (proj1 (forallb_forall _ _) Hnum e He).
Qed.

(** X16: an accepted Highlight, Underline, Squiggly or StrikeOut annotation
    has a "QuadPoints" entry that resolves to an array of exactly eight
    numbers: one quadrilateral, no more.  Both revisions. *)
Theorem accepted_text_markup_annotation_has_one_quadrilateral
    (dg : Delegates) (fuel : nat) (xRefTable : XRefTable) (dict : Dict) (b : bool)
    (s : string) :
  In s textMarkupSubtypes ->
  resolve xRefTable dict "Subtype" = Some (PDFName s) ->
  Pdfcpu.validateAnnotationDict dg fuel xRefTable dict = Ok b \/
  Validate.validateAnnotationDict dg fuel xRefTable dict = Ok b ->
  exists a, resolve xRefTable dict "QuadPoints" = Some (PDFArray a) /\ length a = 8 /\
            Forall (fun e => resolvesTo xRefTable asNumber e = true) a.
Proof.
  intros Hin Hs H.
  destruct (accepted_subtype_validator _ _ _ _ _ _ H Hs)
    as [(d & Hlk & Hval) | (d & Hlk & Hval)];
    [apply lookupDescriptor_pdfcpu_In in Hlk as [_ Hlk]
    |apply lookupDescriptor_validate_In in Hlk as [_ Hlk]];
    cbn in Hin; repeat (destruct Hin as [<- | Hin]); try contradiction;
    cbn in Hlk;
    repeat (destruct Hlk as [Hlk | Hlk]; [try discriminate Hlk; injection Hlk as <-|]);
    try contradiction;
    cbn [Pdfcpu.validate Validate.validate Validate.sinceVersion] in Hval;
    unfold Pdfcpu.validateTextMarkupAnnotation, Validate.validateTextMarkupAnnotation,
      discard in Hval;
    binds Hval; eapply quadPoints_entry; eassumption.
Qed.

Lemma accepted_text_markup_annotation_has_one_quadrilateral_witness :
  exists a, resolve (emptyTable V13 ValidationStrict) (minimalAnnot true "Highlight")
              "QuadPoints" = Some (PDFArray a) /\ length a = 8 /\
            Forall (fun e => resolvesTo (emptyTable V13 ValidationStrict) asNumber e = true) a.
Proof.
  apply (accepted_text_markup_annotation_has_one_quadrilateral acceptAll 0
           (emptyTable V13 ValidationStrict) (minimalAnnot true "Highlight") false
           "Highlight"); [left; reflexivity|reflexivity|left; reflexivity].
Defined.

(** ** Version floors and required entries *)

Ltac all_binds :=
  repeat match goal with
         | H : (_ ≫= _) = Ok _ |- _ =>
             apply bind_eq_Ok in H;
             let a := fresh "a" in
             let Ha := fresh "Ha" in
             destruct H as (a & Ha & H)
         end.

Lemma versionLt_false_le (v floor : PDFVersion) :
  versionLt v floor = false -> versionLe floor v = true.
Proof. destruct v, floor; cbn; congruence. Qed.

Ltac floor_of_entry Ho Hn :=
  match goal with
  | H : validateKindEntry _ _ _ _ ?k _ ?f _ = Ok _ |- versionLe ?f _ = true =>
      match type of Ho with
      | resolve _ _ k = _ =>
          destruct (validateKindEntry_Ok_resolved _ _ _ _ _ _ _ _ _ _ H Ho Hn)
            as (? & _ & _ & Hlt & _);
          exact (versionLt_false_le _ _ Hlt)
      end
  end.

Lemma general_floors dg xRefTable (dict : Dict) dictName r key floor o :
  Shared.validateAnnotationDictGeneral dg xRefTable dict dictName = Ok r ->
  In (key, floor) generalFloors ->
  resolve xRefTable dict key = Some o -> o <> PDFNull ->
  versionLe floor (Version xRefTable) = true.
Proof.
  intros H Hin Ho Hn.
  unfold Shared.validateAnnotationDictGeneral, Shared.validateAppearDictEntry,
    Shared.validateOptionalContent in H.
  unfold validateBooleanEntry, validateNameEntry, validateIntegerEntry,
    validateNumberEntry, validateStringEntry, validateDictEntry,
    validateNumberArrayEntry, validateRectangleEntry in H.
  all_binds.
  cbn in Hin.
  repeat (destruct Hin as [Hin | Hin]; [injection Hin as <- <-; floor_of_entry Ho Hn|]).
  contradiction.
Qed.

Lemma pdfcpu_markup_floors dg rec xRefTable (dict : Dict) key floor o :
  Pdfcpu.validateMarkupAnnotation dg rec xRefTable dict = Ok tt ->
  In (key, floor) markupFloors ->
  resolve xRefTable dict key = Some o -> o <> PDFNull ->
  versionLe floor (Version xRefTable) = true.
Proof.
  intros H Hin Ho Hn.
  unfold Pdfcpu.validateMarkupAnnotation, Shared.validatePopupEntry,
    Shared.validateIRTEntry in H.
  unfold validateNameEntry, validateNumberEntry, validateStringEntry, validateDictEntry,
    validateStringOrStreamEntry, validateDateEntry, discard in H.
  all_binds.
  cbn in Hin.
  repeat (destruct Hin as [Hin | Hin]; [injection Hin as <- <-; floor_of_entry Ho Hn|]).
  contradiction.
Qed.

Lemma validate_markup_floors dg rec xRefTable (dict : Dict) key floor o :
  Validate.validateMarkupAnnotation dg rec xRefTable dict = Ok tt ->
  In (key, floor) markupFloors ->
  resolve xRefTable dict key = Some o -> o <> PDFNull ->
  versionLe floor (Version xRefTable) = true.
Proof.
  intros H Hin Ho Hn.
  unfold Validate.validateMarkupAnnotation, Shared.validatePopupEntry,
    Shared.validateIRTEntry in H.
  unfold validateNameEntry, validateNumberEntry, validateStringEntry, validateDictEntry,
    validateStringOrStreamEntry, validateDateEntry, discard in H.
  all_binds.
  cbn in Hin.
  repeat (destruct Hin as [Hin | Hin]; [injection Hin as <- <-; floor_of_entry Ho Hn|]).
  contradiction.
Qed.

(** X17: in an accepted annotation every entry that has a version floor and
    is present (resolves to an object other than null) meets its floor:
    "NM" 1.4, "M", "F", "AS" and "C" 1.1, "AP" 1.2, "StructParent" 1.3 and
    "OC" 1.5 for every subtype, and for the markup subtypes "T" 1.1, "Popup"
    1.3, "CA" 1.4, "RC", "CreationDate" and "IRT" 1.5, "RT" and "IT" 1.6 and
    "ExData" 1.7.  Both revisions, both validation modes. *)
Theorem accepted_annotation_entries_meet_their_floors
    (dg : Delegates) (fuel : nat) (xRefTable : XRefTable) (dict : Dict) (b : bool)
    (s key : string) (floor : PDFVersion) (o : PDFObject) :
  Pdfcpu.validateAnnotationDict dg fuel xRefTable dict = Ok b \/
  Validate.validateAnnotationDict dg fuel xRefTable dict = Ok b ->
  resolve xRefTable dict "Subtype" = Some (PDFName s) ->
  In (key, floor) generalFloors \/ (isMarkup s = true /\ In (key, floor) markupFloors) ->
  resolve xRefTable dict key = Some o -> o <> PDFNull ->
  versionLe floor (Version xRefTable) = true.
Proof.
  intros [H | H] Hs Hin Ho Hn.
  - rewrite pdfcpu_validateAnnotationDict_unfold in H.
    apply pdfcpu_body_Ok_inv in H as (s' & d & Hg & _ & _ & Hm & _ & _ & _ & Hlk).
    destruct Hin as [Hin | [Hmk Hin]]; [exact (general_floors _ _ _ _ _ _ _ _ Hg Hin Ho Hn)|].
    apply general_Ok_subtype in Hg as (? & [= <-] & Hg). rewrite Hs in Hg.
    injection Hg as <-. apply pdfcpu_isMarkup in Hlk. rewrite <- Hlk, Hmk in Hm.
    exact (pdfcpu_markup_floors _ _ _ _ _ _ _ Hm Hin Ho Hn).
  - rewrite validate_validateAnnotationDict_unfold in H.
    apply validate_body_Ok_inv in H as (s' & d & Hg & _ & _ & Hm & _ & _ & _ & Hlk).
    destruct Hin as [Hin | [Hmk Hin]]; [exact (general_floors _ _ _ _ _ _ _ _ Hg Hin Ho Hn)|].
    apply general_Ok_subtype in Hg as (? & [= <-] & Hg). rewrite Hs in Hg.
    injection Hg as <-. apply validate_isMarkup in Hlk. rewrite <- Hlk, Hmk in Hm.
    exact (validate_markup_floors _ _ _ _ _ _ _ Hm Hin Ho Hn).
Qed.

Lemma accepted_annotation_entries_meet_their_floors_witness :
  versionLe V11 V13 = true.
Proof.
  apply (accepted_annotation_entries_meet_their_floors acceptAll 0
           (emptyTable V13 ValidationStrict) trapNetAnnot true "TrapNet" "F" V11
           (PDFInteger 0)).
  - left. reflexivity.
  - reflexivity.
  - left. right. right. left. reflexivity.
  - reflexivity.
  - discriminate.
Defined.

Ltac required_entry :=
  match goal with
  | H : validateKindEntry _ _ _ _ ?k REQUIRED _ _ = Ok ?r
    |- exists o, resolve _ _ ?k = Some o /\ o <> PDFNull =>
      let a := fresh "a" in
      let o := fresh "o" in
      let Ho := fresh "Ho" in
      let Hn := fresh "Hn" in
      destruct (validateKindEntry_required _ _ _ _ _ _ _ _ H) as [a ->];
      apply validateKindEntry_Ok_Some in H as (o & Ho & Hn & _);
      exists o; split; [exact Ho | exact Hn]
  end.

Ltac required_entries Hval Hk :=
  cbn [Pdfcpu.validate Validate.validate Validate.sinceVersion] in Hval;
  cbn in Hk;
  repeat (destruct Hk as [<- | Hk]); try contradiction;
  unfold Pdfcpu.validateAnnotationDictFreeText, Pdfcpu.validateAnnotationDictFreeTextPart1,
    Pdfcpu.validateAnnotationDictLine, Pdfcpu.validateAnnotationDictPolyLine,
    Pdfcpu.validateTextMarkupAnnotation, Pdfcpu.validateAnnotationDictInk,
    Pdfcpu.validateAnnotationDictMovie, Pdfcpu.validateAnnotationDictPrinterMark,
    Pdfcpu.validateAnnotationDictTrapNet, Pdfcpu.validateAnnotationDict3D,
    Pdfcpu.validateAnnotationDictRedact,
    Validate.validateAnnotationDictFreeText, Validate.validateAnnotationDictFreeTextPart1,
    Validate.validateAnnotationDictLine, Validate.validateAnnotationDictPolyLine,
    Validate.validateTextMarkupAnnotation, Validate.validateAnnotationDictInk,
    Validate.validateAnnotationDictMovie, Validate.validateAnnotationDictPrinterMark,
    Validate.validateAnnotationDictTrapNet, Validate.validateAnnotationDict3D,
    Validate.validateAnnotationDictRedact, Shared.validateAppearDictEntry in Hval;
  unfold validateStringEntry, validateNumberArrayEntry, validateArrayArrayEntry,
    validateDictEntry, validateIntegerEntry, validateStreamDictOrDictEntry,
    discard in Hval;
  all_binds; required_entry.

(** X18: an accepted annotation has every entry its subtype validator reads
    as required: "DA" for FreeText and Redact, "L" for Line, "Vertices" for
    Polygon and PolyLine, "QuadPoints" for the four text markup subtypes,
    "InkList" for Ink, "Movie" for Movie, "F" and "AP" for PrinterMark, "F"
    for TrapNet and "3DD" for 3D.  Each of them resolves to an object other
    than null.  Both revisions. *)
Theorem accepted_annotation_has_required_entries
    (dg : Delegates) (fuel : nat) (xRefTable : XRefTable) (dict : Dict) (b : bool)
    (s key : string) :
  Pdfcpu.validateAnnotationDict dg fuel xRefTable dict = Ok b \/
  Validate.validateAnnotationDict dg fuel xRefTable dict = Ok b ->
  resolve xRefTable dict "Subtype" = Some (PDFName s) ->
  In key (requiredKeys s) ->
  exists o, resolve xRefTable dict key = Some o /\ o <> PDFNull.
Proof.
  intros H Hs Hk.
  destruct (accepted_subtype_validator _ _ _ _ _ _ H Hs)
    as [(d & Hlk & Hval) | (d & Hlk & Hval)];
    [apply lookupDescriptor_pdfcpu_In in Hlk as [_ Hlk]
    |apply lookupDescriptor_validate_In in Hlk as [_ Hlk]];
    cbn in Hlk;
    repeat (destruct Hlk as [Hlk | Hlk]; [injection Hlk as <- <-|]);
    try contradiction;
    try (cbn in Hk; contradiction);
    required_entries Hval Hk.
Qed.

Lemma accepted_annotation_has_required_entries_witness :
  exists o, resolve (emptyTable V14 ValidationStrict) (minimalAnnot true "PrinterMark") "AP"
            = Some o /\ o <> PDFNull.
Proof.
  apply (accepted_annotation_has_required_entries acceptAll 0
           (emptyTable V14 ValidationStrict) (minimalAnnot true "PrinterMark") false
           "PrinterMark" "AP").
  - left. reflexivity.
  - reflexivity.
  - right. left. reflexivity.
Defined.

(** ** Errors of the dispatch *)

Lemma pdfcpu_lookupDescriptor_floor dg s vmin :
  In (s, vmin) subtypeFloors ->
  exists d, Pdfcpu.lookupDescriptor s (Pdfcpu.annotationTable dg) = Some (s, d) /\
            Pdfcpu.sinceVersion d = vmin.
Proof.
  intros Hin. cbn in Hin.
  repeat (destruct Hin as [Hin | Hin]; [injection Hin as <- <-; eexists; split; reflexivity|]).
  contradiction.
Qed.

Lemma subtypeFloors_names dg s :
  (forall vmin, ~ In (s, vmin) subtypeFloors) ->
  Pdfcpu.lookupDescriptor s (Pdfcpu.annotationTable dg) = None /\
  Validate.lookupDescriptor s (Validate.annotationTable dg) = None.
Proof.
  intros Hn. split.
  - destruct (Pdfcpu.lookupDescriptor s (Pdfcpu.annotationTable dg)) as [[k d]|] eqn:E;
      [|reflexivity].
    apply lookupDescriptor_pdfcpu_In in E as [-> Hin].
    destruct (Hn _ (pdfcpu_in_subtypeFloors _ _ _ Hin)).
  - destruct (Validate.lookupDescriptor s (Validate.annotationTable dg)) as [[k d]|] eqn:E;
      [|reflexivity].
    apply lookupDescriptor_validate_In in E as [-> Hin].
    destruct (Hn _ (validate_in_subtypeFloors _ _ _ Hin)).
Qed.

(** X19: the dispatch on the subtype comes right after the general
    entries.  For any dictionary whose general entries are accepted, a
    subtype that is not in the dispatch table is the unknown-subtype error
    naming it, in both revisions; and in the first revision a subtype of
    the table in a document below its minimum version is the version error
    of [ValidateVersion], whatever the other entries of the dictionary. *)
Theorem dispatch_errors_for_any_dictionary
    (dg : Delegates) (fuel : nat) (xRefTable : XRefTable) (dict : Dict) (s : string) :
  Shared.validateAnnotationDictGeneral dg xRefTable dict "annotDict" = Ok (Some s) ->
  ((forall vmin, ~ In (s, vmin) subtypeFloors) ->
   Pdfcpu.validateAnnotationDict dg fuel xRefTable dict = Err (unknownSubtype s) /\
   Validate.validateAnnotationDict dg fuel xRefTable dict = Err (unknownSubtype s)) /\
  (forall vmin, In (s, vmin) subtypeFloors ->
   versionLt (Version xRefTable) vmin = true ->
   Pdfcpu.validateAnnotationDict dg fuel xRefTable dict
   = Err (mkError UnsupportedInVersion "ValidateVersion" s)).
Proof.
  intros Hg.
  rewrite pdfcpu_validateAnnotationDict_unfold, validate_validateAnnotationDict_unfold.
  unfold Pdfcpu.validateAnnotationDictBody, Validate.validateAnnotationDictBody.
  rewrite Hg, !bind_Ok. cbv beta iota.
  unfold Pdfcpu.validateAnnotationDictConcrete, Validate.validateAnnotationDictConcrete.
  split.
  - intros Hn. destruct (subtypeFloors_names dg s Hn) as [-> ->]. split; reflexivity.
  - intros vmin Hin Hlt.
    destruct (pdfcpu_lookupDescriptor_floor dg s vmin Hin) as (d & -> & Hd).
    unfold ValidateVersion. rewrite Hd, Hlt. reflexivity.
Qed.

Lemma dispatch_errors_for_any_dictionary_witness :
  Pdfcpu.validateAnnotationDict acceptAll 0 (emptyTable V12 ValidationStrict)
    (annot "Highlight" [("T", PDFInteger 1)])
  = Err (mkError UnsupportedInVersion "ValidateVersion" "Highlight").
Proof.
  refine (proj2 (dispatch_errors_for_any_dictionary acceptAll 0
                   (emptyTable V12 ValidationStrict)
                   (annot "Highlight" [("T", PDFInteger 1)]) "Highlight" eq_refl)
            V13 _ eq_refl).
  do 6 right. left. reflexivity.
Defined.

(** ** Value sets *)

Lemma name_in_set xRefTable (dict : Dict) dictName key required sinceVersion
    (p : string -> bool) (vs : list string) r o :
  validateNameEntry xRefTable dict dictName key required sinceVersion (Some p) = Ok r ->
  (forall n, p n = true -> In n vs) ->
  resolve xRefTable dict key = Some o -> o <> PDFNull ->
  exists n, o = PDFName n /\ In n vs.
Proof.
  intros H Hp Ho Hn.
  destruct (validateKindEntry_Ok_resolved _ _ _ _ _ _ _ _ _ _ H Ho Hn)
    as (n & _ & Hc & _ & Hpn).
  apply asName_Some in Hc as ->. eauto.
Qed.

Lemma two_names (a b n : string) :
  String.eqb n a || String.eqb n b = true -> In n [a; b].
Proof.
  intros H. apply orb_true_iff in H as [H | H]; apply String.eqb_eq in H as ->;
    [left|right; left]; reflexivity.
Qed.

Lemma integer_in_range xRefTable (dict : Dict) dictName key required sinceVersion
    (lo hi : Z) r o :
  validateIntegerEntry xRefTable dict dictName key required sinceVersion
    (Some (fun i => Z.leb lo i && Z.leb i hi)) = Ok r ->
  resolve xRefTable dict key = Some o -> o <> PDFNull ->
  exists i, o = PDFInteger i /\ (lo <= i <= hi)%Z.
Proof.
  intros H Ho Hn.
  destruct (validateKindEntry_Ok_resolved _ _ _ _ _ _ _ _ _ _ H Ho Hn)
    as (i & _ & Hc & _ & Hp).
  destruct o; try discriminate. injection Hc as ->.
  apply andb_true_iff in Hp as [H1 H2]. apply Z.leb_le in H1, H2. eauto.
Qed.

(** X20: the values an accepted annotation may hold where the source
    writes the set out.  "Sy" of a Caret annotation is the name "P" or
    "None" and "CP" of a Line annotation the name "Inline" or "Top"; "RT" of
    a markup annotation is the name "R" or "Group"; "Q" of a FreeText
    annotation is an integer from 0 to 2.  Each holds when the entry is
    present.  Both revisions. *)
Theorem accepted_annotation_values
    (dg : Delegates) (fuel : nat) (xRefTable : XRefTable) (dict : Dict) (b : bool)
    (s key : string) (o : PDFObject) :
  Pdfcpu.validateAnnotationDict dg fuel xRefTable dict = Ok b \/
  Validate.validateAnnotationDict dg fuel xRefTable dict = Ok b ->
  resolve xRefTable dict "Subtype" = Some (PDFName s) ->
  resolve xRefTable dict key = Some o -> o <> PDFNull ->
  (forall vs, namedValues s key = Some vs -> exists n, o = PDFName n /\ In n vs) /\
  (isMarkup s = true -> key = "RT" -> exists n, o = PDFName n /\ In n ["R"; "Group"]) /\
  (s = "FreeText" -> key = "Q" -> exists i, o = PDFInteger i /\ (0 <= i <= 2)%Z).
Proof.
  intros H Hs Ho Hn. split; [|split].
  - intros vs Hvs.
    destruct (accepted_subtype_validator _ _ _ _ _ _ H Hs)
      as [(d & Hlk & Hval) | (d & Hlk & Hval)];
      [apply lookupDescriptor_pdfcpu_In in Hlk as [_ Hlk]
      |apply lookupDescriptor_validate_In in Hlk as [_ Hlk]];
      cbn in Hlk;
      repeat (destruct Hlk as [Hlk | Hlk]; [injection Hlk as <- <-|]);
      try contradiction; try discriminate Hvs;
      cbn [Pdfcpu.validate Validate.validate Validate.sinceVersion] in Hval;
      unfold Pdfcpu.validateAnnotationDictCaret, Validate.validateAnnotationDictCaret,
        Pdfcpu.validateAnnotationDictLine, Validate.validateAnnotationDictLine,
        discard in Hval;
      all_binds;
      unfold namedValues in Hvs;
      repeat match type of Hvs with
             | context [String.eqb ?a ?c] => destruct (String.eqb_spec a c)
             | (match ?k with EmptyString => _ | String _ _ => _ end) = _ =>
                 destruct k; try discriminate Hvs
             | (match ?c with Ascii.Ascii _ _ _ _ _ _ _ _ => _ end) = _ =>
                 destruct c
             | (if ?c then _ else _) = _ => destruct c; try discriminate Hvs
             end;
      injection Hvs as <-;
      match goal with
      | H : validateNameEntry _ _ _ ?k _ _ (Some _) = Ok _, Ho' : resolve _ _ ?k = Some _
        |- _ =>
          refine (name_in_set _ _ _ _ _ _ _ _ _ _ H _ Ho' Hn);
          first [apply two_names | intros n Hp; apply (two_names "Inline" "Top"); exact Hp]
      end.
  - intros Hmk ->.
    destruct H as [H | H].
    + rewrite pdfcpu_validateAnnotationDict_unfold in H.
      apply pdfcpu_body_Ok_inv in H as (s' & d & Hg & _ & _ & Hm & _ & _ & _ & Hlk).
      apply general_Ok_subtype in Hg as (? & [= <-] & Hg). rewrite Hs in Hg.
      injection Hg as <-. apply pdfcpu_isMarkup in Hlk. rewrite <- Hlk, Hmk in Hm.
      unfold Pdfcpu.validateMarkupAnnotation in Hm. all_binds.
      match goal with
      | H : validateNameEntry _ _ _ "RT" _ _ _ = Ok _ |- _ =>
          exact (name_in_set _ _ _ _ _ _ _ _ _ _ H (two_names "R" "Group") Ho Hn)
      end.
    + rewrite validate_validateAnnotationDict_unfold in H.
      apply validate_body_Ok_inv in H as (s' & d & Hg & _ & _ & Hm & _ & _ & _ & Hlk).
      apply general_Ok_subtype in Hg as (? & [= <-] & Hg). rewrite Hs in Hg.
      injection Hg as <-. apply validate_isMarkup in Hlk. rewrite <- Hlk, Hmk in Hm.
      unfold Validate.validateMarkupAnnotation in Hm. all_binds.
      match goal with
      | H : validateNameEntry _ _ _ "RT" _ _ _ = Ok _ |- _ =>
          exact (name_in_set _ _ _ _ _ _ _ _ _ _ H (two_names "R" "Group") Ho Hn)
      end.
  - intros -> ->.
    destruct (accepted_subtype_validator _ _ _ _ _ _ H Hs)
      as [(d & Hlk & Hval) | (d & Hlk & Hval)];
      [apply lookupDescriptor_pdfcpu_In in Hlk as [_ Hlk]
      |apply lookupDescriptor_validate_In in Hlk as [_ Hlk]];
      cbn in Hlk;
      repeat (destruct Hlk as [Hlk | Hlk]; [try discriminate Hlk; injection Hlk as <-|]);
      try contradiction;
      cbn [Pdfcpu.validate Validate.validate Validate.sinceVersion] in Hval;
      unfold Pdfcpu.validateAnnotationDictFreeText,
        Pdfcpu.validateAnnotationDictFreeTextPart1,
        Validate.validateAnnotationDictFreeText,
        Validate.validateAnnotationDictFreeTextPart1, discard in Hval;
      all_binds;
      match goal with
      | H : validateIntegerEntry _ _ _ "Q" _ _ _ = Ok _ |- _ =>
          exact (integer_in_range _ _ _ _ _ _ _ _ _ _ H Ho Hn)
      end.
Qed.

Lemma accepted_annotation_values_witness :
  (forall vs, namedValues "Caret" "Sy" = Some vs ->
     exists n, PDFName "None" = PDFName n /\ In n vs) /\
  (isMarkup "Caret" = true -> "Sy" = "RT" ->
     exists n, PDFName "None" = PDFName n /\ In n ["R"; "Group"]) /\
  ("Caret" = "FreeText" -> "Sy" = "Q" ->
     exists i, PDFName "None" = PDFInteger i /\ (0 <= i <= 2)%Z).
Proof.
  apply (accepted_annotation_values acceptAll 0 (emptyTable V15 ValidationStrict)
           (annot "Caret" [("Sy", PDFName "None")]) false "Caret" "Sy" (PDFName "None"));
    [left; reflexivity|reflexivity|reflexivity|discriminate].
Defined.

Lemma Dereference_direct xRefTable (v : PDFObject) :
  neitherReferenceNorDict v = true -> Dereference xRefTable v = Ok v.
Proof. destruct v; try discriminate; reflexivity. Qed.

(** X21: [validateAnnotationDictMovie] looks at "A" only when it resolves
    to a dictionary, which it hands to the delegate for movie activation
    dictionaries; the [switch] has no default.  In a Movie annotation
    without "A", writing any direct object that is not a dictionary under
    "A" leaves the result of [validateAnnotationDict] as it is.  Both
    revisions. *)
Theorem movie_activation_of_another_type_not_examined
    (dg : Delegates) (fuel : nat) (xRefTable : XRefTable) (dict : Dict) (v : PDFObject) :
  resolve xRefTable dict "Subtype" = Some (PDFName "Movie") ->
  dict !! "A" = None ->
  neitherReferenceNorDict v = true ->
  Pdfcpu.validateAnnotationDict dg fuel xRefTable (<["A" := v]> dict)
  = Pdfcpu.validateAnnotationDict dg fuel xRefTable dict /\
  Validate.validateAnnotationDict dg fuel xRefTable (<["A" := v]> dict)
  = Validate.validateAnnotationDict dg fuel xRefTable dict.
Proof.
  intros Hs HA Hv. pose proof (Dereference_direct xRefTable v Hv) as Hd.
  unfold_bodies. split; general_unchanged Hs.
  - rewrite !(pdfcpu_lookupDescriptor_table dg "Movie" _ eq_refl).
    cbn [Pdfcpu.validate Pdfcpu.markup Pdfcpu.sinceVersion].
    unfold Pdfcpu.validateAnnotationDictMovie, Find.
    rewrite lookup_insert_eq, HA, Hd, bind_Ok.
    destruct v; try discriminate Hv; other_entries; reflexivity.
  - rewrite !(validate_lookupDescriptor_table dg "Movie" _ eq_refl).
    cbn [Validate.validate Validate.markup Validate.sinceVersion].
    unfold Validate.validateAnnotationDictMovie, Find.
    rewrite lookup_insert_eq, HA, Hd, bind_Ok.
    destruct v; try discriminate Hv; other_entries; reflexivity.
Qed.

Lemma movie_activation_of_another_type_not_examined_witness :
  Pdfcpu.validateAnnotationDict acceptAll 0 (emptyTable V12 ValidationStrict)
    (<["A" := PDFInteger 7]> (minimalAnnot true "Movie"))
  = Pdfcpu.validateAnnotationDict acceptAll 0 (emptyTable V12 ValidationStrict)
      (minimalAnnot true "Movie") /\
  Validate.validateAnnotationDict acceptAll 0 (emptyTable V12 ValidationStrict)
    (<["A" := PDFInteger 7]> (minimalAnnot true "Movie"))
  = Validate.validateAnnotationDict acceptAll 0 (emptyTable V12 ValidationStrict)
      (minimalAnnot true "Movie").
Proof.
  apply (movie_activation_of_another_type_not_examined acceptAll 0
           (emptyTable V12 ValidationStrict) (minimalAnnot true "Movie") (PDFInteger 7));
    reflexivity.
Defined.

(** ** The two revisions *)

Lemma okImplies_bind_unit (r r' : Result unit) :
  okImplies r r' -> okImplies (bind r (fun _ => Ok tt)) r'.
Proof.
  intros H [] Hb. destruct r as [[]| | |]; try discriminate. apply H. reflexivity.
Qed.

Lemma okImplies_after_versionCheck {A : Type} xRefTable fn dictName sinceVersion
    (k : unit -> Result A) (r' : Result A) :
  (versionLt (Version xRefTable) sinceVersion = false -> okImplies (k tt) r') ->
  okImplies (bind (Validate.versionCheck xRefTable fn dictName sinceVersion) k) r'.
Proof.
  unfold Validate.versionCheck. intros H a.
  destruct (versionLt (Version xRefTable) sinceVersion); [discriminate|].
  exact (H eq_refl a).
Qed.

Lemma validateKindEntry_okImplies_above {A : Type} (cast : PDFObject -> option A)
    (x : XRefTable) (dict : Dict) dictName entryName required floor floor'
    (p : option (A -> bool)) :
  versionLt (Version x) floor' = false ->
  okImplies (validateKindEntry cast x dict dictName entryName required floor p)
            (validateKindEntry cast x dict dictName entryName required floor' p).
Proof.
  intros Hv r. unfold validateKindEntry, mbind, result_bind, bind.
  destruct (Find dict entryName) as [obj|]; [|trivial].
  destruct (Dereference x obj) as [o| | |]; trivial.
  rewrite Hv. destruct (versionLt (Version x) floor); [|trivial].
  destruct o; first [discriminate | trivial].
Qed.

Section Revisions.
Variable dg : Delegates.
Variable x : XRefTable.
Hypothesis Hv11 : versionLe V11 (Version x) = true.
Hypothesis Hdest : destinationsResolve dg x.

Lemma revisions_floor_le (e : Validate.RelaxedEntry) (e' : Pdfcpu.RelaxedEntry) :
  versionLe (snd (Pdfcpu.floors e')) (snd (Validate.floors e)) = true ->
  versionLe (fst (Pdfcpu.floors e')) (fst (Validate.floors e)) = true ->
  versionLe (Pdfcpu.sinceVersionIn (ValidationModeOf x) e')
            (Validate.sinceVersionIn (ValidationModeOf x) e) = true.
Proof.
  unfold Pdfcpu.sinceVersionIn, Validate.sinceVersionIn.
  destruct (ValidationModeOf x); cbn; trivial.
Qed.

Lemma version_refl : versionLe (Version x) (Version x) = true.
Proof. destruct (Version x); reflexivity. Qed.

Lemma validateActionOrDestination_revisions (dict : Dict) dictName :
  okImplies (Validate.validateActionOrDestination dg x dict dictName)
            (Pdfcpu.validateActionOrDestination dg x dict dictName V11).
Proof.
  unfold Validate.validateActionOrDestination, Pdfcpu.validateActionOrDestination,
    mbind, result_bind.
  apply okImplies_bind; [apply okImplies_refl|intros [d|]; [apply okImplies_refl|]].
  unfold validateEntry, validateKindEntry, Find, mbind, result_bind, bind.
  destruct (dict !! "Dest") as [d2|]; [|discriminate].
  intros [] H. destruct (Hdest d2 H) as (o & -> & Ho).
  assert (Hlt : versionLt (Version x) V11 = false).
  { rewrite versionLt_le, Hv11. reflexivity. }
  rewrite Hlt. destruct Ho as [Hnull | Ho]; [rewrite Hnull; reflexivity|].
  destruct o; first [reflexivity | exact Ho].
Qed.

Ltac revision_leaf :=
  first
    [ apply okImplies_refl
    | apply validateActionOrDestination_revisions
    | apply validateKindEntry_okImplies;
        [ reflexivity | apply version_refl
        | first [ reflexivity | apply revisions_floor_le; reflexivity
                | destruct (ValidationModeOf x); reflexivity ]
        | intros ?; reflexivity
        | first [ exact I | intros ? H; exact H ] ]
    | apply validateKindEntry_okImplies_above; assumption
    | apply validateIndRefEntry_okImplies; [ apply version_refl | reflexivity ] ].

Ltac revision_structure known :=
  repeat first
    [ revision_leaf
    | known
    | apply okImplies_after_versionCheck; intros ?
    | apply okImplies_bind; [|intros ?]
    | apply okImplies_bind_unit
    | match goal with
      | |- okImplies (match ?c with _ => _ end) _ => destruct c
      end ].

Section Recursion.
Variables rec rec' : XRefTable -> Dict -> Result bool.
Hypothesis Hrec : forall d, okImplies (rec x d) (rec' x d).

Ltac recursion := apply Hrec.

Lemma validateMarkupAnnotation_revisions (dict : Dict) :
  okImplies (Validate.validateMarkupAnnotation dg rec x dict)
            (Pdfcpu.validateMarkupAnnotation dg rec' x dict).
Proof.
  unfold Validate.validateMarkupAnnotation, Pdfcpu.validateMarkupAnnotation.
  shared. accessors. revision_structure recursion.
Qed.

Lemma validateAnnotationDictSpecial_revisions (dict : Dict) dictName :
  okImplies (Shared.validateAnnotationDictSpecial rec x dict dictName)
            (Shared.validateAnnotationDictSpecial rec' x dict dictName).
Proof. shared. accessors. revision_structure recursion. Qed.

Lemma validators_revisions k d (dict : Dict) :
  In (k, d) (Validate.annotationTable dg) ->
  exists d',
    Pdfcpu.lookupDescriptor k (Pdfcpu.annotationTable dg) = Some (k, d') /\
    Pdfcpu.sinceVersion d' = Validate.sinceVersion d /\
    Pdfcpu.markup d' = Validate.markup d /\
    okImplies (Validate.validate d x dict k (Validate.sinceVersion d))
              (Pdfcpu.validate d' x dict k).
Proof.
  intros Hin. cbn in Hin.
  repeat (destruct Hin as [Hin|Hin];
          [injection Hin as <- <-; eexists; split; [reflexivity|];
           split; [reflexivity|]; split; [reflexivity|]|]);
    [..|contradiction];
    cbn [Validate.validate Validate.sinceVersion Pdfcpu.validate];
    unfold Validate.validateAnnotationDictText, Validate.validateAnnotationDictLink,
      Validate.validateAnnotationDictFreeText, Validate.validateAnnotationDictFreeTextPart1,
      Validate.validateAnnotationDictFreeTextPart2, Validate.validateAnnotationDictLine,
      Validate.validateAnnotationDictCircleOrSquare, Validate.validateAnnotationDictPolyLine,
      Validate.validateTextMarkupAnnotation, Validate.validateAnnotationDictStamp,
      Validate.validateAnnotationDictCaret, Validate.validateAnnotationDictInk,
      Validate.validateAnnotationDictPopup, Validate.validateAnnotationDictFileAttachment,
      Validate.validateAnnotationDictSound, Validate.validateAnnotationDictMovie,
      Validate.validateAnnotationDictWidget, Validate.validateAnnotationDictScreen,
      Validate.validateAnnotationDictPrinterMark, Validate.validateAnnotationDictTrapNet,
      Validate.validateAnnotationDictWatermark, Validate.validateAnnotationDict3D,
      Validate.validateAnnotationDictRedact,
      Pdfcpu.validateAnnotationDictText, Pdfcpu.validateAnnotationDictLink,
      Pdfcpu.validateAnnotationDictFreeText, Pdfcpu.validateAnnotationDictFreeTextPart1,
      Pdfcpu.validateAnnotationDictFreeTextPart2, Pdfcpu.validateAnnotationDictLine,
      Pdfcpu.validateAnnotationDictCircleOrSquare, Pdfcpu.validateAnnotationDictPolyLine,
      Pdfcpu.validateTextMarkupAnnotation, Pdfcpu.validateAnnotationDictStamp,
      Pdfcpu.validateAnnotationDictCaret, Pdfcpu.validateAnnotationDictInk,
      Pdfcpu.validateAnnotationDictPopup, Pdfcpu.validateAnnotationDictFileAttachment,
      Pdfcpu.validateAnnotationDictSound, Pdfcpu.validateAnnotationDictMovie,
      Pdfcpu.validateAnnotationDictWidget, Pdfcpu.validateAnnotationDictScreen,
      Pdfcpu.validateAnnotationDictPrinterMark, Pdfcpu.validateAnnotationDictTrapNet,
      Pdfcpu.validateAnnotationDictWatermark, Pdfcpu.validateAnnotationDict3D,
      Pdfcpu.validateAnnotationDictRedact;
    shared; accessors; revision_structure fail.
Qed.

Lemma body_revisions (dict : Dict) :
  okImplies (Validate.validateAnnotationDictBody dg rec x dict)
            (Pdfcpu.validateAnnotationDictBody dg rec' x dict).
Proof.
  unfold Validate.validateAnnotationDictBody, Pdfcpu.validateAnnotationDictBody,
    Validate.validateAnnotationDictConcrete, Pdfcpu.validateAnnotationDictConcrete,
    mbind, result_bind.
  apply okImplies_bind; [apply okImplies_refl|].
  intros [subtype|]; [|apply okImplies_refl].
  apply okImplies_bind; [|intros _; apply okImplies_bind;
                            [apply validateAnnotationDictSpecial_revisions
                            |intros _; apply okImplies_refl]].
  destruct (Validate.lookupDescriptor subtype (Validate.annotationTable dg))
    as [[k d]|] eqn:E; [|discriminate].
  apply lookupDescriptor_validate_In in E as [-> Hin].
  destruct (validators_revisions subtype d dict Hin) as (d' & -> & Hs & Hm & Hval).
  intros [] H.
  change (bind ?r ?k) with (r ≫= k) in H.
  apply bind_eq_Ok in H as ([] & H1 & H2).
  pose proof (validate_validators_version _ _ _ _ _ Hin H2) as Hlt.
  unfold ValidateVersion. rewrite Hs, Hlt, Hm. cbn [bind].
  rewrite (Hval tt H2).
  destruct (Validate.markup d); [|reflexivity].
  rewrite (validateMarkupAnnotation_revisions dict tt H1). reflexivity.
Qed.

End Recursion.

Lemma validateAnnotationDict_revisions fuel (dict : Dict) :
  okImplies (Validate.validateAnnotationDict dg fuel x dict)
            (Pdfcpu.validateAnnotationDict dg fuel x dict).
Proof.
  revert dict. induction fuel as [|fuel IH]; intros dict;
    rewrite pdfcpu_validateAnnotationDict_unfold, validate_validateAnnotationDict_unfold;
    apply body_revisions; intros d; [apply okImplies_refl|apply IH].
Qed.

End Revisions.

Lemma acceptResolved_emptyTable v m : destinationsResolve acceptResolved (emptyTable v m).
Proof.
  intros obj H. destruct obj; try discriminate H; eexists; (split; [reflexivity|]);
    right; reflexivity.
Qed.

(** X22: the first revision accepts whatever the second revision accepts.
    In a document of version 1.1 or later, an annotation dictionary, a page
    and a page tree that validate in the revision of package [validate]
    validate in the revision of package [pdfcpu], with the same result: the
    second revision only adds requirements (an action or a destination for
    Link) and its floors under relaxed validation are not lower.  The
    destination delegate has to resolve what it accepts, since the second
    revision hands it "Dest" as found and the first one resolved. *)
Theorem first_revision_accepts_what_second_revision_accepts
    (dg : Delegates) (fuel : nat) (xRefTable : XRefTable) (dict : Dict) :
  versionLe V11 (Version xRefTable) = true ->
  destinationsResolve dg xRefTable ->
  (forall b, Validate.validateAnnotationDict dg fuel xRefTable dict = Ok b ->
             Pdfcpu.validateAnnotationDict dg fuel xRefTable dict = Ok b) /\
  (Validate.validatePageAnnotations dg fuel xRefTable dict = Ok tt ->
   Pdfcpu.validatePageAnnotations dg fuel xRefTable dict = Ok tt) /\
  (Validate.validatePagesAnnotations dg fuel xRefTable dict = Ok tt ->
   Pdfcpu.validatePagesAnnotations dg fuel xRefTable dict = Ok tt).
Proof.
  intros Hv Hd.
  pose proof (fun d => validateAnnotationDict_revisions dg xRefTable Hv Hd fuel d) as H.
  destruct xRefTable as [v m t].
  assert (Hvv : versionLe v v = true) by (destruct v; reflexivity).
  repeat split.
  - apply H.
  - apply (validatePageAnnotations_okImplies v v m m t Hvv _ _ H).
  - apply (validatePagesAnnotations_okImplies v v m m t Hvv _ _ H).
Qed.

Lemma first_revision_accepts_what_second_revision_accepts_witness :
  Pdfcpu.validatePageAnnotations acceptResolved 0 (emptyTable V13 ValidationStrict)
    (pageDict [PDFDict linkAnnot; PDFDict trapNetAnnot]) = Ok tt.
Proof.
  apply (first_revision_accepts_what_second_revision_accepts acceptResolved 0
           (emptyTable V13 ValidationStrict)
           (pageDict [PDFDict linkAnnot; PDFDict trapNetAnnot])
           eq_refl (acceptResolved_emptyTable _ _)).
  reflexivity.
Defined.

(** * The minimum versions of the dispatch table *)

(** ** Link in a document of version 1.0 *)

(** The first revision hands the floor 1.1 to both "A" and "Dest" (line
    312): no Link annotation that has one of them is accepted in a document
    of version 1.0. *)
Lemma pdfcpu_link_at_V10 dg fuel xRefTable (dict : Dict) :
  Version xRefTable = V10 ->
  resolve xRefTable dict "Subtype" = Some (PDFName "Link") ->
  (exists o, resolve xRefTable dict "A" = Some o /\ o <> PDFNull) \/
  (exists o, resolve xRefTable dict "Dest" = Some o /\ o <> PDFNull) ->
  forall b, Pdfcpu.validateAnnotationDict dg fuel xRefTable dict <> Ok b.
Proof.
  intros Hver Hs Hentry b H.
  rewrite pdfcpu_validateAnnotationDict_unfold in H.
  apply pdfcpu_body_Ok_inv in H as (s & d & Hg & _ & _ & _ & Hval & _ & _ & Hlk).
  apply general_Ok_subtype in Hg as (? & [= <-] & Hg). rewrite Hs in Hg.
  injection Hg as <-.
  change (Pdfcpu.lookupDescriptor "Link" (Pdfcpu.annotationTable dg))
    with (Some ("Link", Pdfcpu.mkDescriptor (Pdfcpu.validateAnnotationDictLink dg) V10 false))
    in Hlk.
  injection Hlk as <-. cbn [Pdfcpu.validate] in Hval.
  unfold Pdfcpu.validateAnnotationDictLink in Hval.
  apply bind_eq_Ok in Hval as (u & Hval & _).
  unfold Pdfcpu.validateActionOrDestination in Hval.
  apply bind_eq_Ok in Hval as (r & HA & Hval).
  assert (Hfloor : versionLt (Version xRefTable) V11 = true) by (rewrite Hver; reflexivity).
  destruct Hentry as [(o & Ho & Hn) | (o & Ho & Hn)].
  - destruct (validateKindEntry_Ok_resolved _ _ _ _ _ _ _ _ _ _ HA Ho Hn)
      as (? & _ & _ & Hv & _). congruence.
  - destruct r as [a|].
    + apply validateKindEntry_Ok_Some in HA as (? & _ & _ & _ & Hv & _). congruence.
    + apply bind_eq_Ok in Hval as (r' & HD & _).
      destruct (validateKindEntry_Ok_resolved _ _ _ _ _ _ _ _ _ _ HD Ho Hn)
        as (? & _ & _ & Hv & _). congruence.
Qed.

(** The second revision keeps the floor 1.1 for "A" (line 1900) and reads
    "Dest" without a floor (line 1909): in a document of version 1.0 a Link
    annotation with an action is not accepted. *)
Lemma validate_link_with_action_at_V10 dg fuel xRefTable (dict : Dict) :
  Version xRefTable = V10 ->
  resolve xRefTable dict "Subtype" = Some (PDFName "Link") ->
  (exists o, resolve xRefTable dict "A" = Some o /\ o <> PDFNull) ->
  forall b, Validate.validateAnnotationDict dg fuel xRefTable dict <> Ok b.
Proof.
  intros Hver Hs (o & Ho & Hn) b H.
  rewrite validate_validateAnnotationDict_unfold in H.
  apply validate_body_Ok_inv in H as (s & d & Hg & _ & _ & _ & Hval & _ & _ & Hlk).
  apply general_Ok_subtype in Hg as (? & [= <-] & Hg). rewrite Hs in Hg.
  injection Hg as <-.
  change (Validate.lookupDescriptor "Link" (Validate.annotationTable dg))
    with (Some ("Link",
                Validate.mkDescriptor (Validate.validateAnnotationDictLink dg) V10 false))
    in Hlk.
  injection Hlk as <-. cbn [Validate.validate Validate.sinceVersion] in Hval.
  unfold Validate.validateAnnotationDictLink in Hval.
  apply bind_eq_Ok in Hval as (u & _ & Hval).
  apply bind_eq_Ok in Hval as (u' & Hval & _).
  unfold Validate.validateActionOrDestination in Hval.
  apply bind_eq_Ok in Hval as (r & HA & _).
  destruct (validateKindEntry_Ok_resolved _ _ _ _ _ _ _ _ _ _ HA Ho Hn)
    as (? & _ & _ & Hv & _).
  rewrite Hver in Hv. discriminate Hv.
Qed.

(** C3, as stated, fails: the dispatch table gives Link the minimum
    version 1.0, and in a document of version 1.0 the first revision
    rejects the Link annotation that has "Subtype", "Rect" and a
    destination, and nothing else, with an unsupported-in-version error on
    "Dest".  The second revision accepts the same annotation. *)
Lemma link_with_destination_rejected_at_minimum_version :
  In ("Link", V10) subtypeFloors /\
  minimalAnnot true "Link"
  = list_to_map [("Subtype", PDFName "Link"); ("Rect", rect); ("Dest", linkDest)] /\
  Pdfcpu.validateAnnotationDict acceptAll 0 (emptyTable V10 ValidationStrict)
    (minimalAnnot true "Link")
  = Err (mkError UnsupportedInVersion "Link" "Dest") /\
  Validate.validateAnnotationDict acceptAll 0 (emptyTable V10 ValidationStrict)
    (minimalAnnot true "Link")
  = Ok false.
Proof.
  split; [right; left; reflexivity|]. repeat split; vm_compute; reflexivity.
Qed.

(** C3, amended: for every subtype S of the dispatch table with minimum
    version Vmin(S), the minimal well-formed annotation of subtype S
    ("Subtype", "Rect" and the required entries; for Link a destination) is
    rejected with an unsupported-in-version error when the document version
    is below Vmin(S), and is accepted when the document version is at least
    Vmin(S), with one exception: the first revision accepts the Link
    annotation from version 1.1 on only.  In a document of version 1.0 it
    rejects the minimal Link annotation with an unsupported-in-version error
    on "Dest" and accepts no Link annotation that has an action or a
    destination; the second revision accepts no Link annotation that has an
    action there.  A subtype name that is not in the table is rejected with
    an unknown-subtype error that carries the name.  For delegates that
    accept the minimal annotations, whatever the validation mode and the
    fuel. *)
Theorem subtype_minimum_version
    (dg : Delegates) (Hdg : acceptsRequiredEntries dg)
    (fuel : nat) (xRefTable : XRefTable) :
  (forall (k : string) (v : Pdfcpu.Descriptor),
     In (k, v) (Pdfcpu.annotationTable dg) ->
     (versionLe (Pdfcpu.sinceVersion v) (Version xRefTable) = true ->
      (k = "Link" -> versionLe V11 (Version xRefTable) = true) ->
      Pdfcpu.validateAnnotationDict dg fuel xRefTable (minimalAnnot true k)
      = Ok (String.eqb k "TrapNet")) /\
     (versionLt (Version xRefTable) (Pdfcpu.sinceVersion v) = true ->
      failsWith UnsupportedInVersion
        (Pdfcpu.validateAnnotationDict dg fuel xRefTable (minimalAnnot true k)))) /\
  (Version xRefTable = V10 ->
   Pdfcpu.validateAnnotationDict dg fuel xRefTable (minimalAnnot true "Link")
   = Err (mkError UnsupportedInVersion "Link" "Dest") /\
   (forall dict : Dict,
      resolve xRefTable dict "Subtype" = Some (PDFName "Link") ->
      (exists o, resolve xRefTable dict "A" = Some o /\ o <> PDFNull) \/
      (exists o, resolve xRefTable dict "Dest" = Some o /\ o <> PDFNull) ->
      forall b, Pdfcpu.validateAnnotationDict dg fuel xRefTable dict <> Ok b) /\
   (forall dict : Dict,
      resolve xRefTable dict "Subtype" = Some (PDFName "Link") ->
      (exists o, resolve xRefTable dict "A" = Some o /\ o <> PDFNull) ->
      forall b, Validate.validateAnnotationDict dg fuel xRefTable dict <> Ok b)) /\
  (forall (k : string) (v : Validate.Descriptor),
     In (k, v) (Validate.annotationTable dg) ->
     (versionLe (Validate.sinceVersion v) (Version xRefTable) = true ->
      Validate.validateAnnotationDict dg fuel xRefTable (minimalAnnot true k)
      = Ok (String.eqb k "TrapNet")) /\
     (versionLt (Version xRefTable) (Validate.sinceVersion v) = true ->
      failsWith UnsupportedInVersion
        (Validate.validateAnnotationDict dg fuel xRefTable (minimalAnnot true k)))) /\
  (forall (s : string) (dict : Dict) (rec : XRefTable -> Dict -> Result bool),
     ~ In s (map fst (Pdfcpu.annotationTable dg)) ->
     Pdfcpu.validateAnnotationDictConcrete dg rec xRefTable dict s
     = Err (unknownSubtype s)) /\
  (forall (s : string) (dict : Dict) (rec : XRefTable -> Dict -> Result bool),
     ~ In s (map fst (Validate.annotationTable dg)) ->
     Validate.validateAnnotationDictConcrete dg rec xRefTable dict s
     = Err (unknownSubtype s)) /\
  (forall (s : string) (dict : Dict),
     ~ In s (map fst subtypeFloors) ->
     Shared.validateAnnotationDictGeneral dg xRefTable dict "annotDict" = Ok (Some s) ->
     Pdfcpu.validateAnnotationDict dg fuel xRefTable dict = Err (unknownSubtype s) /\
     Validate.validateAnnotationDict dg fuel xRefTable dict = Err (unknownSubtype s)).
Proof.
  split; [|split; [|split; [|split; [|split]]]].
  - intros k v. apply pdfcpu_minimal. exact Hdg.
  - intros Hver. split; [|split].
    + destruct xRefTable as [ver m tbl]. cbn in Hver. subst ver.
      exact (pdfcpu_link_with_destination_at_V10 dg fuel m tbl).
    + intros dict. apply pdfcpu_link_at_V10. exact Hver.
    + intros dict. apply validate_link_with_action_at_V10. exact Hver.
  - intros k v. apply validate_minimal. exact Hdg.
  - intros s dict rec Hn. unfold Pdfcpu.validateAnnotationDictConcrete.
    rewrite (pdfcpu_lookupDescriptor_None _ _ Hn). reflexivity.
  - intros s dict rec Hn. unfold Validate.validateAnnotationDictConcrete.
    rewrite (validate_lookupDescriptor_None _ _ Hn). reflexivity.
  - intros s dict Hn Hg.
    rewrite pdfcpu_validateAnnotationDict_unfold, validate_validateAnnotationDict_unfold.
    unfold Pdfcpu.validateAnnotationDictBody, Validate.validateAnnotationDictBody.
    rewrite Hg. cbn.
    unfold Pdfcpu.validateAnnotationDictConcrete, Validate.validateAnnotationDictConcrete.
    rewrite pdfcpu_lookupDescriptor_None, validate_lookupDescriptor_None; [split; reflexivity| |].
    + replace (map fst (Validate.annotationTable dg)) with (map fst subtypeFloors)
        by reflexivity. exact Hn.
    + replace (map fst (Pdfcpu.annotationTable dg)) with (map fst subtypeFloors)
        by reflexivity. exact Hn.
Qed.

Lemma subtype_minimum_version_witness :
  Pdfcpu.validateAnnotationDict acceptAll 0 (emptyTable V11 ValidationStrict)
    (minimalAnnot true "Link") = Ok false.
Proof.
  apply (proj1 (proj1 (subtype_minimum_version acceptAll acceptAll_acceptsRequiredEntries
                         0 (emptyTable V11 ValidationStrict))
                  "Link"
                  (Pdfcpu.mkDescriptor (Pdfcpu.validateAnnotationDictLink acceptAll) V10 false)
                  ltac:(right; left; reflexivity))).
  - reflexivity.
  - intros _. reflexivity.
Defined.
